(** * gdrive-mcp: a shallow embedding of the Drive tools

    The repository is a parameter-translation layer over the Google API
    client: [server.py] (the protocol tools), [_tools/gdrive_download.py]
    and [_tools/gdrive_recent.py] (the two command-line utilities).

    Python values are embedded as follows.
    - [str] is [string]; every character is read as the code point of its
      8-bit value (text outside that range is not distinguished).
    - [int] is [Z]; [bytes] is [list byte].
    - Values that come out of the API client are JSON values ([json]); a
      [dict] is an association list in insertion order.  Floating-point
      numbers are left out.
    - Exceptions, the persisted token file and the calls made to the
      outside world are explicit: a computation maps a [World] to an
      [Outcome], the [World] it leaves behind and the [Event]s it caused. *)

From Stdlib Require Import String Ascii ZArith List Bool Lia DecimalString.
From Stdlib Require Import Strings.Byte.
From Stdlib Require Import Permutation.
From Stdlib Require DecimalPos DecimalFacts.
Import ListNotations.
Open Scope string_scope.
Open Scope Z_scope.

Set Implicit Arguments.
Set Warnings "-register-all".

(** ** Python values *)

Inductive json : Type :=
| JNull
| JBool (b : bool)
| JInt (n : Z)
| JStr (s : string)
| JArr (items : list json)
| JObj (members : list (string * json)).

(** [BaseException] as far as the sources can see it: the API client's
    [HttpError], any other subclass of [Exception], and the [SystemExit]
    of [sys.exit]. *)
Inductive exn : Type :=
| HttpError (msg : string)
| PyException (msg : string)
| SystemExit (code : Z).

(** A failure of a collaborator (the provider or a library call).  Both
    kinds are subclasses of [Exception]. *)
Inductive failure : Type :=
| Http (msg : string)
| Other (msg : string).

Definition exn_of_failure (f : failure) : exn :=
  match f with
  | Http m => HttpError m
  | Other m => PyException m
  end.

Definition dquote : ascii := "034"%char.
Definition newline : ascii := "010"%char.

Definition string_of_Z (n : Z) : string := NilZero.string_of_int (Z.to_int n).

Definition str_eqb (a b : string) : bool := String.eqb a b.

Fixpoint assoc {A : Type} (k : string) (l : list (string * A)) : option A :=
  match l with
  | [] => None
  | (k', v) :: l' => if str_eqb k k' then Some v else assoc k l'
  end.

Definition keys {A : Type} (l : list (string * A)) : list string := map fst l.

(** [k in d] for a dict with string keys. *)
Definition has_key {A : Type} (k : string) (l : list (string * A)) : bool :=
  match assoc k l with Some _ => true | None => false end.

Definition py_type_name (v : json) : string :=
  match v with
  | JNull => "NoneType"
  | JBool _ => "bool"
  | JInt _ => "int"
  | JStr _ => "str"
  | JArr _ => "list"
  | JObj _ => "dict"
  end.

Definition attribute_error (v : json) (attr : string) : exn :=
  PyException ("'" ++ py_type_name v ++ "' object has no attribute '" ++ attr ++ "'").

(** Truth value of an object, as [if x:] and [not x] test it. *)
Definition py_truthy (v : json) : bool :=
  match v with
  | JNull => false
  | JBool b => b
  | JInt n => negb (n =? 0)
  | JStr s => negb (str_eqb s "")
  | JArr l => match l with [] => false | _ => true end
  | JObj l => match l with [] => false | _ => true end
  end.

(** Truth value of an optional string argument ([None] and [''] are false). *)
Definition opt_truthy (o : option string) : bool :=
  match o with
  | None => false
  | Some s => negb (str_eqb s "")
  end.

Fixpoint chars (s : string) : list json :=
  match s with
  | EmptyString => []
  | String c s' => JStr (String c EmptyString) :: chars s'
  end.

(** ** [json.dumps] *)

Definition hex_digit (n : N) : ascii :=
  match n with
  | 0%N => "0" | 1%N => "1" | 2%N => "2" | 3%N => "3" | 4%N => "4"
  | 5%N => "5" | 6%N => "6" | 7%N => "7" | 8%N => "8" | 9%N => "9"
  | 10%N => "a" | 11%N => "b" | 12%N => "c" | 13%N => "d" | 14%N => "e"
  | _ => "f"
  end%char.

(** The replacement of one character by [ESCAPE_ASCII]: the short escapes
    of [ESCAPE_DCT], the character itself between space and tilde, and
    [\uXXXX] for the rest. *)
Definition escape_char (c : ascii) : string :=
  let n := N_of_ascii c in
  if (n =? 34)%N then String "\" (String dquote "")
  else if (n =? 92)%N then "\\"
  else if (n =? 8)%N then "\b"
  else if (n =? 12)%N then "\f"
  else if (n =? 10)%N then "\n"
  else if (n =? 13)%N then "\r"
  else if (n =? 9)%N then "\t"
  else if ((32 <=? n) && (n <=? 126))%N then String c ""
  else String "\" (String "u" (String "0" (String "0"
         (String (hex_digit (n / 16)) (String (hex_digit (n mod 16)) ""))))).

Fixpoint escape_ascii (s : string) : string :=
  match s with
  | EmptyString => ""
  | String c s' => escape_char c ++ escape_ascii s'
  end.

Definition encode_basestring_ascii (s : string) : string :=
  String dquote (escape_ascii s ++ String dquote "").

Fixpoint spaces (n : nat) : string :=
  match n with
  | O => ""
  | S n' => String " " (spaces n')
  end.

Definition newline_indent (indent : option nat) (level : nat) : string :=
  match indent with
  | None => ""
  | Some n => String newline (spaces (n * level))
  end.

Definition item_separator (indent : option nat) (level : nat) : string :=
  match indent with
  | None => ", "
  | Some _ => "," ++ newline_indent indent level
  end.

(** The encoder at nesting depth [level]; [indent = None] is the compact
    form with separators [', '] and [': ']. *)
Fixpoint dumps_at (indent : option nat) (level : nat) (v : json) {struct v} : string :=
  match v with
  | JNull => "null"
  | JBool true => "true"
  | JBool false => "false"
  | JInt n => string_of_Z n
  | JStr s => encode_basestring_ascii s
  | JArr [] => "[]"
  | JArr (x :: xs) =>
      "[" ++ newline_indent indent (S level) ++ dumps_at indent (S level) x
      ++ (fix more (l : list json) : string :=
            match l with
            | [] => ""
            | y :: l' =>
                item_separator indent (S level) ++ dumps_at indent (S level) y ++ more l'
            end) xs
      ++ newline_indent indent level ++ "]"
  | JObj [] => "{}"
  | JObj ((k, x) :: xs) =>
      "{" ++ newline_indent indent (S level)
      ++ encode_basestring_ascii k ++ ": " ++ dumps_at indent (S level) x
      ++ (fix more (l : list (string * json)) : string :=
            match l with
            | [] => ""
            | (k', y) :: l' =>
                item_separator indent (S level)
                ++ encode_basestring_ascii k' ++ ": " ++ dumps_at indent (S level) y
                ++ more l'
            end) xs
      ++ newline_indent indent level ++ "}"
  end.

Definition dumps (indent : option nat) (v : json) : string := dumps_at indent 0 v.

(** The two inner loops of the encoder, by name: what follows the first
    item of a list, and the first member of a dict. *)
Definition more_items (indent : option nat) (level : nat) : list json -> string :=
  fix more (l : list json) : string :=
    match l with
    | [] => ""
    | y :: l' =>
        item_separator indent (S level) ++ dumps_at indent (S level) y ++ more l'
    end.

Definition more_members (indent : option nat) (level : nat)
    : list (string * json) -> string :=
  fix more (l : list (string * json)) : string :=
    match l with
    | [] => ""
    | (k', y) :: l' =>
        item_separator indent (S level)
        ++ encode_basestring_ascii k' ++ ": " ++ dumps_at indent (S level) y
        ++ more l'
    end.

(** ** The outside world *)

(** [google.oauth2.credentials.Credentials], reduced to what the sources
    read: the access token, the refresh token and the expiry (seconds). *)
Record Credentials : Type := mkCredentials {
  token : option string;
  refresh_token : option string;
  expiry : option Z
}.

(** What [MediaIoBaseDownload.next_chunk] delivers on one call: the bytes
    appended to the buffer and [int(status.progress() * 100)]. *)
Record Chunk : Type := mkChunk {
  chunk_data : list byte;
  percent : Z
}.

(** A media request as [files().export_media] and [files().get_media]
    build it; nothing is sent before the first [next_chunk]. *)
Inductive MediaRequest : Type :=
| ExportMedia (fileId mimeType : string)
| GetMedia (fileId : string).

(** How [with open(path, mode) as f: f.write(content)] ends: the content
    is written; or [open] raises and the file is as it was; or [open]
    has truncated the file and the write raises, the file then holding
    [kept].  [msg] is the text of the [OSError]. *)
Inductive Saved (A : Type) : Type :=
| Complete
| Refused (msg : string)
| Cut (msg : string) (kept : A).

Arguments Complete {A}.
Arguments Refused {A} msg.
Arguments Cut {A} msg kept.

(** The collaborators the sources consume as black boxes.  A provider
    call answers with a value or with a [failure]; a download answers
    with the finite, non-empty sequence of its chunks, the provider
    signalling completion with the last one. *)
Record Env : Type := mkEnv {
  (* google-auth *)
  REFRESH_THRESHOLD : Z;
  from_authorized_user_file : string -> failure + Credentials;
  to_json : Credentials -> string;
  refresh : Credentials -> failure + Credentials;
  run_local_server : failure + Credentials;
  (* googleapiclient *)
  build : Credentials -> failure + unit;
  files_list : string -> option string -> option Z -> string -> failure + json;
  files_get : string -> string -> failure + json;
  media : MediaRequest -> (failure + Chunk) * list (failure + Chunk);
  (* the Python runtime *)
  decode_utf8_replace : list byte -> string;
  strftime_threshold : Z -> Z -> failure + string;
  reformat_iso : string -> option string;
  repr_container : json -> string;
  is_dir : string -> bool;
  path_join : string -> string -> string;
  CLIENT_SECRETS_FILE : string;
  (* the file system *)
  save_token : string -> Saved string;
  save_file : string -> list byte -> Saved (list byte)
}.

(** The state that outlives a call: the token file, the presence of the
    client registration file, and the clock. *)
Record World : Type := mkWorld {
  token_file : option string;
  client_secrets_exists : bool;
  now : Z
}.

Inductive Event : Type :=
| EvRefresh (c : Credentials)
| EvRunLocalServer
| EvWriteToken (content : string)
| EvBuild
| EvFilesList (q : string) (orderBy : option string) (pageSize : option Z) (fields : string)
| EvFilesGet (fileId fields : string)
| EvNextChunk (r : MediaRequest)
| EvPrint (line : string)
| EvWriteFile (path : string) (content : list byte)
| EvWriteTokenFailed (kept : option string)
| EvWriteFileFailed (path : string) (kept : option (list byte)).

(** [Credentials.expired] and [Credentials.valid] of google-auth. *)
Definition expired (env : Env) (t : Z) (c : Credentials) : bool :=
  match expiry c with
  | None => false
  | Some e => e - REFRESH_THRESHOLD env <=? t
  end.

Definition valid (env : Env) (t : Z) (c : Credentials) : bool :=
  match token c with
  | None => false
  | Some _ => negb (expired env t c)
  end.

(** ** Computations *)

Inductive Outcome (A : Type) : Type :=
| Ret (a : A)
| Raise (e : exn).

Arguments Raise {A} e.

Record Run (A : Type) : Type := mkRun {
  outcome : Outcome A;
  world : World;
  trace : list Event
}.

Definition M (A : Type) : Type := World -> Run A.

Definition ret {A : Type} (a : A) : M A := fun w => mkRun (Ret a) w [].

Definition raise {A : Type} (e : exn) : M A := fun w => mkRun (Raise e) w [].

Definition bind {A B : Type} (m : M A) (k : A -> M B) : M B :=
  fun w =>
    let r := m w in
    match outcome r with
    | Ret a =>
        let r' := k a (world r) in
        mkRun (outcome r') (world r') (trace r ++ trace r')
    | Raise e => mkRun (Raise e) (world r) (trace r)
    end.

Notation "x <- m ;; k" := (bind m (fun x => k))
  (at level 61, m at next level, right associativity).
Notation "m ;;; k" := (bind m (fun _ => k))
  (at level 61, right associativity).
Notation "' pat <- m ;; k" := (bind m (fun x => match x with pat => k end))
  (at level 61, pat pattern, m at next level, right associativity).

Definition emit (e : Event) : M unit := fun w => mkRun (Ret tt) w [e].

Definition get_world : M World := fun w => mkRun (Ret w) w [].

Definition put_world (w' : World) : M unit := fun _ => mkRun (Ret tt) w' [].

Definition print (line : string) : M unit := emit (EvPrint line).

Definition lift {A : Type} (r : failure + A) : M A :=
  match r with
  | inl f => raise (exn_of_failure f)
  | inr a => ret a
  end.

(** [try: body except C as e: handler e]; [handler] answers [None] for an
    exception outside the classes it names, which then propagates. *)
Definition try_except {A : Type} (body : M A) (handler : exn -> option (M A)) : M A :=
  fun w =>
    let r := body w in
    match outcome r with
    | Ret a => r
    | Raise e =>
        match handler e with
        | None => r
        | Some h =>
            let r' := h (world r) in
            mkRun (outcome r') (world r') (trace r ++ trace r')
        end
    end.

Fixpoint for_each {A B : Type} (f : A -> M B) (l : list A) : M (list B) :=
  match l with
  | [] => ret []
  | x :: l' => y <- f x ;; ys <- for_each f l' ;; ret (y :: ys)
  end.

(** [obj.get(key, default)]: only a dict has the method. *)
Definition py_get (obj : json) (key : string) (default : json) : M json :=
  match obj with
  | JObj members =>
      ret (match assoc key members with Some v => v | None => default end)
  | _ => raise (attribute_error obj "get")
  end.

(** [for x in obj]: a list yields its items, a str its characters, a dict
    its keys; nothing else is iterable. *)
Definition py_iter (obj : json) : M (list json) :=
  match obj with
  | JArr l => ret l
  | JStr s => ret (chars s)
  | JObj members => ret (map JStr (keys members))
  | _ => raise (PyException ("'" ++ py_type_name obj ++ "' object is not iterable"))
  end.

(** The [next_chunk] loop of the sources: [while not done] over the
    chunks of the answer, [report] being what the loop body does with the
    status of each chunk. *)
Fixpoint next_chunks (report : Chunk -> M unit) (r : MediaRequest)
    (cs : list (failure + Chunk)) (fh : list byte) : M (list byte) :=
  match cs with
  | [] => ret fh
  | c :: cs' =>
      emit (EvNextChunk r) ;;;
      status <- lift c ;;
      report status ;;;
      next_chunks report r cs' (fh ++ chunk_data status)
  end.

(** How an f-string renders a value; the [repr] of a list or a dict is
    left to the runtime. *)
Definition py_format (env : Env) (v : json) : string :=
  match v with
  | JNull => "None"
  | JBool true => "True"
  | JBool false => "False"
  | JInt n => string_of_Z n
  | JStr s => s
  | _ => repr_container env v
  end.

(** The loop body that ignores the status, [_, done = downloader.next_chunk()]. *)
Definition silent (status : Chunk) : M unit := ret tt.

(** [x in d] for a dict with string keys: a list or a dict is unhashable,
    any other value that is not a str is simply absent. *)
Definition py_in {A : Type} (x : json) (d : list (string * A)) : M bool :=
  match x with
  | JStr s => ret (has_key s d)
  | JArr _ | JObj _ =>
      raise (PyException ("unhashable type: '" ++ py_type_name x ++ "'"))
  | _ => ret false
  end.

(** [d[x]], after [x in d] answered. *)
Definition py_getitem {A : Type} (d : list (string * A)) (x : json) : M A :=
  match x with
  | JStr s =>
      match assoc s d with
      | Some v => ret v
      | None => raise (PyException ("'" ++ s ++ "'"))
      end
  | _ => raise (PyException (py_type_name x))
  end.

Definition py_startswith (x : json) (p : string) : M bool :=
  match x with
  | JStr s => ret (String.prefix p s)
  | _ => raise (attribute_error x "startswith")
  end.

(** [x == s] for a string literal [s]. *)
Definition py_eq_str (x : json) (s : string) : bool :=
  match x with
  | JStr s' => str_eqb s' s
  | _ => false
  end.

Definition len {A : Type} (l : list A) : Z := Z.of_nat (length l).

Section Collaborators.

Variable env : Env.

Definition call_files_list (q : string) (orderBy : option string)
    (pageSize : option Z) (fields : string) : M json :=
  emit (EvFilesList q orderBy pageSize fields) ;;;
  lift (files_list env q orderBy pageSize fields).

Definition call_files_get (fileId fields : string) : M json :=
  emit (EvFilesGet fileId fields) ;;;
  lift (files_get env fileId fields).

(** [fh = io.BytesIO()], the [next_chunk] loop, and [fh.getvalue()]. *)
Definition download (report : Chunk -> M unit) (r : MediaRequest) : M (list byte) :=
  let '(c, cs) := media env r in
  next_chunks report r (c :: cs) [].

(** [with open(TOKEN_FILE, 'w') as token: token.write(content)] *)
Definition write_token (content : string) : M unit :=
  w <- get_world ;;
  match save_token env content with
  | Complete =>
      put_world (mkWorld (Some content) (client_secrets_exists w) (now w)) ;;;
      emit (EvWriteToken content)
  | Refused msg =>
      emit (EvWriteTokenFailed None) ;;;
      raise (PyException msg)
  | Cut msg kept =>
      put_world (mkWorld (Some kept) (client_secrets_exists w) (now w)) ;;;
      emit (EvWriteTokenFailed (Some kept)) ;;;
      raise (PyException msg)
  end.

(** [with open(path, 'wb') as f: f.write(content)] *)
Definition write_file (path : string) (content : list byte) : M unit :=
  match save_file env path content with
  | Complete => emit (EvWriteFile path content)
  | Refused msg =>
      emit (EvWriteFileFailed path None) ;;;
      raise (PyException msg)
  | Cut msg kept =>
      emit (EvWriteFileFailed path (Some kept)) ;;;
      raise (PyException msg)
  end.

(** [if TOKEN_FILE.exists(): creds = Credentials.from_authorized_user_file(...)] *)
Definition load_token : M (option Credentials) :=
  w <- get_world ;;
  match token_file w with
  | Some content =>
      c <- lift (from_authorized_user_file env content) ;;
      ret (Some c)
  | None => ret None
  end.

(** The test [not creds or not creds.valid]: [None] when it holds, and
    the credential that passed when it does not. *)
Definition still_valid (t : Z) (creds : option Credentials) : option Credentials :=
  match creds with
  | None => None
  | Some c => if valid env t c then Some c else None
  end.

(** [creds and creds.expired and creds.refresh_token] *)
Definition can_refresh (t : Z) (creds : option Credentials) : option Credentials :=
  match creds with
  | None => None
  | Some c =>
      if expired env t c && opt_truthy (refresh_token c) then Some c else None
  end.

(** [flow = InstalledAppFlow.from_client_secrets_file(...)] and
    [flow.run_local_server(port=0)]. *)
Definition interactive_flow : M Credentials :=
  emit EvRunLocalServer ;;;
  lift (run_local_server env).

End Collaborators.

(** ** server.py *)

Module Server.

Definition EXPORT_MIME_TYPES : list (string * string) :=
  [ ("application/vnd.google-apps.document", "text/plain");
    ("application/vnd.google-apps.spreadsheet", "text/csv");
    ("application/vnd.google-apps.presentation", "text/plain");
    ("application/vnd.google-apps.drawing", "image/png") ].

Definition FOLDER_MIME_TYPE : string := "application/vnd.google-apps.folder".

Section Tools.

Variable env : Env.

Definition get_credentials : M Credentials :=
  creds <- load_token env ;;
  w <- get_world ;;
  match still_valid env (now w) creds with
  | Some c => ret c
  | None =>
      creds' <- match can_refresh env (now w) creds with
                | Some c =>
                    emit (EvRefresh c) ;;;
                    lift (refresh env c)
                | None =>
                    if negb (client_secrets_exists w) then
                      raise (PyException
                        ("client_secrets.json not found at " ++ CLIENT_SECRETS_FILE env
                         ++ ". Please follow the setup instructions."))
                    else interactive_flow env
                end ;;
      write_token env (to_json env creds') ;;;
      ret creds'
  end.

Definition get_drive_service : M unit :=
  creds <- get_credentials ;;
  emit EvBuild ;;;
  lift (build env creds).

Definition error_payload (msg : string) : json := JObj [("error", JStr msg)].

(** The two [except] clauses every tool ends with. *)
Definition tool_handler (e : exn) : option (M string) :=
  match e with
  | HttpError msg => Some (ret (dumps None (error_payload msg)))
  | PyException msg => Some (ret (dumps None (error_payload msg)))
  | SystemExit _ => None
  end.

(** The dict appended to [output] for one item. *)
Definition entry_of (item : json) : M json :=
  id <- py_get item "id" JNull ;;
  name <- py_get item "name" JNull ;;
  mimeType <- py_get item "mimeType" JNull ;;
  modifiedTime <- py_get item "modifiedTime" JNull ;;
  webViewLink <- py_get item "webViewLink" JNull ;;
  ret (JObj [ ("id", id); ("name", name); ("mimeType", mimeType);
              ("modifiedTime", modifiedTime); ("webViewLink", webViewLink) ]).

Definition search_query (query : string) : string :=
  "(name contains '" ++ query ++ "' or fullText contains '" ++ query
  ++ "') and trashed = false".

(** The [try] block of [search_drive]. *)
Definition search_drive_try (query : string) (max_results : Z) : M string :=
  get_drive_service ;;;
  let max_results := Z.min max_results 100 in
  results <- call_files_list env (search_query query)
               (Some "modifiedTime desc") (Some max_results)
               "files(id, name, mimeType, modifiedTime, webViewLink, parents)" ;;
  items <- py_get results "files" (JArr []) ;;
  if negb (py_truthy items) then
    ret (dumps None
           (JObj [ ("message", JStr ("No files found matching '" ++ query ++ "'"));
                   ("files", JArr []) ]))
  else
    items <- py_iter items ;;
    output <- for_each entry_of items ;;
    ret (dumps (Some 2%nat)
           (JObj [ ("count", JInt (len output)); ("files", JArr output) ])).

Definition search_drive (query : string) (max_results : Z) : M string :=
  try_except (search_drive_try query max_results) tool_handler.

(** The [try] block of [list_recent_files]. *)
Definition list_recent_files_try (hours : Z) (max_results : Z) : M string :=
  get_drive_service ;;;
  let max_results := Z.min max_results 100 in
  w <- get_world ;;
  threshold_time_str <- lift (strftime_threshold env (now w) hours) ;;
  let query := "modifiedTime >= '" ++ threshold_time_str ++ "' and trashed = false" in
  results <- call_files_list env query
               (Some "modifiedTime desc") (Some max_results)
               "files(id, name, mimeType, modifiedTime, webViewLink)" ;;
  items <- py_get results "files" (JArr []) ;;
  if negb (py_truthy items) then
    ret (dumps None
           (JObj [ ("message", JStr ("No files modified in the last "
                                     ++ string_of_Z hours ++ " hours"));
                   ("files", JArr []) ]))
  else
    items <- py_iter items ;;
    output <- for_each entry_of items ;;
    ret (dumps (Some 2%nat)
           (JObj [ ("hours", JInt hours); ("count", JInt (len output));
                   ("files", JArr output) ])).

Definition list_recent_files (hours : Z) (max_results : Z) : M string :=
  try_except (list_recent_files_try hours max_results) tool_handler.

(** The [try] block of [get_file_content]. *)
Definition get_file_content_try (file_id : string) : M string :=
  get_drive_service ;;;
  file_metadata <- call_files_get env file_id
                     "id, name, mimeType, modifiedTime, webViewLink, size" ;;
  mime_type <- py_get file_metadata "mimeType" (JStr "") ;;
  file_name <- py_get file_metadata "name" (JStr "Unknown") ;;
  workspace <- py_in mime_type EXPORT_MIME_TYPES ;;
  if workspace then
    export_mime <- py_getitem EXPORT_MIME_TYPES mime_type ;;
    let request := ExportMedia file_id export_mime in
    fh <- download env silent request ;;
    let content := decode_utf8_replace env fh in
    ret (dumps (Some 2%nat)
           (JObj [ ("name", file_name); ("mimeType", mime_type);
                   ("exportedAs", JStr export_mime); ("content", JStr content) ]))
  else
    text <- py_startswith mime_type "text/" ;;
    if text || py_eq_str mime_type "application/json" then
      let request := GetMedia file_id in
      fh <- download env silent request ;;
      let content := decode_utf8_replace env fh in
      ret (dumps (Some 2%nat)
             (JObj [ ("name", file_name); ("mimeType", mime_type);
                     ("content", JStr content) ]))
    else
      size <- py_get file_metadata "size" (JStr "Unknown") ;;
      webViewLink <- py_get file_metadata "webViewLink" JNull ;;
      ret (dumps (Some 2%nat)
             (JObj [ ("name", file_name); ("mimeType", mime_type);
                     ("size", size); ("webViewLink", webViewLink);
                     ("note", JStr "Binary file - content not extracted. Use webViewLink to view.") ])).

Definition get_file_content (file_id : string) : M string :=
  try_except (get_file_content_try file_id) tool_handler.

(** [o.get('displayName', o.get('emailAddress', 'Unknown'))]: the
    default is evaluated before the outer [get]. *)
Definition owner_name (o : json) : M json :=
  email <- py_get o "emailAddress" (JStr "Unknown") ;;
  py_get o "displayName" email.

(** The [try] block of [get_file_metadata]. *)
Definition get_file_metadata_try (file_id : string) : M string :=
  get_drive_service ;;;
  file_metadata <- call_files_get env file_id
                     "id, name, mimeType, modifiedTime, createdTime, size, webViewLink, owners, shared, permissions" ;;
  id <- py_get file_metadata "id" JNull ;;
  name <- py_get file_metadata "name" JNull ;;
  mimeType <- py_get file_metadata "mimeType" JNull ;;
  size <- py_get file_metadata "size" (JStr "N/A") ;;
  createdTime <- py_get file_metadata "createdTime" JNull ;;
  modifiedTime <- py_get file_metadata "modifiedTime" JNull ;;
  webViewLink <- py_get file_metadata "webViewLink" JNull ;;
  shared <- py_get file_metadata "shared" (JBool false) ;;
  owners <- py_get file_metadata "owners" (JArr []) ;;
  owners <- py_iter owners ;;
  owners <- for_each owner_name owners ;;
  ret (dumps (Some 2%nat)
         (JObj [ ("id", id); ("name", name); ("mimeType", mimeType);
                 ("size", size); ("createdTime", createdTime);
                 ("modifiedTime", modifiedTime); ("webViewLink", webViewLink);
                 ("shared", shared); ("owners", JArr owners) ])).

Definition get_file_metadata (file_id : string) : M string :=
  try_except (get_file_metadata_try file_id) tool_handler.

(** The loop that separates folders and files, with the two lists
    built so far. *)
Fixpoint separate (items folders files : list json) : M (list json * list json) :=
  match items with
  | [] => ret (folders, files)
  | item :: rest =>
      entry <- entry_of item ;;
      mimeType <- py_get item "mimeType" JNull ;;
      if py_eq_str mimeType FOLDER_MIME_TYPE then
        separate rest (folders ++ [entry]) files
      else
        separate rest folders (files ++ [entry])
  end.

(** The [try] block of [list_folder_contents]. *)
Definition list_folder_contents_try (folder_id : string) (max_results : Z) : M string :=
  get_drive_service ;;;
  let max_results := Z.min max_results 100 in
  let query := "'" ++ folder_id ++ "' in parents and trashed = false" in
  results <- call_files_list env query
               (Some "folder,name") (Some max_results)
               "files(id, name, mimeType, modifiedTime, webViewLink)" ;;
  items <- py_get results "files" (JArr []) ;;
  items <- py_iter items ;;
  '(folders, files) <- separate items [] [] ;;
  ret (dumps (Some 2%nat)
         (JObj [ ("folder_id", JStr folder_id);
                 ("folder_count", JInt (len folders));
                 ("file_count", JInt (len files));
                 ("folders", JArr folders);
                 ("files", JArr files) ])).

Definition list_folder_contents (folder_id : string) (max_results : Z) : M string :=
  try_except (list_folder_contents_try folder_id max_results) tool_handler.

End Tools.

End Server.

(** ** _tools/gdrive_download.py *)

Module Download.

Definition EXPORT_MIME_TYPES : list (string * list (string * string)) :=
  [ ("application/vnd.google-apps.document",
      [ ("text/plain", ".txt");
        ("application/vnd.openxmlformats-officedocument.wordprocessingml.document", ".docx");
        ("application/pdf", ".pdf");
        ("text/html", ".html") ]);
    ("application/vnd.google-apps.spreadsheet",
      [ ("application/vnd.openxmlformats-officedocument.spreadsheetml.sheet", ".xlsx");
        ("text/csv", ".csv");
        ("application/pdf", ".pdf") ]);
    ("application/vnd.google-apps.presentation",
      [ ("application/vnd.openxmlformats-officedocument.presentationml.presentation", ".pptx");
        ("application/pdf", ".pdf");
        ("text/plain", ".txt") ]);
    ("application/vnd.google-apps.drawing",
      [ ("image/png", ".png");
        ("image/jpeg", ".jpg");
        ("application/pdf", ".pdf") ]) ].

(** The bytes the source prints before [File saved to]. *)
Definition SAVED_MARK : string :=
  String "195" (String "162" (String "197" (String "147"
    (String "226" (String "128" (String "156" "")))))).

Section Script.

Variable env : Env.

Definition get_credentials : M Credentials :=
  creds <- load_token env ;;
  w <- get_world ;;
  match still_valid env (now w) creds with
  | Some c => ret c
  | None =>
      creds' <- match can_refresh env (now w) creds with
                | Some c =>
                    emit (EvRefresh c) ;;;
                    lift (refresh env c)
                | None =>
                    if negb (client_secrets_exists w) then
                      print ("Error: " ++ CLIENT_SECRETS_FILE env ++ " not found!") ;;;
                      print "Please follow the setup instructions to create client_secrets.json" ;;;
                      raise (SystemExit 1)
                    else interactive_flow env
                end ;;
      write_token env (to_json env creds') ;;;
      ret creds'
  end.

Definition name_query (name : string) : string :=
  "name = '" ++ name ++ "' and trashed = false".

(** [len(items)] and [items[0]] for whatever the answer holds under
    [files]. *)
Definition py_len (x : json) : M Z :=
  match x with
  | JArr l => ret (len l)
  | JStr s => ret (Z.of_nat (String.length s))
  | JObj l => ret (len l)
  | _ => raise (PyException ("object of type '" ++ py_type_name x ++ "' has no len()"))
  end.

Definition py_first (x : json) : M json :=
  match x with
  | JArr (v :: _) => ret v
  | JStr (String c _) => ret (JStr (String c ""))
  | JArr [] => raise (PyException "list index out of range")
  | JStr EmptyString => raise (PyException "string index out of range")
  | JObj _ => raise (PyException "0")
  | _ => raise (PyException ("'" ++ py_type_name x ++ "' object is not subscriptable"))
  end.

Definition find_file_by_name (name : string) : M (option json) :=
  try_except
    (results <- call_files_list env (name_query name) None None
                  "files(id, name, mimeType)" ;;
     items <- py_get results "files" (JArr []) ;;
     if negb (py_truthy items) then ret None
     else
       n <- py_len items ;;
       (if 1 <? n then
          print ("Warning: Multiple files found with name '" ++ name
                 ++ "'. Using the first one.")
        else ret tt) ;;;
       item <- py_first items ;;
       ret (Some item))
    (fun e =>
       match e with
       | HttpError msg =>
           Some (print ("An error occurred while searching: " ++ msg) ;;; ret None)
       | _ => None
       end).

(** [list(export_options.keys())[0]] *)
Definition first_key (export_options : list (string * string)) : M string :=
  match keys export_options with
  | k :: _ => ret k
  | [] => raise (PyException "list index out of range")
  end.

(** What [download_file] prints for each chunk: [status] is an object
    and always true. *)
Definition report_progress (status : Chunk) : M unit :=
  print ("  Download progress: " ++ string_of_Z (percent status) ++ "%").

(** The first half of [download_file]: the extension and the media
    request, or [None] where the source has [return False]. *)
Definition resolve_request (file_id mime_type : string)
    (export_format : option string) : M (option (string * MediaRequest)) :=
  if String.prefix "application/vnd.google-apps." mime_type then
    let export_options :=
      match assoc mime_type EXPORT_MIME_TYPES with
      | Some t => t
      | None => []
      end in
    match export_options with
    | [] =>
        print ("Error: No export format available for " ++ mime_type) ;;;
        ret None
    | _ :: _ =>
        chosen <-
          (if opt_truthy export_format then
             let fmt := match export_format with Some f => f | None => "" end in
             if negb (has_key fmt export_options) then
               print ("Error: Export format '" ++ fmt
                      ++ "' not available for this file type.") ;;;
               print ("Available formats: "
                      ++ String.concat ", " (keys export_options)) ;;;
               ret None
             else ret (Some fmt)
           else
             if has_key "text/plain" export_options then ret (Some "text/plain")
             else k <- first_key export_options ;; ret (Some k)) ;;
        match chosen with
        | None => ret None
        | Some export_mime =>
            extension <- py_getitem export_options (JStr export_mime) ;;
            print ("Exporting as " ++ export_mime ++ "...") ;;;
            ret (Some (extension, ExportMedia file_id export_mime))
        end
    end
  else
    print "Downloading file..." ;;;
    ret (Some ("", GetMedia file_id)).

Definition download_file (file_id file_name mime_type output_path : string)
    (export_format : option string) : M bool :=
  try_except
    (resolved <- resolve_request file_id mime_type export_format ;;
     match resolved with
     | None => ret false
     | Some (extension, request) =>
         let output_file :=
           if is_dir env output_path then
             if negb (str_eqb extension "") then
               path_join env output_path (file_name ++ extension)
             else path_join env output_path file_name
           else output_path in
         fh <- download env report_progress request ;;
         write_file env output_file fh ;;;
         print (SAVED_MARK ++ " File saved to: " ++ output_file) ;;;
         ret true
     end)
    (fun e =>
       match e with
       | HttpError msg => Some (print ("An error occurred: " ++ msg) ;;; ret false)
       | _ => None
       end).

End Script.

End Download.

(** ** _tools/gdrive_recent.py *)

Module Recent.

(** The bytes of the folder sign that opens the listing. *)
Definition FOLDER_SIGN : string :=
  String "240" (String "159" (String "147" (String "129" ""))).

Section Script.

Variable env : Env.

Definition get_credentials : M Credentials :=
  creds <- load_token env ;;
  w <- get_world ;;
  match still_valid env (now w) creds with
  | Some c => ret c
  | None =>
      creds' <- match can_refresh env (now w) creds with
                | Some c =>
                    emit (EvRefresh c) ;;;
                    lift (refresh env c)
                | None =>
                    if negb (client_secrets_exists w) then
                      print ("Error: " ++ CLIENT_SECRETS_FILE env ++ " not found!") ;;;
                      print "Please follow the setup instructions to create client_secrets.json" ;;;
                      raise (SystemExit 1)
                    else interactive_flow env
                end ;;
      write_token env (to_json env creds') ;;;
      ret creds'
  end.

(** The dict appended to [output] in JSON mode. *)
Definition entry_of (item : json) : M json :=
  id <- py_get item "id" JNull ;;
  name <- py_get item "name" JNull ;;
  mimeType <- py_get item "mimeType" JNull ;;
  modifiedTime <- py_get item "modifiedTime" JNull ;;
  createdTime <- py_get item "createdTime" JNull ;;
  webViewLink <- py_get item "webViewLink" JNull ;;
  ret (JObj [ ("id", id); ("name", name); ("mimeType", mimeType);
              ("modifiedTime", modifiedTime); ("createdTime", createdTime);
              ("webViewLink", webViewLink) ]).

(** [mod_time_str]: the bare [except] turns every failure of the
    parsing into the value itself. *)
Definition mod_time_str (modified : json) : string :=
  if py_truthy modified then
    match modified with
    | JStr s =>
        match reformat_iso env s with
        | Some t => t
        | None => s
        end
    | _ => py_format env modified
    end
  else "Unknown".

(** The body of the loop over [enumerate(items, 1)]. *)
Fixpoint print_items (i : Z) (items : list json) : M unit :=
  match items with
  | [] => ret tt
  | item :: rest =>
      name <- py_get item "name" (JStr "Untitled") ;;
      modified <- py_get item "modifiedTime" (JStr "") ;;
      link <- py_get item "webViewLink" (JStr "") ;;
      print (string_of_Z i ++ ". " ++ py_format env name) ;;;
      print ("   Modified: " ++ mod_time_str modified) ;;;
      (if py_truthy link then print ("   Link: " ++ py_format env link) else ret tt) ;;;
      print "" ;;;
      print_items (i + 1) rest
  end.

(** The query and the ordering of a mode, [None] for a mode that is
    neither ['edited'] nor ['viewed']. *)
Definition query_of_mode (mode threshold_time_str : string) : option (string * string) :=
  if str_eqb mode "edited" then
    Some ("modifiedTime >= '" ++ threshold_time_str ++ "' and trashed = false",
          "modifiedTime desc")
  else if str_eqb mode "viewed" then
    Some ("modifiedTime >= '" ++ threshold_time_str ++ "' and trashed = false",
          "modifiedTime desc")
  else None.

Definition get_recent_files (hours : Z) (mode : string) (json_output : bool) : M unit :=
  try_except
    (creds <- get_credentials ;;
     emit EvBuild ;;;
     lift (build env creds) ;;;
     w <- get_world ;;
     threshold_time_str <- lift (strftime_threshold env (now w) hours) ;;
     '(query, order_by) <-
       match query_of_mode mode threshold_time_str with
       | Some qo => ret qo
       | None =>
           print ("Error: mode must be 'edited' or 'viewed', got '" ++ mode ++ "'") ;;;
           raise (SystemExit 1)
       end ;;
     results <- call_files_list env query (Some order_by) (Some 50)
                  "nextPageToken, files(id, name, mimeType, modifiedTime, createdTime, webViewLink)" ;;
     items <- py_get results "files" (JArr []) ;;
     if json_output then
       items <- py_iter items ;;
       output <- for_each entry_of items ;;
       print (dumps (Some 2%nat) (JArr output))
     else
       if negb (py_truthy items) then
         print ("No files " ++ mode ++ " in the last " ++ string_of_Z hours ++ " hours.")
       else
         print (String newline (FOLDER_SIGN ++ " Files " ++ mode ++ " in the last "
                                ++ string_of_Z hours ++ " hours:" ++ String newline "")) ;;;
         items <- py_iter items ;;
         print_items 1 items)
    (fun e =>
       match e with
       | HttpError msg =>
           Some (print ("An error occurred: " ++ msg) ;;; raise (SystemExit 1))
       | _ => None
       end).

End Script.

End Recent.

(** ** Vocabulary of the properties *)

(** *** Runs and their traces *)

(** [n] successive calls of the same operation. *)
Fixpoint calls {A : Type} (n : nat) (m : M A) : M (list A) :=
  match n with
  | O => ret []
  | S n' => a <- m ;; l <- calls n' m ;; ret (a :: l)
  end.

(** The media requests a run sent to the provider, one per [next_chunk]. *)
Fixpoint media_requests (tr : list Event) : list MediaRequest :=
  match tr with
  | [] => []
  | EvNextChunk r :: tr' => r :: media_requests tr'
  | _ :: tr' => media_requests tr'
  end.

(** The authorization traffic of a run: refreshes, consent flows and
    writes of the token file. *)
Definition is_auth_event (e : Event) : bool :=
  match e with
  | EvRefresh _ | EvRunLocalServer | EvWriteToken _ | EvWriteTokenFailed _ => true
  | _ => false
  end.

(** The events of obtaining a credential and building the service. *)
Definition is_setup_event (e : Event) : bool :=
  match e with
  | EvBuild => true
  | _ => is_auth_event e
  end.

Definition is_print (e : Event) : bool :=
  match e with
  | EvPrint _ => true
  | _ => false
  end.

(** A run with its printed lines erased. *)
Definition without_prints (tr : list Event) : list Event :=
  filter (fun e => negb (is_print e)) tr.

(** Two runs that agree on everything but the lines they print. *)
Definition same_but_prints {A : Type} (r1 r2 : Run A) : Prop :=
  outcome r1 = outcome r2
  /\ world r1 = world r2
  /\ without_prints (trace r1) = without_prints (trace r2).

(** *** Credentials *)

(** What a fallback to the consent flow leaves behind when [get] runs in
    [w]: the credential of the flow, returned and persisted. *)
Definition falls_back_to_consent (env : Env) (get : M Credentials) (w : World) : Prop :=
  exists c' : Credentials,
    run_local_server env = inr c'
    /\ outcome (get w) = Ret c'
    /\ token_file (world (get w)) = Some (to_json env c').

(** *** Export formats *)

(** The default export representation in the words of the
    specification: plain text if the table offers it, otherwise the first
    entry the table declares. *)
Definition default_export (table : list (string * string)) : string :=
  if has_key "text/plain" table then "text/plain" else hd "" (keys table).

(** The export tables of the word-processor and spreadsheet types. *)
Definition document_table : list (string * string) :=
  [ ("text/plain", ".txt");
    ("application/vnd.openxmlformats-officedocument.wordprocessingml.document", ".docx");
    ("application/pdf", ".pdf");
    ("text/html", ".html") ].

Definition spreadsheet_table : list (string * string) :=
  [ ("application/vnd.openxmlformats-officedocument.spreadsheetml.sheet", ".xlsx");
    ("text/csv", ".csv");
    ("application/pdf", ".pdf") ].

(** *** Quoted literals of the provider's filter language

    A filter compares a field with a literal between single quotes; inside
    a literal a backslash makes the next character (a quote or a
    backslash) part of the value.  [read_literal] reads a literal from
    just after its opening quote and answers the value it denotes and the
    text that follows its closing quote. *)
Definition quote : ascii := "'"%char.
Definition backslash : ascii := "\"%char.

Fixpoint read_literal (s : string) : option (string * string) :=
  match s with
  | EmptyString => None
  | String c s' =>
      if Ascii.eqb c quote then Some ("", s')
      else if Ascii.eqb c backslash then
        match s' with
        | EmptyString => None
        | String d s'' =>
            match read_literal s'' with
            | Some (v, rest) => Some (String d v, rest)
            | None => None
            end
        end
      else
        match read_literal s' with
        | Some (v, rest) => Some (String c v, rest)
        | None => None
        end
  end.

Fixpoint strip_prefix (p s : string) : option string :=
  match p with
  | EmptyString => Some s
  | String a p' =>
      match s with
      | EmptyString => None
      | String b s' => if Ascii.eqb a b then strip_prefix p' s' else None
      end
  end.

(** The values of the literals of [filter] when it is read against the
    fixed segments [segments], each but the last ending with the opening
    quote of a literal. *)
Fixpoint literals_of (segments : list string) (filter : string) : option (list string) :=
  match segments with
  | [] => None
  | segment :: segments' =>
      match strip_prefix segment filter with
      | None => None
      | Some rest =>
          match segments' with
          | [] => if str_eqb rest "" then Some [] else None
          | _ :: _ =>
              match read_literal rest with
              | None => None
              | Some (v, rest') =>
                  match literals_of segments' rest' with
                  | Some vs => Some (v :: vs)
                  | None => None
                  end
              end
          end
      end
  end.

(** [filter] is well formed against [segments] and each of its literals
    denotes [value]. *)
Definition matches_literally (segments : list string) (value filter : string) : bool :=
  match literals_of segments filter with
  | Some vs => forallb (fun v => str_eqb v value) vs
                && Nat.eqb (length vs) (length segments - 1)
  | None => false
  end.

Definition NAME_SEGMENTS : list string :=
  [ "name = '"; " and trashed = false" ].

Definition SEARCH_SEGMENTS : list string :=
  [ "(name contains '"; " or fullText contains '"; ") and trashed = false" ].

Fixpoint mentions (c : ascii) (s : string) : bool :=
  match s with
  | EmptyString => false
  | String d s' => Ascii.eqb c d || mentions c s'
  end.

(** *** JSON texts

    The grammar of RFC 8259 over the strings of this file, numbers being
    reduced to integers: a value, the elements of an array up to its
    closing bracket, and the members of an object up to its closing
    brace. *)
Fixpoint all_chars (p : ascii -> bool) (s : string) : bool :=
  match s with
  | EmptyString => true
  | String c s' => p c && all_chars p s'
  end.

Definition is_space (c : ascii) : bool :=
  let n := N_of_ascii c in
  ((n =? 32) || (n =? 9) || (n =? 10) || (n =? 13))%N.

Definition is_ws (s : string) : Prop := all_chars is_space s = true.

Definition is_digit (c : ascii) : bool :=
  let n := N_of_ascii c in ((48 <=? n) && (n <=? 57))%N.

Definition is_hex (c : ascii) : bool :=
  let n := N_of_ascii c in
  (((48 <=? n) && (n <=? 57)) || ((97 <=? n) && (n <=? 102))
   || ((65 <=? n) && (n <=? 70)))%N.

(** A character that stands for itself inside a string. *)
Definition is_unescaped (c : ascii) : bool :=
  let n := N_of_ascii c in
  ((32 <=? n) && negb (n =? 34) && negb (n =? 92))%N.

(** The letters that may follow a backslash, [u] apart. *)
Definition is_escape_letter (c : ascii) : bool :=
  let n := N_of_ascii c in
  ((n =? 34) || (n =? 92) || (n =? 47) || (n =? 98) || (n =? 102)
   || (n =? 110) || (n =? 114) || (n =? 116))%N.

(** The characters of a string, between its quotation marks. *)
Fixpoint json_chars (s : string) : bool :=
  match s with
  | EmptyString => true
  | String c s' =>
      if Ascii.eqb c backslash then
        match s' with
        | EmptyString => false
        | String e s'' =>
            if is_escape_letter e then json_chars s''
            else if Ascii.eqb e "u" then
              match s'' with
              | String h1 (String h2 (String h3 (String h4 s5))) =>
                  is_hex h1 && is_hex h2 && is_hex h3 && is_hex h4 && json_chars s5
              | _ => false
              end
            else false
        end
      else is_unescaped c && json_chars s'
  end.

(** [int]: a zero, or digits that do not start with a zero. *)
Definition json_unsigned (s : string) : bool :=
  match s with
  | EmptyString => false
  | String c s' =>
      if Ascii.eqb c "0" then str_eqb s' ""
      else is_digit c && all_chars is_digit s'
  end.

(** [[ minus ] int] *)
Definition json_int (s : string) : bool :=
  match s with
  | EmptyString => false
  | String c s' => if Ascii.eqb c "-" then json_unsigned s' else json_unsigned s
  end.

Definition quoted (s : string) : string := String dquote (s ++ String dquote "").

Inductive json_value : string -> Prop :=
| jv_null : json_value "null"
| jv_true : json_value "true"
| jv_false : json_value "false"
| jv_number (s : string) : json_int s = true -> json_value s
| jv_string (s : string) : json_chars s = true -> json_value (quoted s)
| jv_empty_array (w : string) : is_ws w -> json_value ("[" ++ w ++ "]")
| jv_array (s : string) : json_elements s -> json_value ("[" ++ s)
| jv_empty_object (w : string) : is_ws w -> json_value ("{" ++ w ++ "}")
| jv_object (s : string) : json_members s -> json_value ("{" ++ s)

with json_elements : string -> Prop :=
| je_last (w1 v w2 : string) :
    is_ws w1 -> json_value v -> is_ws w2 ->
    json_elements (w1 ++ v ++ w2 ++ "]")
| je_more (w1 v w2 s : string) :
    is_ws w1 -> json_value v -> is_ws w2 -> json_elements s ->
    json_elements (w1 ++ v ++ w2 ++ "," ++ s)

with json_members : string -> Prop :=
| jm_last (w1 k w2 w3 v w4 : string) :
    is_ws w1 -> json_chars k = true -> is_ws w2 -> is_ws w3 -> json_value v -> is_ws w4 ->
    json_members (w1 ++ quoted k ++ w2 ++ ":" ++ w3 ++ v ++ w4 ++ "}")
| jm_more (w1 k w2 w3 v w4 s : string) :
    is_ws w1 -> json_chars k = true -> is_ws w2 -> is_ws w3 -> json_value v -> is_ws w4 ->
    json_members s ->
    json_members (w1 ++ quoted k ++ w2 ++ ":" ++ w3 ++ v ++ w4 ++ "," ++ s).

(** A value that [json.dumps] writes as a JSON value at every depth. *)
Definition written (indent : option nat) (v : json) : Prop :=
  forall level : nat, json_value (dumps_at indent level v).

(** [JSON-text = ws value ws] *)
Definition json_text (s : string) : Prop :=
  exists w1 v w2 : string,
    is_ws w1 /\ json_value v /\ is_ws w2 /\ s = w1 ++ v ++ w2.

(** *** A specification of computations

    [obeys E Q m]: from every world, each event [m] causes satisfies [E],
    a value [m] returns satisfies [Q], and what [m] raises, if anything,
    is an [Exception] (never [SystemExit]). *)
Definition obeys {A : Type} (E : Event -> Prop) (Q : A -> Prop) (m : M A) : Prop :=
  forall w,
    Forall E (trace (m w))
    /\ match outcome (m w) with
       | Ret a => Q a
       | Raise (SystemExit _) => False
       | Raise _ => True
       end.

Definition any {A : Type} : A -> Prop := fun _ => True.

(** The two shapes of what a protocol tool returns. *)
Definition error_reply (s : string) : Prop :=
  exists msg : string, s = dumps None (JObj [("error", JStr msg)]).

Definition success_reply (s : string) : Prop :=
  exists (indent : option nat) (members : list (string * json)),
    s = dumps indent (JObj members) /\ assoc "error" members = None.

(** What the boundary of a protocol tool promises of a run: a string is
    returned, it is a JSON text, and it is a success payload or an error
    payload. *)
Definition tool_reply (r : Run string) : Prop :=
  exists s : string,
    outcome r = Ret s /\ json_text s /\ (success_reply s \/ error_reply s).

(** *** Listings and their items *)

Definition is_dict (v : json) : bool :=
  match v with
  | JObj _ => true
  | _ => false
  end.

(** The items of a listing: the array under [files], if there is one. *)
Definition listed (response : json) : list json :=
  match response with
  | JObj members =>
      match assoc "files" members with
      | Some (JArr items) => items
      | _ => []
      end
  | _ => []
  end.

(** The provider's side of the page-size contract: a listing asked with
    page size [n] holds at most [n] items (none for a negative [n]). *)
Definition honours_page_size (env : Env) : Prop :=
  forall (q : string) (orderBy : option string) (n : Z) (fields : string) (response : json),
    files_list env q orderBy (Some n) fields = inr response ->
    len (listed response) <= Z.max 0 n.

Definition array_length (v : option json) : nat :=
  match v with
  | Some (JArr l) => length l
  | _ => O
  end.

(** The number of items a payload returns: the entries of its [folders]
    and [files] arrays. *)
Definition returned_items (payload : json) : nat :=
  match payload with
  | JObj members =>
      (array_length (assoc "folders" members) + array_length (assoc "files" members))%nat
  | _ => O
  end.

Definition asks_page_size (limit : Z) (e : Event) : Prop :=
  match e with
  | EvFilesList _ _ pageSize _ => pageSize = Some limit
  | _ => True
  end.

(** A run that asks the provider for pages of [limit] items and of no
    other size. *)
Definition asks_only (limit : Z) (r : Run string) : Prop :=
  Forall (asks_page_size limit) (trace r).

(** A run that returns a payload of at most [limit] items (none for a
    negative [limit]). *)
Definition returns_at_most (limit : Z) (r : Run string) : Prop :=
  exists (indent : option nat) (payload : json),
    outcome r = Ret (dumps indent payload)
    /\ Z.of_nat (returned_items payload) <= Z.max 0 limit.

(** [item.get(key)] for an item that is a dict. *)
Definition field (item : json) (key : string) : json :=
  match item with
  | JObj members =>
      match assoc key members with
      | Some v => v
      | None => JNull
      end
  | _ => JNull
  end.

(** The entry returned for an item, and the test that sorts it. *)
Definition entry (item : json) : json :=
  JObj [ ("id", field item "id"); ("name", field item "name");
         ("mimeType", field item "mimeType");
         ("modifiedTime", field item "modifiedTime");
         ("webViewLink", field item "webViewLink") ].

Definition is_folder (item : json) : bool :=
  py_eq_str (field item "mimeType") Server.FOLDER_MIME_TYPE.

Definition folders_of (items : list json) : list json :=
  map entry (filter is_folder items).

Definition files_of (items : list json) : list json :=
  map entry (filter (fun item => negb (is_folder item)) items).

(** *** The payloads of [get_file_content] *)

(** [d.get(key, default)] for the members of a dict. *)
Definition get_or (members : list (string * json)) (key : string) (default : json) : json :=
  match assoc key members with
  | Some v => v
  | None => default
  end.

(** The payloads of [get_file_content] for an exported file and for a
    file whose content is not extracted. *)
Definition exported_payload (metadata : list (string * json)) (tag target content : string)
    : list (string * json) :=
  [ ("name", get_or metadata "name" (JStr "Unknown")); ("mimeType", JStr tag);
    ("exportedAs", JStr target); ("content", JStr content) ].

Definition metadata_payload (metadata : list (string * json)) (tag : string)
    : list (string * json) :=
  [ ("name", get_or metadata "name" (JStr "Unknown")); ("mimeType", JStr tag);
    ("size", get_or metadata "size" (JStr "Unknown"));
    ("webViewLink", get_or metadata "webViewLink" JNull);
    ("note", JStr "Binary file - content not extracted. Use webViewLink to view.") ].

Definition METADATA_FIELDS : string :=
  "id, name, mimeType, modifiedTime, webViewLink, size".

(** *** Providers and worlds of the examples *)

(** The credential of the examples, expiring at [e], and the credential
    a consent flow delivers. *)
Definition sample_credentials (e : Z) : Credentials :=
  mkCredentials (Some "ya29.access") (Some "1//refresh") (Some e).

Definition fresh_credentials : Credentials :=
  mkCredentials (Some "ya29.fresh") (Some "1//fresh") (Some 7200).

Definition one_chunk (text : string) : (failure + Chunk) * list (failure + Chunk) :=
  (inr (mkChunk (list_byte_of_string text) 100), []).

(** A provider for the examples: the token file parses to a credential
    expiring at [e]; [refresh_answer] is what a refresh yields; every
    listing answers [listing], every metadata request [metadata], and
    every download delivers [text] in one chunk. *)
Definition sample_env (e : Z) (refresh_answer : failure + Credentials)
    (listing metadata : json) (text : string) : Env :=
  {| REFRESH_THRESHOLD := 225;
     from_authorized_user_file := fun _ => inr (sample_credentials e);
     to_json := fun c => match token c with Some t => t | None => "" end;
     refresh := fun _ => refresh_answer;
     run_local_server := inr fresh_credentials;
     build := fun _ => inr tt;
     files_list := fun _ _ _ _ => inr listing;
     files_get := fun _ _ => inr metadata;
     media := fun _ => one_chunk text;
     decode_utf8_replace := string_of_list_byte;
     strftime_threshold := fun _ _ => inr "2024-01-01T00:00:00";
     reformat_iso := fun _ => None;
     repr_container := fun _ => "[...]";
     is_dir := fun _ => false;
     path_join := fun d f => d ++ "/" ++ f;
     CLIENT_SECRETS_FILE := "client_secrets.json";
     save_token := fun _ => Complete;
     save_file := fun _ _ => Complete |}.

Definition sample_world (t : Z) : World :=
  mkWorld (Some "token.json contents") true t.

(** A provider that rejects every refresh, and a world whose persisted
    credential expired at 500 while the clock shows 1000; the client
    registration is in place, so a consent flow could run. *)
Definition rejecting_env : Env :=
  sample_env 500 (inl (Other "invalid_grant: Token has been expired or revoked."))
    JNull JNull "".

Definition stale_world : World := sample_world 1000.

(** A provider whose downloads deliver the text [Quarterly report] in
    one chunk. *)
Definition report_env : Env :=
  sample_env 5000 (inl (Http "unused")) JNull JNull "Quarterly report".

(** A provider whose listings are empty. *)
Definition empty_env : Env :=
  sample_env 5000 (inl (Http "unused")) (JObj [("files", JArr [])]) JNull "".

(** The [i]-th file of a supply of spreadsheets. *)
Definition budget_file (i : nat) : json :=
  JObj [ ("id", JStr (string_of_Z (Z.of_nat i))); ("name", JStr "budget.xlsx");
         ("mimeType", JStr "application/vnd.google-apps.spreadsheet") ].

(** A provider that answers every listing with the [n] first files of
    the supply, [n] being the page size asked. *)
Definition paging_env : Env :=
  {| REFRESH_THRESHOLD := 225;
     from_authorized_user_file := fun _ => inr (sample_credentials 5000);
     to_json := fun c => match token c with Some t => t | None => "" end;
     refresh := fun c => inr c;
     run_local_server := inr fresh_credentials;
     build := fun _ => inr tt;
     files_list := fun _ _ pageSize _ =>
       match pageSize with
       | Some n => inr (JObj [("files", JArr (map budget_file (seq 0 (Z.to_nat n))))])
       | None => inr (JObj [])
       end;
     files_get := fun _ _ => inl (Http "not found");
     media := fun _ => one_chunk "";
     decode_utf8_replace := string_of_list_byte;
     strftime_threshold := fun _ _ => inr "2024-01-01T00:00:00";
     reformat_iso := fun _ => None;
     repr_container := fun _ => "[...]";
     is_dir := fun _ => false;
     path_join := fun d f => d ++ "/" ++ f;
     CLIENT_SECRETS_FILE := "client_secrets.json";
     save_token := fun _ => Complete;
     save_file := fun _ _ => Complete |}.

(** A provider that delivers three files whatever the page size. *)
Definition three_files : json :=
  JObj [("files", JArr [budget_file 0; budget_file 1; budget_file 2])].

Definition overfull_env : Env :=
  sample_env 5000 (inl (Http "unused")) three_files JNull "".

(** A folder listing of one folder between two files. *)
Definition mixed_items : list json :=
  [ JObj [("id", JStr "a"); ("name", JStr "notes.txt"); ("mimeType", JStr "text/plain")];
    JObj [("id", JStr "b"); ("name", JStr "Archive");
          ("mimeType", JStr "application/vnd.google-apps.folder")];
    JObj [("id", JStr "c"); ("name", JStr "plan.pdf"); ("mimeType", JStr "application/pdf")] ].

Definition folder_env : Env :=
  sample_env 5000 (inl (Http "unused")) (JObj [("files", JArr mixed_items)]) JNull "".

(** A provider that holds one spreadsheet, exported as two lines of CSV. *)
Definition sheet_metadata : list (string * json) :=
  [ ("id", JStr "sheet1"); ("name", JStr "Budget");
    ("mimeType", JStr "application/vnd.google-apps.spreadsheet") ].

Definition sheet_env : Env :=
  sample_env 5000 (inl (Http "unused")) JNull (JObj sheet_metadata)
    ("item,amount" ++ String newline "rent,1200").

(** ** Vocabulary of the further properties *)

(** *** Failures and credentials *)

(** [str(e)] for the exception a failure raises. *)
Definition failure_message (f : failure) : string :=
  match f with
  | Http msg => msg
  | Other msg => msg
  end.

(** The world after the token file was overwritten with [content]. *)
Definition with_token (w : World) (content : string) : World :=
  mkWorld (Some content) (client_secrets_exists w) (now w).

(** An event that is not a write of the token file, completed or not. *)
Definition not_a_token_write (e : Event) : Prop :=
  (forall content : string, e <> EvWriteToken content)
  /\ (forall kept : option string, e <> EvWriteTokenFailed kept).

(** How the write of the credential [c] ends when it starts in [w], after
    the events [tr]: the credential is returned once the token file holds
    it; a write that fails raises, and leaves the token file as it was or
    with what the write had put there. *)
Definition persisted (env : Env) (w : World) (c : Credentials) (tr : list Event)
    : Run Credentials :=
  match save_token env (to_json env c) with
  | Complete =>
      mkRun (Ret c) (with_token w (to_json env c))
        (tr ++ [EvWriteToken (to_json env c)])
  | Refused msg =>
      mkRun (Raise (PyException msg)) w (tr ++ [EvWriteTokenFailed None])
  | Cut msg kept =>
      mkRun (Raise (PyException msg)) (with_token w kept)
        (tr ++ [EvWriteTokenFailed (Some kept)])
  end.

(** A run that fails where it started, without writing the token file. *)
Definition fails_in_place {A : Type} (m : M A) : Prop :=
  forall w, exists e tr,
    m w = mkRun (Raise e) w tr /\ Forall not_a_token_write tr.

(** What an acquisition leaves behind, seen from the world [w] it started
    in.  A returned credential is either the cached one, nothing having
    happened, or one whose serialization was just written to the token
    file, as the last event and the only write.  A failure has either
    attempted no write and left the world as it was, or is the failure of
    the one write it attempted, its last event, the token file being as
    it was if it could not be opened and holding what the write left
    otherwise. *)
Definition acquisition_kept (env : Env) (w : World) (r : Run Credentials) : Prop :=
  match outcome r with
  | Ret c =>
      (world r = w /\ trace r = [])
      \/ (world r = with_token w (to_json env c)
          /\ exists tr, trace r = (tr ++ [EvWriteToken (to_json env c)])%list
                        /\ Forall not_a_token_write tr)
  | Raise _ =>
      (world r = w /\ Forall not_a_token_write (trace r))
      \/ (exists tr, Forall not_a_token_write tr
                     /\ ((world r = w
                          /\ trace r = (tr ++ [EvWriteTokenFailed None])%list)
                         \/ exists kept,
                              world r = with_token w kept
                              /\ trace r = (tr ++ [EvWriteTokenFailed (Some kept)])%list))
  end.

(** The text of the [FileNotFoundError] of [server.py]. *)
Definition secrets_missing_message (env : Env) : string :=
  "client_secrets.json not found at " ++ CLIENT_SECRETS_FILE env
  ++ ". Please follow the setup instructions.".

(** The two lines the scripts print before [sys.exit(1)]. *)
Definition secrets_missing_lines (env : Env) : list Event :=
  [ EvPrint ("Error: " ++ CLIENT_SECRETS_FILE env ++ " not found!");
    EvPrint "Please follow the setup instructions to create client_secrets.json" ].

(** The shape the three [get_credentials] share; they differ in
    [without_registration], what is done when the client registration
    file does not exist. *)
Definition acquire (env : Env) (without_registration : M Credentials) : M Credentials :=
  creds <- load_token env ;;
  w <- get_world ;;
  match still_valid env (now w) creds with
  | Some c => ret c
  | None =>
      creds' <- match can_refresh env (now w) creds with
                | Some c =>
                    emit (EvRefresh c) ;;;
                    lift (refresh env c)
                | None =>
                    if negb (client_secrets_exists w) then without_registration
                    else interactive_flow env
                end ;;
      write_token env (to_json env creds') ;;;
      ret creds'
  end.

(** *** Providers built from other providers *)

Definition with_parse (env : Env) (parse : string -> failure + Credentials) : Env :=
  mkEnv (REFRESH_THRESHOLD env) parse (to_json env) (refresh env) (run_local_server env)
    (build env) (files_list env) (files_get env) (media env) (decode_utf8_replace env)
    (strftime_threshold env) (reformat_iso env) (repr_container env) (is_dir env)
    (path_join env) (CLIENT_SECRETS_FILE env) (save_token env) (save_file env).

Definition with_files_list (env : Env)
    (answer : string -> option string -> option Z -> string -> failure + json) : Env :=
  mkEnv (REFRESH_THRESHOLD env) (from_authorized_user_file env) (to_json env) (refresh env)
    (run_local_server env) (build env) answer (files_get env) (media env)
    (decode_utf8_replace env) (strftime_threshold env) (reformat_iso env)
    (repr_container env) (is_dir env) (path_join env) (CLIENT_SECRETS_FILE env)
    (save_token env) (save_file env).

Definition with_files_get (env : Env) (answer : string -> string -> failure + json) : Env :=
  mkEnv (REFRESH_THRESHOLD env) (from_authorized_user_file env) (to_json env) (refresh env)
    (run_local_server env) (build env) (files_list env) answer (media env)
    (decode_utf8_replace env) (strftime_threshold env) (reformat_iso env)
    (repr_container env) (is_dir env) (path_join env) (CLIENT_SECRETS_FILE env)
    (save_token env) (save_file env).

Definition with_media (env : Env)
    (answer : MediaRequest -> (failure + Chunk) * list (failure + Chunk)) : Env :=
  mkEnv (REFRESH_THRESHOLD env) (from_authorized_user_file env) (to_json env) (refresh env)
    (run_local_server env) (build env) (files_list env) (files_get env) answer
    (decode_utf8_replace env) (strftime_threshold env) (reformat_iso env)
    (repr_container env) (is_dir env) (path_join env) (CLIENT_SECRETS_FILE env)
    (save_token env) (save_file env).

Definition with_is_dir (env : Env) (answer : string -> bool) : Env :=
  mkEnv (REFRESH_THRESHOLD env) (from_authorized_user_file env) (to_json env) (refresh env)
    (run_local_server env) (build env) (files_list env) (files_get env) (media env)
    (decode_utf8_replace env) (strftime_threshold env) (reformat_iso env)
    (repr_container env) answer (path_join env) (CLIENT_SECRETS_FILE env)
    (save_token env) (save_file env).

(** A store whose token file reads back the credential of the consent
    flow, and worlds without a token file, with and without the client
    registration. *)
Definition consent_env : Env :=
  with_parse report_env (fun _ => inr fresh_credentials).

Definition first_run_world : World := mkWorld None true 1000.

Definition bare_world : World := mkWorld None false 1000.

(** A store whose token file is unreadable. *)
Definition corrupt_env : Env :=
  with_parse report_env (fun _ => inl (Other "Expecting value: line 1 column 1 (char 0)")).

(** A provider whose refreshes succeed, delivering a credential that
    expires at 9000. *)
Definition refreshing_env : Env :=
  sample_env 500 (inr (sample_credentials 9000)) JNull JNull "".

(** A store whose token file holds a credential that expired at 500 and
    has no refresh token. *)
Definition lapsed_credentials : Credentials :=
  mkCredentials (Some "ya29.access") None (Some 500).

Definition lapsed_env : Env :=
  with_parse report_env (fun _ => inr lapsed_credentials).

(** What the scripts do without client registration. *)
Definition exit_without_registration (env : Env) : M Credentials :=
  print ("Error: " ++ CLIENT_SECRETS_FILE env ++ " not found!") ;;;
  print "Please follow the setup instructions to create client_secrets.json" ;;;
  raise (SystemExit 1).

(** *** Runs of the protocol tools *)

(** The run of a tool that returns the error payload with [msg], from
    [w] to [w1] with the events [tr]. *)
Definition error_run (msg : string) (w1 : World) (tr : list Event) : Run string :=
  mkRun (Ret (dumps None (JObj [("error", JStr msg)]))) w1 tr.

(** The number of [files().list] requests of a run. *)
Fixpoint listings (tr : list Event) : nat :=
  match tr with
  | [] => O
  | EvFilesList _ _ _ _ :: tr' => S (listings tr')
  | _ :: tr' => listings tr'
  end.

(** A computation that sends at most [n] listing requests, wherever it
    starts. *)
Definition lists_at_most {A : Type} (n : nat) (m : M A) : Prop :=
  forall w, (listings (trace (m w)) <= n)%nat.

(** An event that is no authorization traffic. *)
Definition no_auth (e : Event) : Prop := is_auth_event e = false.

(** The fields the three listing tools ask for, and their filters. *)
Definition SEARCH_FIELDS : string :=
  "files(id, name, mimeType, modifiedTime, webViewLink, parents)".

Definition LISTING_FIELDS : string :=
  "files(id, name, mimeType, modifiedTime, webViewLink)".

Definition recent_query (threshold_time_str : string) : string :=
  "modifiedTime >= '" ++ threshold_time_str ++ "' and trashed = false".

Definition folder_query (folder_id : string) : string :=
  "'" ++ folder_id ++ "' in parents and trashed = false".

(** The three listing requests, as events. *)
Definition search_request (query : string) (max_results : Z) : Event :=
  EvFilesList (Server.search_query query) (Some "modifiedTime desc")
    (Some (Z.min max_results 100)) SEARCH_FIELDS.

Definition recent_request (threshold_time_str : string) (max_results : Z) : Event :=
  EvFilesList (recent_query threshold_time_str) (Some "modifiedTime desc")
    (Some (Z.min max_results 100)) LISTING_FIELDS.

Definition folder_request (folder_id : string) (max_results : Z) : Event :=
  EvFilesList (folder_query folder_id) (Some "folder,name")
    (Some (Z.min max_results 100)) LISTING_FIELDS.

(** The payloads of an empty search and of an empty recent listing. *)
Definition nothing_found (query : string) : json :=
  JObj [ ("message", JStr ("No files found matching '" ++ query ++ "'"));
         ("files", JArr []) ].

Definition nothing_recent (hours : Z) : json :=
  JObj [ ("message", JStr ("No files modified in the last " ++ string_of_Z hours
                           ++ " hours"));
         ("files", JArr []) ].

(** The message of the [AttributeError] raised by [item.get] on an item
    that is not a dict. *)
Definition not_a_dict_message (item : json) : string :=
  "'" ++ py_type_name item ++ "' object has no attribute 'get'".

(** A provider whose listings fail with a 403, and one whose second item
    is a string. *)
Definition forbidden_env : Env :=
  with_files_list report_env (fun _ _ _ _ => inl (Http "<HttpError 403 Forbidden>")).

Definition damaged_items : list json :=
  [ budget_file 0; JStr "oops"; budget_file 2 ].

Definition damaged_env : Env :=
  sample_env 5000 (inl (Http "unused")) (JObj [("files", JArr damaged_items)]) JNull "".

Definition DETAIL_FIELDS : string :=
  "id, name, mimeType, modifiedTime, createdTime, size, webViewLink, owners, shared, permissions".

(** A provider that answers every listing with [response]. *)
Definition always_lists (env : Env) (response : json) : Prop :=
  forall (q : string) (orderBy : option string) (pageSize : option Z) (fields : string),
    files_list env q orderBy pageSize fields = inr response.

(** A provider that fails every listing and every metadata request with
    [f]. *)
Definition always_fails (env : Env) (f : failure) : Prop :=
  (forall (q : string) (orderBy : option string) (pageSize : option Z) (fields : string),
      files_list env q orderBy pageSize fields = inl f)
  /\ (forall fileId fields : string, files_get env fileId fields = inl f).

(** A provider that refuses everything with a 403. *)
Definition refusing_env : Env :=
  with_files_get forbidden_env (fun _ _ => inl (Http "<HttpError 403 Forbidden>")).

(** The payload of [list_folder_contents] for the items of a folder. *)
Definition folder_payload (folder_id : string) (items : list json) : json :=
  JObj [ ("folder_id", JStr folder_id);
         ("folder_count", JInt (len (folders_of items)));
         ("file_count", JInt (len (files_of items)));
         ("folders", JArr (folders_of items));
         ("files", JArr (files_of items)) ].

(** The payloads of a search and of a recent listing that found [items]. *)
Definition found_payload (items : list json) : json :=
  JObj [ ("count", JInt (len items)); ("files", JArr (map entry items)) ].

Definition recent_payload (hours : Z) (items : list json) : json :=
  JObj [ ("hours", JInt hours); ("count", JInt (len items));
         ("files", JArr (map entry items)) ].

(** *** The content tools *)

(** The chunks a download delivers, in order. *)
Definition chunks_of (env : Env) (r : MediaRequest) : list (failure + Chunk) :=
  fst (media env r) :: snd (media env r).

(** The payload of [get_file_content] for a file fetched directly. *)
Definition text_payload (metadata : list (string * json)) (tag content : string)
    : list (string * json) :=
  [ ("name", get_or metadata "name" (JStr "Unknown")); ("mimeType", JStr tag);
    ("content", JStr content) ].

(** A tag whose file is fetched directly. *)
Definition text_like (tag : string) : bool :=
  String.prefix "text/" tag || str_eqb tag "application/json".

(** The media request [get_file_content] makes for a tag, if any. *)
Definition content_request (file_id tag : string) : option MediaRequest :=
  match assoc tag Server.EXPORT_MIME_TYPES with
  | Some target => Some (ExportMedia file_id target)
  | None => if text_like tag then Some (GetMedia file_id) else None
  end.

(** The payload of [get_file_content] after the download of [r]. *)
Definition content_payload (env : Env) (metadata : list (string * json)) (tag : string)
    (r : MediaRequest) (fh : list byte) : list (string * json) :=
  match r with
  | ExportMedia _ target =>
      exported_payload metadata tag target (decode_utf8_replace env fh)
  | GetMedia _ => text_payload metadata tag (decode_utf8_replace env fh)
  end.

(** How [get_file_metadata] names an owner. *)
Definition owner_label (o : json) : json :=
  match o with
  | JObj members =>
      get_or members "displayName" (get_or members "emailAddress" (JStr "Unknown"))
  | _ => JNull
  end.

(** The payload of [get_file_metadata]. *)
Definition details_payload (metadata : list (string * json)) (owners : list json) : json :=
  JObj [ ("id", get_or metadata "id" JNull);
         ("name", get_or metadata "name" JNull);
         ("mimeType", get_or metadata "mimeType" JNull);
         ("size", get_or metadata "size" (JStr "N/A"));
         ("createdTime", get_or metadata "createdTime" JNull);
         ("modifiedTime", get_or metadata "modifiedTime" JNull);
         ("webViewLink", get_or metadata "webViewLink" JNull);
         ("shared", get_or metadata "shared" (JBool false));
         ("owners", JArr (map owner_label owners)) ].

(** A provider that holds one text file, delivered in two chunks. *)
Definition notes_metadata : list (string * json) :=
  [ ("id", JStr "n1"); ("name", JStr "notes.txt"); ("mimeType", JStr "text/plain") ].

Definition notes_chunks : list Chunk :=
  [ mkChunk (list_byte_of_string "first ") 50; mkChunk (list_byte_of_string "second") 100 ].

Definition notes_env : Env :=
  with_media (sample_env 5000 (inl (Http "unused")) JNull (JObj notes_metadata) "")
    (fun _ => (inr (mkChunk (list_byte_of_string "first ") 50),
               [inr (mkChunk (list_byte_of_string "second") 100)])).

(** The same provider, whose second chunk fails. *)
Definition broken_env : Env :=
  with_media notes_env
    (fun _ => (inr (mkChunk (list_byte_of_string "first ") 50),
               [inl (Http "<HttpError 500 Backend Error>")])).

(** A provider that holds a file with three owners: one with a display
    name, one with an address only, one with neither. *)
Definition owned_metadata : list (string * json) :=
  [ ("id", JStr "f1"); ("name", JStr "plan.pdf");
    ("owners", JArr [ JObj [("displayName", JStr "Ada"); ("emailAddress", JStr "ada@example.org")];
                      JObj [("emailAddress", JStr "bob@example.org")];
                      JObj [] ]) ].

Definition owned_env : Env :=
  sample_env 5000 (inl (Http "unused")) JNull (JObj owned_metadata) "".

(** *** The download script *)

(** What the [next_chunk] loop of [download_file] leaves in the trace for
    the chunks it received: the request and the progress line of each. *)
Definition progress_of (r : MediaRequest) (cs : list Chunk) : list Event :=
  flat_map (fun c => [ EvNextChunk r;
                       EvPrint ("  Download progress: " ++ string_of_Z (percent c) ++ "%") ])
           cs.

(** Where a file named [leaf] is saved for the output path of the caller. *)
Definition saved_to (env : Env) (output_path leaf : string) : string :=
  if is_dir env output_path then path_join env output_path leaf else output_path.

(** The last two events of a successful [download_file]. *)
Definition saved_events (output_file : string) (content : list byte) : list Event :=
  [ EvWriteFile output_file content;
    EvPrint (Download.SAVED_MARK ++ " File saved to: " ++ output_file) ].

(** How [download_file] ends once the content [fh] is downloaded, after
    the events [tr]: it returns [True] when the write of [output_file]
    completes, and the [OSError] of a failed write leaves it uncaught. *)
Definition saved (env : Env) (w : World) (tr : list Event) (output_file : string)
    (fh : list byte) : Run bool :=
  match save_file env output_file fh with
  | Complete => mkRun (Ret true) w (tr ++ saved_events output_file fh)
  | Refused msg =>
      mkRun (Raise (PyException msg)) w (tr ++ [EvWriteFileFailed output_file None])
  | Cut msg kept =>
      mkRun (Raise (PyException msg)) w (tr ++ [EvWriteFileFailed output_file (Some kept)])
  end.

(** The format an export uses: the format of the caller unless it is
    omitted or empty, the default of the table then. *)
Definition chosen_format (table : list (string * string)) (export_format : option string)
    : string :=
  match export_format with
  | Some f => if str_eqb f "" then default_export table else f
  | None => default_export table
  end.

Definition WORKSPACE_PREFIX : string := "application/vnd.google-apps.".

(** A provider whose downloads arrive in two chunks and whose output
    path [out] is a directory. *)
Definition directory_env : Env :=
  with_is_dir notes_env (fun p => str_eqb p "out").

(** The same, the second chunk failing. *)
Definition broken_directory_env : Env :=
  with_is_dir broken_env (fun p => str_eqb p "out").

(** The same, in a file system where nothing can be opened under
    [missing/]. *)
Definition NO_SUCH_DIRECTORY : string := "[Errno 2] No such file or directory".

Definition nowhere_env : Env :=
  mkEnv (REFRESH_THRESHOLD directory_env) (from_authorized_user_file directory_env)
    (to_json directory_env) (refresh directory_env) (run_local_server directory_env)
    (build directory_env) (files_list directory_env) (files_get directory_env)
    (media directory_env) (decode_utf8_replace directory_env)
    (strftime_threshold directory_env) (reformat_iso directory_env)
    (repr_container directory_env) (is_dir directory_env) (path_join directory_env)
    (CLIENT_SECRETS_FILE directory_env) (save_token directory_env)
    (fun path _ =>
       if String.prefix "missing/" path then Refused NO_SUCH_DIRECTORY else Complete).

(** Providers for [find_file_by_name]: two files of the same name, and a
    failing search. *)
Definition twins_env : Env :=
  sample_env 5000 (inl (Http "unused"))
    (JObj [("files", JArr [budget_file 0; budget_file 1])]) JNull "".

(** The request of [find_file_by_name]. *)
Definition NAME_FIELDS : string := "files(id, name, mimeType)".

Definition name_request (name : string) : Event :=
  EvFilesList (Download.name_query name) None None NAME_FIELDS.

(** *** The recent-files script *)

Definition RECENT_FIELDS : string :=
  "nextPageToken, files(id, name, mimeType, modifiedTime, createdTime, webViewLink)".

(** The request of [get_recent_files] for a threshold. *)
Definition script_request (threshold_time_str : string) : Event :=
  EvFilesList (recent_query threshold_time_str) (Some "modifiedTime desc") (Some 50)
    RECENT_FIELDS.

(** The entry of an item in the JSON output of the script. *)
Definition script_entry (item : json) : json :=
  JObj [ ("id", field item "id"); ("name", field item "name");
         ("mimeType", field item "mimeType"); ("modifiedTime", field item "modifiedTime");
         ("createdTime", field item "createdTime");
         ("webViewLink", field item "webViewLink") ].

(** The first line of the text output. *)
Definition listing_header (mode : string) (hours : Z) : string :=
  String newline (Recent.FOLDER_SIGN ++ " Files " ++ mode ++ " in the last "
                  ++ string_of_Z hours ++ " hours:" ++ String newline "").

(** The lines of the text output for the item numbered [i], and for a
    list of items numbered from [i]. *)
Definition item_lines (env : Env) (i : Z) (members : list (string * json)) : list Event :=
  ([ EvPrint (string_of_Z i ++ ". "
              ++ py_format env (get_or members "name" (JStr "Untitled")));
     EvPrint ("   Modified: "
              ++ Recent.mod_time_str env (get_or members "modifiedTime" (JStr ""))) ]
   ++ (if py_truthy (get_or members "webViewLink" (JStr "")) then
         [ EvPrint ("   Link: " ++ py_format env (get_or members "webViewLink" (JStr ""))) ]
       else [])
   ++ [ EvPrint "" ])%list.

Fixpoint listing_lines (env : Env) (i : Z) (items : list json) : list Event :=
  match items with
  | JObj members :: rest => (item_lines env i members ++ listing_lines env (i + 1) rest)%list
  | _ => []
  end.

(** *** The filter of a folder listing *)

Definition FOLDER_SEGMENTS : list string :=
  [ "'"; " in parents and trashed = false" ].

(** A runtime that cannot represent the threshold of a lookback. *)
Definition overflowing_env : Env :=
  mkEnv (REFRESH_THRESHOLD report_env) (from_authorized_user_file report_env)
    (to_json report_env) (refresh report_env) (run_local_server report_env)
    (build report_env) (files_list report_env) (files_get report_env) (media report_env)
    (decode_utf8_replace report_env)
    (fun _ _ => inl (Other "date value out of range"))
    (reformat_iso report_env) (repr_container report_env) (is_dir report_env)
    (path_join report_env) (CLIENT_SECRETS_FILE report_env) (save_token report_env)
    (save_file report_env).

(** * Properties *)

(** ** Traces of composed computations *)

Lemma bind_run {A B : Type} (m : M A) (k : A -> M B) w a w1 tr1 :
  m w = mkRun (Ret a) w1 tr1 ->
  bind m k w = mkRun (outcome (k a w1)) (world (k a w1)) (tr1 ++ trace (k a w1)).
Proof. intros H. unfold bind. rewrite H. reflexivity. Qed.

Lemma bind_pure {A B : Type} (m : M A) (k : A -> M B) w a :
  m w = mkRun (Ret a) w [] -> bind m k w = k a w.
Proof. intros H. unfold bind. rewrite H. cbn. now destruct (k a w). Qed.

Lemma bind_then {A B : Type} (m : M A) (k : A -> M B) w a w1 tr1 o w2 tr2 :
  m w = mkRun (Ret a) w1 tr1 ->
  k a w1 = mkRun o w2 tr2 ->
  bind m k w = mkRun o w2 (tr1 ++ tr2).
Proof. intros Hm Hk. unfold bind. rewrite Hm. cbn. rewrite Hk. reflexivity. Qed.

Lemma try_except_ret {A : Type} (body : M A) handler w a w1 tr1 :
  body w = mkRun (Ret a) w1 tr1 ->
  try_except body handler w = mkRun (Ret a) w1 tr1.
Proof. intros H. unfold try_except. rewrite H. reflexivity. Qed.

Lemma call_files_list_run env q o n f response w :
  files_list env q o n f = inr response ->
  call_files_list env q o n f w = mkRun (Ret response) w [EvFilesList q o n f].
Proof. intros H. unfold call_files_list, bind, lift. cbn. rewrite H. reflexivity. Qed.

Lemma call_files_get_run env id f metadata w :
  files_get env id f = inr metadata ->
  call_files_get env id f w = mkRun (Ret metadata) w [EvFilesGet id f].
Proof. intros H. unfold call_files_get, bind, lift. cbn. rewrite H. reflexivity. Qed.

Lemma try_except_trace {A : Type} (body : M A) handler w :
  exists suffix, trace (try_except body handler w) = (trace (body w) ++ suffix)%list.
Proof.
  unfold try_except. destruct (outcome (body w)) as [a|e].
  - exists []. now rewrite app_nil_r.
  - destruct (handler e) as [h|]; cbn.
    + eexists; reflexivity.
    + exists []. now rewrite app_nil_r.
Qed.

Lemma download_starts env report r w :
  exists rest, trace (download env report r w) = EvNextChunk r :: rest.
Proof.
  unfold download. destruct (media env r) as [c cs]. cbn.
  unfold bind at 1. cbn. eexists; reflexivity.
Qed.

(** ** Reasoning about computations *)

Section Obeys.

Variable E : Event -> Prop.

Lemma obeys_ret {A : Type} (Q : A -> Prop) (a : A) : Q a -> obeys E Q (ret a).
Proof. intros H w. split; [constructor|exact H]. Qed.

Lemma obeys_raise {A : Type} (Q : A -> Prop) (msg : string) :
  obeys E Q (raise (PyException msg)).
Proof. intros w. split; [constructor|exact I]. Qed.

Lemma obeys_lift {A : Type} (r : failure + A) : obeys E any (lift r).
Proof.
  intros w. destruct r as [[m|m]|a]; (split; [constructor|exact I]).
Qed.

Lemma obeys_emit (e : Event) : E e -> obeys E any (emit e).
Proof. intros H w. split; [repeat constructor; exact H|exact I]. Qed.

Lemma obeys_get_world : obeys E any get_world.
Proof. intros w. split; [constructor|exact I]. Qed.

Lemma obeys_put_world w' : obeys E any (put_world w').
Proof. intros w. split; [constructor|exact I]. Qed.

Lemma obeys_bind {A B : Type} (Q' : A -> Prop) (Q : B -> Prop) (m : M A) (k : A -> M B) :
  obeys E Q' m ->
  (forall a, Q' a -> obeys E Q (k a)) ->
  obeys E Q (bind m k).
Proof.
  intros Hm Hk w. unfold bind.
  destruct (Hm w) as [Ht Ho].
  destruct (outcome (m w)) as [a|e]; cbn.
  - destruct (Hk a Ho (world (m w))) as [Ht' Ho'].
    split; [apply Forall_app; split; assumption|exact Ho'].
  - split; assumption.
Qed.

Lemma obeys_weaken {A : Type} (Q Q' : A -> Prop) (m : M A) :
  obeys E Q m -> (forall a, Q a -> Q' a) -> obeys E Q' m.
Proof.
  intros Hm HQ w. destruct (Hm w) as [Ht Ho]. split; [exact Ht|].
  destruct (outcome (m w)) as [a|[]]; auto.
Qed.

Lemma obeys_py_get obj key default : obeys E any (py_get obj key default).
Proof.
  destruct obj; cbn; try apply obeys_raise. apply obeys_ret. exact I.
Qed.

Lemma obeys_py_iter obj : obeys E any (py_iter obj).
Proof.
  destruct obj; cbn; try apply obeys_raise; apply obeys_ret; exact I.
Qed.

Lemma obeys_py_in {A : Type} x (d : list (string * A)) : obeys E any (py_in x d).
Proof.
  destruct x; cbn; try apply obeys_raise; apply obeys_ret; exact I.
Qed.

Lemma obeys_py_getitem {A : Type} (d : list (string * A)) x : obeys E any (py_getitem d x).
Proof.
  destruct x; cbn; try apply obeys_raise.
  destruct (assoc s d); [apply obeys_ret; exact I|apply obeys_raise].
Qed.

Lemma obeys_py_startswith x p : obeys E any (py_startswith x p).
Proof.
  destruct x; cbn; try apply obeys_raise; apply obeys_ret; exact I.
Qed.

Lemma obeys_for_each {A B : Type} (f : A -> M B) (l : list A) :
  (forall x, obeys E any (f x)) -> obeys E any (for_each f l).
Proof.
  intros Hf. induction l as [|x l IH]; cbn.
  - apply obeys_ret. exact I.
  - eapply obeys_bind; [apply Hf|intros y _].
    eapply obeys_bind; [apply IH|intros ys _].
    apply obeys_ret. exact I.
Qed.

End Obeys.

(** A tool whose body obeys a specification returns a string, whatever
    happens: what the body returned, or an error payload. *)
Lemma tool_returns (E : Event -> Prop) (Q : string -> Prop) (body : M string) w :
  obeys E Q body ->
  Forall E (trace (try_except body Server.tool_handler w))
  /\ exists s,
       outcome (try_except body Server.tool_handler w) = Ret s
       /\ (Q s \/ error_reply s).
Proof.
  intros Hb. destruct (Hb w) as [Ht Ho]. unfold try_except.
  destruct (outcome (body w)) as [s|[msg|msg|code]] eqn:Hout; cbn.
  - split; [exact Ht|]. exists s. rewrite Hout. auto.
  - rewrite app_nil_r. split; [exact Ht|].
    eexists. split; [reflexivity|]. right. exists msg. reflexivity.
  - rewrite app_nil_r. split; [exact Ht|].
    eexists. split; [reflexivity|]. right. exists msg. reflexivity.
  - contradiction.
Qed.

(** ** [json.dumps] writes JSON texts *)

Lemma append_assoc (a b c : string) : (a ++ b) ++ c = a ++ b ++ c.
Proof. induction a as [|x a IH]; cbn; [reflexivity|now rewrite IH]. Qed.

Lemma append_empty_r (a : string) : a ++ "" = a.
Proof. induction a as [|x a IH]; cbn; [reflexivity|now rewrite IH]. Qed.

Lemma json_nested_ind (P : json -> Prop) :
  P JNull ->
  (forall b, P (JBool b)) ->
  (forall n, P (JInt n)) ->
  (forall s, P (JStr s)) ->
  (forall l, Forall P l -> P (JArr l)) ->
  (forall ms, Forall (fun kv => P (snd kv)) ms -> P (JObj ms)) ->
  forall v, P v.
Proof.
  intros Hnull Hbool Hint Hstr Harr Hobj.
  fix IH 1. intros [| b | n | s | l | ms].
  - exact Hnull.
  - apply Hbool.
  - apply Hint.
  - apply Hstr.
  - apply Harr. induction l as [|x l IHl]; constructor; [apply IH|exact IHl].
  - apply Hobj. induction ms as [|[k x] ms IHms]; constructor; [apply IH|exact IHms].
Qed.

Lemma escape_char_chars (c : ascii) (rest : string) :
  json_chars (escape_char c ++ rest) = json_chars rest.
Proof.
  destruct c as [[] [] [] [] [] [] [] []]; reflexivity.
Qed.

Lemma escape_ascii_chars (s : string) : json_chars (escape_ascii s) = true.
Proof.
  induction s as [|c s IH]; cbn [escape_ascii]; [reflexivity|].
  now rewrite escape_char_chars.
Qed.

Lemma encode_basestring_ascii_value (s : string) :
  json_value (encode_basestring_ascii s).
Proof. apply (@jv_string (escape_ascii s)). apply escape_ascii_chars. Qed.

Lemma digits_of_uint (d : Decimal.uint) :
  all_chars is_digit (NilEmpty.string_of_uint d) = true.
Proof. induction d; cbn; auto. Qed.

Lemma to_uint_normal (p : positive) : Decimal.unorm (Pos.to_uint p) = Pos.to_uint p.
Proof.
  pose proof (DecimalPos.Unsigned.to_of (Pos.to_uint p)) as H.
  rewrite DecimalPos.Unsigned.of_to in H. symmetry. exact H.
Qed.

Lemma to_uint_no_leading_zero (p : positive) (d : Decimal.uint) :
  Pos.to_uint p <> Decimal.D0 d.
Proof.
  intros Heq. pose proof (to_uint_normal p) as Hnorm.
  rewrite Heq in Hnorm. rewrite DecimalFacts.unorm_D0 in Hnorm.
  destruct d as [| | | | | | | | | |];
    [apply (DecimalPos.Unsigned.to_uint_nonzero p); exact Heq|..];
    match type of Hnorm with
    | Decimal.unorm ?u = _ =>
        assert (Hnil : u <> Decimal.Nil) by discriminate;
        pose proof (DecimalFacts.nb_digits_unorm u Hnil) as Hle;
        rewrite Hnorm in Hle; cbn in Hle; lia
    end.
Qed.

Lemma string_of_Z_int (n : Z) : json_int (string_of_Z n) = true.
Proof.
  assert (Hpos : forall p, json_unsigned (NilZero.string_of_uint (Pos.to_uint p)) = true
                           /\ exists c rest, NilZero.string_of_uint (Pos.to_uint p)
                                            = String c rest /\ is_digit c = true).
  { intros p. pose proof (to_uint_no_leading_zero p) as Hlead.
    pose proof (DecimalPos.Unsigned.to_uint_nonnil p) as Hnil.
    destruct (Pos.to_uint p) as [|d|d|d|d|d|d|d|d|d|d];
      [contradiction|exfalso; apply (Hlead d); reflexivity|..];
      (split; [cbn; apply digits_of_uint|eexists _, _; split; reflexivity]). }
  unfold string_of_Z. destruct n as [|p|p]; cbn [Z.to_int NilZero.string_of_int].
  - reflexivity.
  - destruct (Hpos p) as [Hu (c & rest & Heq & Hc)]. rewrite Heq in *.
    cbn [json_int]. destruct (Ascii.eqb_spec c "-") as [->|_]; [discriminate Hc|exact Hu].
  - destruct (Hpos p) as [Hu _]. exact Hu.
Qed.

Lemma newline_indent_ws indent level : is_ws (newline_indent indent level).
Proof.
  destruct indent as [n|]; [|reflexivity]. unfold newline_indent, is_ws. cbn.
  induction (n * level)%nat as [|k IH]; [reflexivity|exact IH].
Qed.

Lemma item_separator_shape indent level :
  exists w, is_ws w /\ item_separator indent level = "," ++ w.
Proof.
  destruct indent as [n|].
  - exists (newline_indent (Some n) level). split; [apply newline_indent_ws|reflexivity].
  - exists " ". split; reflexivity.
Qed.

Lemma dumps_at_array indent level x xs :
  dumps_at indent level (JArr (x :: xs))
  = "[" ++ newline_indent indent (S level) ++ dumps_at indent (S level) x
    ++ more_items indent level xs ++ newline_indent indent level ++ "]".
Proof. reflexivity. Qed.

Lemma dumps_at_object indent level k x xs :
  dumps_at indent level (JObj ((k, x) :: xs))
  = "{" ++ newline_indent indent (S level)
    ++ encode_basestring_ascii k ++ ": " ++ dumps_at indent (S level) x
    ++ more_members indent level xs ++ newline_indent indent level ++ "}".
Proof. reflexivity. Qed.

Section DumpsText.

Variable indent : option nat.

Lemma elements_written level xs :
  Forall (written indent) xs ->
  forall w1 v, is_ws w1 -> json_value v ->
    json_elements (w1 ++ v ++ more_items indent level xs
                   ++ newline_indent indent level ++ "]").
Proof.
  induction 1 as [|y ys Hy _ IH]; intros w1 v Hw1 Hv.
  - apply (@je_last w1 v (newline_indent indent level) Hw1 Hv).
    apply newline_indent_ws.
  - cbn [more_items].
    destruct (item_separator_shape indent (S level)) as (w & Hw & ->).
    rewrite !append_assoc.
    apply (@je_more w1 v "" _ Hw1 Hv eq_refl).
    apply IH; [exact Hw|apply Hy].
Qed.

Lemma members_written level xs :
  Forall (fun kv => written indent (snd kv)) xs ->
  forall w1 k v, is_ws w1 -> json_value v ->
    json_members (w1 ++ encode_basestring_ascii k ++ ": " ++ v
                  ++ more_members indent level xs
                  ++ newline_indent indent level ++ "}").
Proof.
  induction 1 as [|[k' y] ys Hy _ IH]; intros w1 k v Hw1 Hv.
  - apply (@jm_last w1 (escape_ascii k) "" " " v (newline_indent indent level) Hw1
             (escape_ascii_chars k) eq_refl eq_refl Hv).
    apply newline_indent_ws.
  - cbn [more_members].
    destruct (item_separator_shape indent (S level)) as (w & Hw & ->).
    rewrite !append_assoc.
    apply (@jm_more w1 (escape_ascii k) "" " " v "" _ Hw1
             (escape_ascii_chars k) eq_refl eq_refl Hv eq_refl).
    apply IH; [exact Hw|apply Hy].
Qed.

Lemma dumps_at_value (v : json) : written indent v.
Proof.
  induction v as [| b | n | s | l IH | ms IH] using json_nested_ind; intros level.
  - apply jv_null.
  - destruct b; [apply jv_true|apply jv_false].
  - apply jv_number. apply string_of_Z_int.
  - apply encode_basestring_ascii_value.
  - destruct IH as [|x xs Hx Hxs].
    + apply (@jv_empty_array "" eq_refl).
    + rewrite dumps_at_array. apply jv_array.
      apply elements_written; [exact Hxs|apply newline_indent_ws|apply Hx].
  - destruct IH as [|[k x] xs Hx Hxs].
    + apply (@jv_empty_object "" eq_refl).
    + rewrite dumps_at_object. apply jv_object.
      apply members_written; [exact Hxs|apply newline_indent_ws|apply Hx].
Qed.

End DumpsText.

(** Whatever the value and the indentation, [json.dumps] writes a JSON
    text. *)
Lemma dumps_text (indent : option nat) (v : json) : json_text (dumps indent v).
Proof.
  exists "", (dumps indent v), "". repeat split.
  - apply dumps_at_value.
  - cbn. now rewrite append_empty_r.
Qed.

(** ** Credential acquisition *)

Section CredentialFacts.

Variable env : Env.

Lemma load_token_run w content c :
  token_file w = Some content ->
  from_authorized_user_file env content = inr c ->
  load_token env w = mkRun (Ret (Some c)) w [].
Proof.
  intros Hfile Hparse. unfold load_token, bind, get_world. cbn.
  rewrite Hfile. unfold lift. rewrite Hparse. reflexivity.
Qed.

Lemma expired_not_valid t c : expired env t c = true -> valid env t c = false.
Proof.
  unfold valid. intros ->. destruct (token c); reflexivity.
Qed.

(** A credential with a token whose expiry lies further ahead than the
    refresh threshold is valid. *)
Lemma valid_before_expiry t c access e :
  token c = Some access ->
  expiry c = Some e ->
  t + REFRESH_THRESHOLD env < e ->
  valid env t c = true.
Proof.
  intros Htoken Hexpiry Hahead. unfold valid, expired. rewrite Htoken, Hexpiry.
  apply negb_true_iff. apply Z.leb_gt. lia.
Qed.

Lemma calls_unchanged {A : Type} (m : M A) (a : A) w :
  m w = mkRun (Ret a) w [] ->
  forall n, calls n m w = mkRun (Ret (repeat a n)) w [].
Proof.
  intros Hm n. induction n as [|n IH]; [reflexivity|].
  cbn [calls repeat]. unfold bind. rewrite Hm. cbn. rewrite IH. reflexivity.
Qed.

End CredentialFacts.



(** C5, as the code has it.  When the persisted credential is expired and
    carries a refresh token, and the provider rejects the refresh, each
    of the three [get_credentials] raises that very failure to its
    caller: the refresh is the only event, no consent flow is started and
    the token file is left as it was, whether or not the client
    registration exists. *)
Theorem refresh_failure_propagates :
  forall (env : Env) (w : World) (content : string) (c : Credentials) (f : failure),
    token_file w = Some content ->
    from_authorized_user_file env content = inr c ->
    expired env (now w) c = true ->
    opt_truthy (refresh_token c) = true ->
    refresh env c = inl f ->
    Server.get_credentials env w = mkRun (Raise (exn_of_failure f)) w [EvRefresh c]
    /\ Download.get_credentials env w = mkRun (Raise (exn_of_failure f)) w [EvRefresh c]
    /\ Recent.get_credentials env w = mkRun (Raise (exn_of_failure f)) w [EvRefresh c].
Proof.
  intros env w content c f Hfile Hparse Hexp Htok Hrej.
  pose proof (expired_not_valid env _ _ Hexp) as Hinv.
  repeat split.
  - unfold Server.get_credentials, bind.
    rewrite (load_token_run env w Hfile Hparse). cbn.
    rewrite Hinv, Hexp, Htok. cbn. rewrite Hrej. reflexivity.
  - unfold Download.get_credentials, bind.
    rewrite (load_token_run env w Hfile Hparse). cbn.
    rewrite Hinv, Hexp, Htok. cbn. rewrite Hrej. reflexivity.
  - unfold Recent.get_credentials, bind.
    rewrite (load_token_run env w Hfile Hparse). cbn.
    rewrite Hinv, Hexp, Htok. cbn. rewrite Hrej. reflexivity.
Qed.

Lemma refresh_failure_propagates_witness :
  Server.get_credentials rejecting_env stale_world
  = mkRun (Raise (PyException "invalid_grant: Token has been expired or revoked."))
          stale_world [EvRefresh (sample_credentials 500)].
Proof.
  apply (@refresh_failure_propagates rejecting_env stale_world "token.json contents"
           (sample_credentials 500)
           (Other "invalid_grant: Token has been expired or revoked."));
    reflexivity.
Defined.

(** C5, as the claim has it, fails.  In [stale_world] the credential is
    expired with a refresh token, [rejecting_env] rejects the refresh, the
    client registration exists and a consent flow would deliver
    [fresh_credentials]; yet neither the server's nor the download
    script's [get_credentials] falls back to the consent flow. *)
Lemma refresh_rejected_no_fallback :
  (token_file stale_world = Some "token.json contents"
   /\ from_authorized_user_file rejecting_env "token.json contents"
      = inr (sample_credentials 500)
   /\ expired rejecting_env (now stale_world) (sample_credentials 500) = true
   /\ opt_truthy (refresh_token (sample_credentials 500)) = true
   /\ (exists f, refresh rejecting_env (sample_credentials 500) = inl f)
   /\ client_secrets_exists stale_world = true
   /\ run_local_server rejecting_env = inr fresh_credentials)
  /\ ~ falls_back_to_consent rejecting_env (Server.get_credentials rejecting_env) stale_world
  /\ ~ falls_back_to_consent rejecting_env (Download.get_credentials rejecting_env) stale_world.
Proof.
  split; [|split].
  - repeat split; try reflexivity. eexists; reflexivity.
  - intros (c' & _ & Hret & _). cbn in Hret. discriminate Hret.
  - intros (c' & _ & Hret & _). cbn in Hret. discriminate Hret.
Qed.

(** ** The protocol tools *)

Ltac obind base := eapply obeys_bind; [base|intros ? _].

Section ToolFacts.

Variable env : Env.
Variable E : Event -> Prop.
Hypothesis setup_ok : forall e, is_setup_event e = true -> E e.

Lemma obeys_load_token : obeys E any (load_token env).
Proof.
  unfold load_token. obind ltac:(apply obeys_get_world).
  destruct (token_file a); [|apply obeys_ret; exact I].
  obind ltac:(apply obeys_lift). apply obeys_ret. exact I.
Qed.

Lemma obeys_write_token content : obeys E any (write_token env content).
Proof.
  unfold write_token. obind ltac:(apply obeys_get_world).
  destruct (save_token env content) as [|msg|msg kept].
  - obind ltac:(apply obeys_put_world).
    apply obeys_emit. apply setup_ok. reflexivity.
  - obind ltac:(apply obeys_emit; apply setup_ok; reflexivity).
    apply obeys_raise.
  - obind ltac:(apply obeys_put_world).
    obind ltac:(apply obeys_emit; apply setup_ok; reflexivity).
    apply obeys_raise.
Qed.

Lemma obeys_get_credentials : obeys E any (Server.get_credentials env).
Proof.
  unfold Server.get_credentials.
  obind ltac:(apply obeys_load_token).
  obind ltac:(apply obeys_get_world).
  destruct (still_valid env (now a0) a); [apply obeys_ret; exact I|].
  eapply obeys_bind with (Q' := any).
  - destruct (can_refresh env (now a0) a).
    + obind ltac:(apply obeys_emit; apply setup_ok; reflexivity).
      apply obeys_lift.
    + destruct (negb (client_secrets_exists a0)); [apply obeys_raise|].
      unfold interactive_flow.
      obind ltac:(apply obeys_emit; apply setup_ok; reflexivity).
      apply obeys_lift.
  - intros creds' _. obind ltac:(apply obeys_write_token).
    apply obeys_ret. exact I.
Qed.

Lemma obeys_get_drive_service : obeys E any (Server.get_drive_service env).
Proof.
  unfold Server.get_drive_service.
  obind ltac:(apply obeys_get_credentials).
  obind ltac:(apply obeys_emit; apply setup_ok; reflexivity).
  apply obeys_lift.
Qed.

Lemma obeys_entry_of item : obeys E any (Server.entry_of item).
Proof.
  unfold Server.entry_of.
  do 5 (obind ltac:(apply obeys_py_get)). apply obeys_ret. exact I.
Qed.

Lemma obeys_owner_name o : obeys E any (Server.owner_name o).
Proof.
  unfold Server.owner_name. obind ltac:(apply obeys_py_get). apply obeys_py_get.
Qed.

Lemma obeys_separate items folders files : obeys E any (Server.separate items folders files).
Proof.
  revert folders files. induction items as [|item rest IH]; intros folders files; cbn.
  - apply obeys_ret. exact I.
  - obind ltac:(apply obeys_entry_of). obind ltac:(apply obeys_py_get).
    destruct (py_eq_str a0 Server.FOLDER_MIME_TYPE); apply IH.
Qed.

Lemma obeys_next_chunks report r cs fh :
  E (EvNextChunk r) ->
  (forall c, obeys E any (report c)) ->
  obeys E any (next_chunks report r cs fh).
Proof.
  intros Hr Hreport. revert fh. induction cs as [|c cs IH]; intros fh; cbn.
  - apply obeys_ret. exact I.
  - obind ltac:(apply obeys_emit; exact Hr).
    obind ltac:(apply obeys_lift).
    obind ltac:(apply Hreport).
    apply IH.
Qed.

Lemma obeys_download report r :
  E (EvNextChunk r) ->
  (forall c, obeys E any (report c)) ->
  obeys E any (download env report r).
Proof.
  intros Hr Hreport. unfold download. destruct (media env r) as [c cs].
  apply obeys_next_chunks; assumption.
Qed.

Lemma obeys_call_files_list q o n f :
  E (EvFilesList q o n f) -> obeys E any (call_files_list env q o n f).
Proof.
  intros H. unfold call_files_list. obind ltac:(apply obeys_emit; exact H).
  apply obeys_lift.
Qed.

Lemma obeys_call_files_get id f :
  E (EvFilesGet id f) -> obeys E any (call_files_get env id f).
Proof.
  intros H. unfold call_files_get. obind ltac:(apply obeys_emit; exact H).
  apply obeys_lift.
Qed.

End ToolFacts.

Ltac success := apply obeys_ret; eexists _, _; split; reflexivity.

Lemma tool_reply_of_body (body : M string) w :
  obeys any success_reply body ->
  tool_reply (try_except body Server.tool_handler w).
Proof.
  intros Hb. destruct (tool_returns w Hb) as [_ (s & Hs & Hshape)].
  exists s. split; [exact Hs|]. split; [|exact Hshape].
  destruct Hshape as [(indent & members & -> & _)|(msg & ->)]; apply dumps_text.
Qed.


(** ** The dispatch of [get_file_content] *)

Lemma media_requests_app tr1 tr2 :
  media_requests (tr1 ++ tr2) = (media_requests tr1 ++ media_requests tr2)%list.
Proof.
  induction tr1 as [|e tr1 IH]; [reflexivity|].
  destruct e; cbn; rewrite ?IH; reflexivity.
Qed.

Lemma setup_sends_no_media tr :
  Forall (fun e => is_setup_event e = true) tr -> media_requests tr = [].
Proof.
  induction 1 as [|e tr He _ IH]; [reflexivity|].
  destruct e; cbn in *; try discriminate He; exact IH.
Qed.

Lemma service_sends_no_media env w w1 tr1 :
  Server.get_drive_service env w = mkRun (Ret tt) w1 tr1 -> media_requests tr1 = [].
Proof.
  intros Hservice. apply setup_sends_no_media.
  destruct (@obeys_get_drive_service env (fun e => is_setup_event e = true)
              (fun e H => H) w) as [Ht _].
  rewrite Hservice in Ht. exact Ht.
Qed.

Lemma silent_chunks r cs fh w :
  exists o k,
    next_chunks silent r cs fh w = mkRun o w (repeat (EvNextChunk r) k)
    /\ match o with Raise (SystemExit _) => False | _ => True end.
Proof.
  revert fh. induction cs as [|c cs IH]; intros fh.
  - exists (Ret fh), O. split; [reflexivity|exact I].
  - destruct c as [f|status].
    + exists (Raise (exn_of_failure f)), 1%nat. split; [reflexivity|].
      destruct f; exact I.
    + destruct (IH (fh ++ chunk_data status)%list) as (o & k & Hrun & Ho).
      exists o, (S k). split; [|exact Ho].
      cbn [next_chunks].
      eapply (@bind_then _ _ _ _ w tt w [EvNextChunk r]); [reflexivity|].
      eapply (@bind_then _ _ _ _ w status w []); [reflexivity|].
      eapply (@bind_then _ _ _ _ w tt w []); [reflexivity|].
      exact Hrun.
Qed.

Lemma silent_chunks_all r cs fh w :
  next_chunks silent r (map inr cs) fh w
  = mkRun (Ret (fh ++ concat (map chunk_data cs))%list) w
          (repeat (EvNextChunk r) (length cs)).
Proof.
  revert fh. induction cs as [|c cs IH]; intros fh; cbn [map next_chunks].
  - cbn. now rewrite app_nil_r.
  - eapply (@bind_then _ _ _ _ w tt w [EvNextChunk r]); [reflexivity|].
    eapply (@bind_then _ _ _ _ w c w []); [reflexivity|].
    eapply (@bind_then _ _ _ _ w tt w []); [reflexivity|].
    rewrite IH. cbn. now rewrite <- app_assoc.
Qed.

Lemma media_requests_repeat r k :
  media_requests (repeat (EvNextChunk r) k) = repeat r k.
Proof. induction k as [|k IH]; cbn; [reflexivity|now rewrite IH]. Qed.

Lemma tool_run (body : M string) w o w1 tr1 :
  body w = mkRun o w1 tr1 ->
  match o with Raise (SystemExit _) => False | _ => True end ->
  exists s,
    try_except body Server.tool_handler w = mkRun (Ret s) w1 tr1
    /\ forall a, o = Ret a -> s = a.
Proof.
  intros Hbody Ho. unfold try_except. rewrite Hbody. cbn.
  destruct o as [a|[msg|msg|code]]; [| | |contradiction]; cbn.
  - exists a. split; [reflexivity|]. intros a' H. now injection H.
  - rewrite app_nil_r. eexists. split; [reflexivity|discriminate].
  - rewrite app_nil_r. eexists. split; [reflexivity|discriminate].
Qed.

Lemma bind_last {A B : Type} (m : M A) (f : A -> B) w o w1 tr1 :
  m w = mkRun o w1 tr1 ->
  bind m (fun a => ret (f a)) w
  = mkRun (match o with Ret a => Ret (f a) | Raise e => Raise e end) w1 tr1.
Proof.
  intros H. unfold bind. rewrite H. destruct o; cbn; [now rewrite app_nil_r|reflexivity].
Qed.

Section Dispatch.

Variable env : Env.
Variables (w w1 : World) (tr1 : list Event).
Variable file_id : string.
Variable metadata : list (string * json).
Variable tag : string.

Hypothesis service : Server.get_drive_service env w = mkRun (Ret tt) w1 tr1.
Hypothesis fetched : files_get env file_id METADATA_FIELDS = inr (JObj metadata).
Hypothesis tagged : get_or metadata "mimeType" (JStr "") = JStr tag.

(** The export branch, for whatever the download does. *)
Lemma export_branch target o trd :
  assoc tag Server.EXPORT_MIME_TYPES = Some target ->
  download env silent (ExportMedia file_id target) w1 = mkRun o w1 trd ->
  match o with Raise (SystemExit _) => False | _ => True end ->
  exists s,
    Server.get_file_content env file_id w
    = mkRun (Ret s) w1 (tr1 ++ EvFilesGet file_id METADATA_FIELDS :: trd)
    /\ forall fh, o = Ret fh ->
         s = dumps (Some 2%nat)
               (JObj (exported_payload metadata tag target (decode_utf8_replace env fh))).
Proof.
  intros Htarget Hdownload Ho.
  unfold Server.get_file_content, Server.get_file_content_try.
  match goal with
  | |- context [try_except ?b _ w] =>
      destruct (@tool_run b w
                  (match o with
                   | Ret fh =>
                       Ret (dumps (Some 2%nat)
                              (JObj (exported_payload metadata tag target
                                       (decode_utf8_replace env fh))))
                   | Raise e => Raise e
                   end) w1 (tr1 ++ EvFilesGet file_id METADATA_FIELDS :: trd))
        as (s & Hs & Hval)
  end.
  - eapply bind_then; [exact service|].
    change (EvFilesGet file_id METADATA_FIELDS :: trd)
      with ([EvFilesGet file_id METADATA_FIELDS] ++ [] ++ [] ++ [] ++ [] ++ trd)%list.
    eapply bind_then; [apply call_files_get_run; exact fetched|].
    eapply bind_then; [cbn [py_get]; fold (get_or metadata "mimeType" (JStr ""));
                       rewrite tagged; reflexivity|].
    eapply bind_then; [reflexivity|].
    eapply bind_then; [reflexivity|].
    unfold has_key. rewrite Htarget.
    eapply bind_then; [cbn [py_getitem]; rewrite Htarget; reflexivity|].
    unfold exported_payload, get_or.
    apply (@bind_last _ _ (download env silent (ExportMedia file_id target)) _ w1 o w1 trd
             Hdownload).
  - destruct o as [fh|[]]; try exact I. contradiction.
  - exists s. split; [exact Hs|]. intros fh ->. apply Hval. reflexivity.
Qed.

(** The branch of the files whose content is not extracted. *)
Lemma metadata_branch :
  assoc tag Server.EXPORT_MIME_TYPES = None ->
  String.prefix "text/" tag = false ->
  tag <> "application/json" ->
  Server.get_file_content env file_id w
  = mkRun (Ret (dumps (Some 2%nat) (JObj (metadata_payload metadata tag)))) w1
          (tr1 ++ [EvFilesGet file_id METADATA_FIELDS]).
Proof.
  intros Hnone Hprefix Hjson.
  unfold Server.get_file_content, Server.get_file_content_try. apply try_except_ret.
  eapply bind_then; [exact service|].
  change [EvFilesGet file_id METADATA_FIELDS]
    with ([EvFilesGet file_id METADATA_FIELDS] ++ [] ++ [] ++ [] ++ [] ++ [] ++ [])%list.
  eapply bind_then; [apply call_files_get_run; exact fetched|].
  eapply bind_then; [cbn [py_get]; fold (get_or metadata "mimeType" (JStr ""));
                     rewrite tagged; reflexivity|].
  eapply bind_then; [reflexivity|].
  eapply bind_then; [reflexivity|].
  unfold has_key. rewrite Hnone.
  eapply bind_then; [reflexivity|].
  rewrite Hprefix. cbn [orb py_eq_str]. unfold str_eqb.
  destruct (String.eqb_spec tag "application/json") as [Heq|_]; [contradiction|].
  eapply bind_then; [reflexivity|].
  reflexivity.
Qed.

End Dispatch.

Lemma download_silent_run env r w :
  exists o k,
    download env silent r w = mkRun o w (repeat (EvNextChunk r) (S k))
    /\ match o with Raise (SystemExit _) => False | _ => True end.
Proof.
  destruct (download_starts env silent r w) as [rest Hstart].
  unfold download in *. destruct (media env r) as [c cs].
  destruct (silent_chunks r (c :: cs) [] w) as (o & k & Hrun & Ho).
  rewrite Hrun in Hstart. cbn [trace] in Hstart.
  destruct k as [|k]; [discriminate Hstart|].
  exists o, k. split; assumption.
Qed.

(** C1. Once the service is built and the metadata of the file fetched,
    [get_file_content] dispatches on the content-type tag.  For a tag of
    the export mapping every media request it sends, and it sends at
    least one, is the export to the mapped representation, never a direct
    fetch; when the export delivers all its chunks, the payload carries
    the decoded text and, under [exportedAs], that representation.  For a
    tag outside the mapping that neither starts with [text/] nor is
    [application/json], no media request is sent and the payload is the
    metadata, without a [content] field.  The mapping sends the
    spreadsheet type to [text/csv]. *)
Theorem get_file_content_dispatch :
  forall (env : Env) (w w1 : World) (tr1 : list Event) (file_id : string)
         (metadata : list (string * json)) (tag : string),
    Server.get_drive_service env w = mkRun (Ret tt) w1 tr1 ->
    files_get env file_id METADATA_FIELDS = inr (JObj metadata) ->
    get_or metadata "mimeType" (JStr "") = JStr tag ->
    (forall target,
        assoc tag Server.EXPORT_MIME_TYPES = Some target ->
        (exists s k,
            outcome (Server.get_file_content env file_id w) = Ret s
            /\ media_requests (trace (Server.get_file_content env file_id w))
               = repeat (ExportMedia file_id target) (S k))
        /\ (forall c cs,
               media env (ExportMedia file_id target) = (inr c, map inr cs) ->
               outcome (Server.get_file_content env file_id w)
               = Ret (dumps (Some 2%nat)
                        (JObj (exported_payload metadata tag target
                                 (decode_utf8_replace env
                                    (concat (map chunk_data (c :: cs)))))))))
    /\ (assoc tag Server.EXPORT_MIME_TYPES = None ->
        String.prefix "text/" tag = false ->
        tag <> "application/json" ->
        media_requests (trace (Server.get_file_content env file_id w)) = []
        /\ outcome (Server.get_file_content env file_id w)
           = Ret (dumps (Some 2%nat) (JObj (metadata_payload metadata tag)))
        /\ has_key "content" (metadata_payload metadata tag) = false)
    /\ assoc "application/vnd.google-apps.spreadsheet" Server.EXPORT_MIME_TYPES
       = Some "text/csv".
Proof.
  intros env w w1 tr1 file_id metadata tag Hservice Hfetched Htagged.
  pose proof (service_sends_no_media _ _ Hservice) as Hquiet.
  split; [|split; [|reflexivity]].
  - intros target Htarget. split.
    + destruct (download_silent_run env (ExportMedia file_id target) w1)
        as (o & k & Hrun & Ho).
      destruct (@export_branch _ _ _ _ _ _ _ Hservice Hfetched Htagged _ _ _ Htarget Hrun Ho)
        as (s & Hs & _).
      exists s, k. rewrite Hs. cbn [outcome trace]. split; [reflexivity|].
      rewrite media_requests_app, Hquiet. cbn [app media_requests].
      apply media_requests_repeat.
    + intros c cs Hmedia.
      assert (Hrun : download env silent (ExportMedia file_id target) w1
                     = mkRun (Ret (concat (map chunk_data (c :: cs)))) w1
                         (repeat (EvNextChunk (ExportMedia file_id target))
                                 (length (c :: cs)))).
      { unfold download. rewrite Hmedia.
        exact (silent_chunks_all (ExportMedia file_id target) (c :: cs) [] w1). }
      destruct (@export_branch _ _ _ _ _ _ _ Hservice Hfetched Htagged _ _ _ Htarget Hrun I)
        as (s & Hs & Hval).
      rewrite Hs. cbn [outcome]. f_equal. apply Hval. reflexivity.
  - intros Hnone Hprefix Hjson.
    rewrite (@metadata_branch _ _ _ _ _ _ _ Hservice Hfetched Htagged Hnone Hprefix Hjson).
    cbn [outcome trace]. repeat split.
    rewrite media_requests_app, Hquiet. reflexivity.
Qed.

Lemma get_file_content_dispatch_witness :
  outcome (Server.get_file_content sheet_env "sheet1" (sample_world 1000))
  = Ret (dumps (Some 2%nat)
           (JObj [ ("name", JStr "Budget");
                   ("mimeType", JStr "application/vnd.google-apps.spreadsheet");
                   ("exportedAs", JStr "text/csv");
                   ("content", JStr ("item,amount" ++ String newline "rent,1200")) ])).
Proof.
  exact (proj2 (proj1 (@get_file_content_dispatch sheet_env (sample_world 1000)
                         (sample_world 1000) [EvBuild] "sheet1" sheet_metadata
                         "application/vnd.google-apps.spreadsheet"
                         eq_refl eq_refl eq_refl)
                  "text/csv" eq_refl)
           (mkChunk (list_byte_of_string ("item,amount" ++ String newline "rent,1200")) 100)
           [] eq_refl).
Defined.

(** ** The cap on the number of results *)

Section Cap.

Variable env : Env.
Variable limit : Z.
Hypothesis honest : honours_page_size env.

Lemma setup_asks_nothing e : is_setup_event e = true -> asks_page_size limit e.
Proof. destruct e; cbn; intros H; try exact I; discriminate H. Qed.

Lemma capped_listing q o f :
  obeys (asks_page_size limit) (fun response => len (listed response) <= Z.max 0 limit)
    (call_files_list env q o (Some limit) f).
Proof.
  intros w. unfold call_files_list, bind. cbn.
  destruct (files_list env q o (Some limit) f) as [[m|m]|response] eqn:Hlist; cbn.
  - split; [repeat constructor|exact I].
  - split; [repeat constructor|exact I].
  - split; [repeat constructor|]. exact (honest _ _ _ _ Hlist).
Qed.

(** The items under [files], or under the default [[]]. *)
Lemma capped_items response :
  len (listed response) <= Z.max 0 limit ->
  obeys (asks_page_size limit) (fun items => forall l, items = JArr l -> len l <= Z.max 0 limit)
    (py_get response "files" (JArr [])).
Proof.
  intros Hlen. destruct response; cbn; try apply obeys_raise.
  apply obeys_ret. intros l Hl. cbn in Hlen.
  destruct (assoc "files" members) as [v|].
  - subst v. exact Hlen.
  - injection Hl as <-. cbn. lia.
Qed.

Lemma entry_of_dict item :
  obeys (asks_page_size limit) (fun _ => is_dict item = true) (Server.entry_of item).
Proof.
  destruct item; cbn; try apply obeys_raise.
  intros w. split; [constructor|reflexivity].
Qed.

Lemma for_each_entry_of l :
  obeys (asks_page_size limit) (fun out => length out = length l /\ forallb is_dict l = true)
    (for_each Server.entry_of l).
Proof.
  induction l as [|x l IH]; cbn [for_each].
  - apply obeys_ret. split; reflexivity.
  - eapply obeys_bind; [apply entry_of_dict|intros y Hx].
    eapply obeys_bind; [apply IH|intros ys [Hlen Hall]].
    apply obeys_ret. cbn. rewrite Hx, Hall, Hlen. split; reflexivity.
Qed.

Lemma separate_lengths items folders files :
  obeys (asks_page_size limit) (fun p => (length (fst p) + length (snd p)
                     = length folders + length files + length items)%nat
                    /\ forallb is_dict items = true)
    (Server.separate items folders files).
Proof.
  revert folders files. induction items as [|item rest IH]; intros folders files;
    cbn [Server.separate].
  - apply obeys_ret. cbn. split; [lia|reflexivity].
  - eapply obeys_bind; [apply entry_of_dict|intros entry Hitem].
    obind ltac:(apply obeys_py_get).
    destruct (py_eq_str a Server.FOLDER_MIME_TYPE);
      (eapply obeys_weaken; [apply IH|]);
      intros p [Hlen Hall]; cbn [forallb]; rewrite Hitem, Hall;
      rewrite length_app in Hlen; cbn in Hlen |- *; (split; [lia|reflexivity]).
Qed.

(** What iterating over the items yields is within the limit, unless it
    holds something that is not a dict. *)
Lemma capped_iter items :
  (forall l, items = JArr l -> len l <= Z.max 0 limit) ->
  obeys (asks_page_size limit) (fun l => forallb is_dict l = true -> len l <= Z.max 0 limit) (py_iter items).
Proof.
  intros Hlen. destruct items as [| | |s|l|members]; cbn; try apply obeys_raise;
    apply obeys_ret.
  - intros Hall. destruct s as [|c s]; cbn in *; [lia|discriminate Hall].
  - intros _. apply Hlen. reflexivity.
  - intros Hall. destruct members as [|[k v] members]; cbn in *; [lia|discriminate Hall].
Qed.

End Cap.

Lemma capped_tool (limit : Z) (body : M string) w :
  obeys (asks_page_size limit)
    (fun s => exists indent payload,
         s = dumps indent payload /\ Z.of_nat (returned_items payload) <= Z.max 0 limit)
    body ->
  returns_at_most limit (try_except body Server.tool_handler w).
Proof.
  intros Hb. destruct (tool_returns w Hb) as [_ (s & Hs & [Hq|[msg Hm]])].
  - destruct Hq as (indent & payload & -> & Hle).
    exists indent, payload. split; assumption.
  - subst s. exists None, (JObj [("error", JStr msg)]). split; [exact Hs|]. cbn. lia.
Qed.

Lemma asking_tool (limit : Z) (body : M string) w :
  obeys (asks_page_size limit) any body ->
  asks_only limit (try_except body Server.tool_handler w).
Proof. intros Hb. exact (proj1 (tool_returns w Hb)). Qed.

Ltac within_limit :=
  apply obeys_ret; eexists _, _; split; [reflexivity|]; cbn; try lia.

Ltac done_any := apply obeys_ret; exact I.

(** The three listing tools ask for pages of [min(max_results, 100)]
    items, whatever the provider does. *)
Lemma listing_tools_ask (env : Env) (w : World) (max_results : Z) :
  (forall query,
      asks_only (Z.min max_results 100) (Server.search_drive env query max_results w))
  /\ (forall hours,
         asks_only (Z.min max_results 100)
           (Server.list_recent_files env hours max_results w))
  /\ (forall folder_id,
         asks_only (Z.min max_results 100)
           (Server.list_folder_contents env folder_id max_results w)).
Proof.
  set (limit := Z.min max_results 100).
  split; [|split]; intros.
  - apply asking_tool.
    obind ltac:(apply obeys_get_drive_service; apply setup_asks_nothing).
    obind ltac:(apply obeys_call_files_list; reflexivity).
    obind ltac:(apply obeys_py_get).
    destruct (negb (py_truthy a1)); [done_any|].
    obind ltac:(apply obeys_py_iter).
    obind ltac:(apply obeys_for_each; intros; apply obeys_entry_of).
    done_any.
  - apply asking_tool.
    obind ltac:(apply obeys_get_drive_service; apply setup_asks_nothing).
    obind ltac:(apply obeys_get_world).
    obind ltac:(apply obeys_lift).
    obind ltac:(apply obeys_call_files_list; reflexivity).
    obind ltac:(apply obeys_py_get).
    destruct (negb (py_truthy a3)); [done_any|].
    obind ltac:(apply obeys_py_iter).
    obind ltac:(apply obeys_for_each; intros; apply obeys_entry_of).
    done_any.
  - apply asking_tool.
    obind ltac:(apply obeys_get_drive_service; apply setup_asks_nothing).
    obind ltac:(apply obeys_call_files_list; reflexivity).
    obind ltac:(apply obeys_py_get).
    obind ltac:(apply obeys_py_iter).
    obind ltac:(apply obeys_separate).
    destruct a3 as [folders files]. done_any.
Qed.

(** With a provider that honours the page size, the three listing tools
    return at most [min(max_results, 100)] items. *)
Lemma listing_tools_return (env : Env) (w : World) (max_results : Z) :
  honours_page_size env ->
  (forall query,
      returns_at_most (Z.min max_results 100)
        (Server.search_drive env query max_results w))
  /\ (forall hours,
         returns_at_most (Z.min max_results 100)
           (Server.list_recent_files env hours max_results w))
  /\ (forall folder_id,
         returns_at_most (Z.min max_results 100)
           (Server.list_folder_contents env folder_id max_results w)).
Proof.
  intros Hhonest.
  set (limit := Z.min max_results 100).
  split; [|split]; intros.
  - apply capped_tool.
    obind ltac:(apply obeys_get_drive_service; apply setup_asks_nothing).
    eapply obeys_bind; [apply capped_listing; exact Hhonest|intros results Hresults].
    eapply obeys_bind; [apply capped_items; exact Hresults|intros items Hitems].
    destruct (negb (py_truthy items)); [within_limit|].
    eapply obeys_bind; [apply capped_iter; exact Hitems|intros l Hl].
    eapply obeys_bind; [apply for_each_entry_of|intros out [Hlen Hall]].
    within_limit. specialize (Hl Hall). unfold len in Hl. lia.
  - apply capped_tool.
    obind ltac:(apply obeys_get_drive_service; apply setup_asks_nothing).
    obind ltac:(apply obeys_get_world).
    obind ltac:(apply obeys_lift).
    eapply obeys_bind; [apply capped_listing; exact Hhonest|intros results Hresults].
    eapply obeys_bind; [apply capped_items; exact Hresults|intros items Hitems].
    destruct (negb (py_truthy items)); [within_limit|].
    eapply obeys_bind; [apply capped_iter; exact Hitems|intros l Hl].
    eapply obeys_bind; [apply for_each_entry_of|intros out [Hlen Hall]].
    within_limit. specialize (Hl Hall). unfold len in Hl. lia.
  - apply capped_tool.
    obind ltac:(apply obeys_get_drive_service; apply setup_asks_nothing).
    eapply obeys_bind; [apply capped_listing; exact Hhonest|intros results Hresults].
    eapply obeys_bind; [apply capped_items; exact Hresults|intros items Hitems].
    eapply obeys_bind; [apply capped_iter; exact Hitems|intros l Hl].
    eapply obeys_bind; [apply separate_lengths|intros [folders files] [Hlen Hall]].
    within_limit. specialize (Hl Hall). unfold len in Hl. cbn in Hlen. lia.
Qed.


Lemma paging_env_honours : honours_page_size paging_env.
Proof.
  intros q o n f response H. cbn in H. injection H as <-.
  cbn. unfold len. rewrite length_map, length_seq. lia.
Qed.


(** The tools do not truncate by themselves: asked for two results, a
    provider that answers with three has all three returned. *)
Lemma cap_rests_on_provider :
  exists out,
    outcome (Server.search_drive overfull_env "budget" 2 (sample_world 1000))
    = Ret (dumps (Some 2%nat) (JObj [("count", JInt 3); ("files", JArr out)]))
    /\ length out = 3%nat.
Proof. eexists. split; reflexivity. Qed.

(** ** The partition of a folder listing *)

Lemma entry_of_run members w :
  Server.entry_of (JObj members) w = mkRun (Ret (entry (JObj members))) w [].
Proof. reflexivity. Qed.

Lemma separate_run items :
  forallb is_dict items = true ->
  forall folders files w,
    Server.separate items folders files w
    = mkRun (Ret ((folders ++ folders_of items)%list, (files ++ files_of items)%list)) w [].
Proof.
  unfold folders_of, files_of.
  induction items as [|item rest IH]; intros Hall folders files w; cbn [Server.separate].
  - cbn. now rewrite !app_nil_r.
  - cbn [forallb] in Hall. apply andb_true_iff in Hall as [Hitem Hrest].
    destruct item as [| | | | |members]; try discriminate Hitem.
    rewrite (bind_pure _ _ (entry_of_run members w)).
    rewrite (@bind_pure _ _ _ _ w (field (JObj members) "mimeType") eq_refl).
    change (py_eq_str (field (JObj members) "mimeType") Server.FOLDER_MIME_TYPE)
      with (is_folder (JObj members)).
    cbn [filter].
    destruct (is_folder (JObj members)); cbn [negb map];
      rewrite (IH Hrest); rewrite <- !app_assoc; reflexivity.
Qed.

Lemma folders_are_folders items :
  Forall (fun e => field e "mimeType" = JStr Server.FOLDER_MIME_TYPE) (folders_of items).
Proof.
  unfold folders_of. apply Forall_map. apply Forall_forall.
  intros item Hin. apply filter_In in Hin as [_ Hf].
  unfold is_folder in Hf. cbn [entry field assoc]. cbn.
  destruct (field item "mimeType"); try discriminate Hf.
  cbn in Hf. apply String.eqb_eq in Hf. now subst.
Qed.

Lemma files_are_not_folders items :
  Forall (fun e => field e "mimeType" <> JStr Server.FOLDER_MIME_TYPE) (files_of items).
Proof.
  unfold files_of. apply Forall_map. apply Forall_forall.
  intros item Hin. apply filter_In in Hin as [_ Hf].
  unfold is_folder in Hf. cbn [entry field assoc]. cbn.
  intros Heq. rewrite Heq in Hf. discriminate Hf.
Qed.

Lemma partition_permutation items :
  Permutation (folders_of items ++ files_of items) (map entry items).
Proof.
  unfold folders_of, files_of. induction items as [|item rest IH]; cbn.
  - constructor.
  - destruct (is_folder item); cbn.
    + now constructor.
    + symmetry. apply Permutation_cons_app. now symmetry.
Qed.

(** C7. For every result set the provider returns for a folder, the
    payload of [list_folder_contents] holds, in this order, the list
    [folders] and the list [files]: every entry of [folders] has the
    folder type as its [mimeType] and no entry of [files] has it, and the
    two lists together hold the entry of each fetched item exactly once. *)
Theorem list_folder_contents_partition :
  forall (env : Env) (w w1 : World) (tr1 : list Event) (folder_id : string)
         (max_results : Z) (response : list (string * json)) (items : list json),
    Server.get_drive_service env w = mkRun (Ret tt) w1 tr1 ->
    files_list env ("'" ++ folder_id ++ "' in parents and trashed = false")
      (Some "folder,name") (Some (Z.min max_results 100))
      "files(id, name, mimeType, modifiedTime, webViewLink)" = inr (JObj response) ->
    assoc "files" response = Some (JArr items) ->
    forallb is_dict items = true ->
    outcome (Server.list_folder_contents env folder_id max_results w)
    = Ret (dumps (Some 2%nat)
             (JObj [ ("folder_id", JStr folder_id);
                     ("folder_count", JInt (len (folders_of items)));
                     ("file_count", JInt (len (files_of items)));
                     ("folders", JArr (folders_of items));
                     ("files", JArr (files_of items)) ]))
    /\ Forall (fun e => field e "mimeType" = JStr "application/vnd.google-apps.folder")
         (folders_of items)
    /\ Forall (fun e => field e "mimeType" <> JStr "application/vnd.google-apps.folder")
         (files_of items)
    /\ Permutation (folders_of items ++ files_of items) (map entry items).
Proof.
  intros env w w1 tr1 folder_id max_results response items Hservice Hlist Hfiles Hdicts.
  split; [|split; [apply folders_are_folders|split;
                   [apply files_are_not_folders|apply partition_permutation]]].
  unfold Server.list_folder_contents, Server.list_folder_contents_try.
  erewrite try_except_ret; [reflexivity|].
  eapply bind_then; [exact Hservice|].
  eapply bind_then; [apply call_files_list_run; exact Hlist|].
  eapply bind_then; [cbn [py_get]; rewrite Hfiles; reflexivity|].
  eapply bind_then; [reflexivity|].
  eapply bind_then; [apply separate_run; exact Hdicts|].
  reflexivity.
Qed.

Lemma list_folder_contents_partition_witness :
  outcome (Server.list_folder_contents folder_env "root" 50 (sample_world 1000))
  = Ret (dumps (Some 2%nat)
           (JObj [ ("folder_id", JStr "root");
                   ("folder_count", JInt (len (folders_of mixed_items)));
                   ("file_count", JInt (len (files_of mixed_items)));
                   ("folders", JArr (folders_of mixed_items));
                   ("files", JArr (files_of mixed_items)) ]))
  /\ Forall (fun e => field e "mimeType" = JStr "application/vnd.google-apps.folder")
       (folders_of mixed_items)
  /\ Forall (fun e => field e "mimeType" <> JStr "application/vnd.google-apps.folder")
       (files_of mixed_items)
  /\ Permutation (folders_of mixed_items ++ files_of mixed_items) (map entry mixed_items).
Proof.
  apply (@list_folder_contents_partition folder_env (sample_world 1000) (sample_world 1000)
           [EvBuild] "root" 50 [("files", JArr mixed_items)] mixed_items);
    reflexivity.
Defined.

(** ** Export-format resolution of [download_file] *)

Ltac table_cases H :=
  unfold Download.EXPORT_MIME_TYPES in H; cbn [assoc] in H; unfold str_eqb in H;
  repeat match type of H with
         | context [String.eqb ?a ?b] => destruct (String.eqb_spec a b); [subst|]
         end;
  try discriminate H; injection H as <-.

Lemma resolve_request_default file_id mime_type table export_format w :
  assoc mime_type Download.EXPORT_MIME_TYPES = Some table ->
  opt_truthy export_format = false ->
  exists extension,
    Download.resolve_request file_id mime_type export_format w
    = mkRun (Ret (Some (extension, ExportMedia file_id (default_export table)))) w
            [EvPrint ("Exporting as " ++ default_export table ++ "...")]
    /\ assoc (default_export table) table = Some extension.
Proof.
  intros Htable Hfmt.
  table_cases Htable; unfold Download.resolve_request; cbn;
    rewrite Hfmt; cbn; eexists; split; reflexivity.
Qed.

Lemma download_file_resolved env file_id file_name mime_type output_path export_format
    w extension request tr :
  Download.resolve_request file_id mime_type export_format w
  = mkRun (Ret (Some (extension, request))) w tr ->
  exists rest,
    trace (Download.download_file env file_id file_name mime_type output_path export_format w)
    = (tr ++ EvNextChunk request :: rest)%list.
Proof.
  intros Hres. unfold Download.download_file.
  match goal with
  | |- context [try_except ?b ?h w] =>
      destruct (try_except_trace b h w) as [suffix ->]
  end.
  rewrite (bind_run _ _ _ Hres). cbn [trace].
  destruct (download_starts env Download.report_progress request w) as [rest Hd].
  unfold bind at 1. cbn zeta.
  destruct (outcome (download env Download.report_progress request w)); cbn [trace];
    rewrite Hd; rewrite <- !app_assoc; cbn; eexists; reflexivity.
Qed.

(** C3. For every content type that has an export table, [download_file]
    called without an explicit format announces and requests the default
    representation of the specification: [text/plain] if the table offers
    it, otherwise the first entry the table declares.  The announcement is
    the first event of the run and the export request the second. *)
Theorem download_file_default_format :
  forall (env : Env) (w : World) (file_id file_name mime_type output_path : string)
         (table : list (string * string)),
    assoc mime_type Download.EXPORT_MIME_TYPES = Some table ->
    table <> []
    /\ exists rest,
         trace (Download.download_file env file_id file_name mime_type output_path None w)
         = EvPrint ("Exporting as " ++ default_export table ++ "...")
           :: EvNextChunk (ExportMedia file_id (default_export table)) :: rest.
Proof.
  intros env w file_id file_name mime_type output_path table Htable.
  split.
  - table_cases Htable; discriminate.
  - destruct (@resolve_request_default file_id mime_type table None w Htable eq_refl)
      as (extension & Hres & _).
    destruct (@download_file_resolved env file_id file_name mime_type output_path None
                w extension _ _ Hres) as [rest Hrest].
    exists rest. exact Hrest.
Qed.

Lemma download_file_default_format_witness :
  spreadsheet_table <> []
  /\ exists rest,
       trace (Download.download_file report_env "sheet1" "Budget"
                "application/vnd.google-apps.spreadsheet" "out" None (sample_world 1000))
       = EvPrint ("Exporting as " ++ default_export spreadsheet_table ++ "...")
         :: EvNextChunk (ExportMedia "sheet1" (default_export spreadsheet_table)) :: rest.
Proof.
  apply (@download_file_default_format report_env (sample_world 1000) "sheet1" "Budget"
           "application/vnd.google-apps.spreadsheet" "out" spreadsheet_table).
  reflexivity.
Defined.

(** C4, as the code has it.  For every content type that has an export
    table and every non-empty explicit format the table does not offer,
    [download_file] returns [False] after exactly two printed lines, the
    second of which lists the formats of the table in the order of their
    declaration; nothing is fetched and nothing is written. *)
Theorem download_file_unsupported_format :
  forall (env : Env) (w : World) (file_id file_name mime_type output_path fmt : string)
         (table : list (string * string)),
    assoc mime_type Download.EXPORT_MIME_TYPES = Some table ->
    fmt <> "" ->
    has_key fmt table = false ->
    Download.download_file env file_id file_name mime_type output_path (Some fmt) w
    = mkRun (Ret false) w
        [ EvPrint ("Error: Export format '" ++ fmt ++ "' not available for this file type.");
          EvPrint ("Available formats: " ++ String.concat ", " (keys table)) ].
Proof.
  intros env w file_id file_name mime_type output_path fmt table Htable Hfmt Hkey.
  assert (Htruthy : opt_truthy (Some fmt) = true).
  { cbn. unfold str_eqb. destruct (String.eqb_spec fmt ""); [contradiction|reflexivity]. }
  unfold Download.download_file, try_except, bind, Download.resolve_request.
  table_cases Htable; cbn -[opt_truthy has_key String.concat keys];
    rewrite Htruthy; cbn -[has_key String.concat keys];
    rewrite Hkey; reflexivity.
Qed.

Lemma download_file_unsupported_format_witness :
  Download.download_file report_env "doc1" "Report"
    "application/vnd.google-apps.document" "out" (Some "text/csv") (sample_world 1000)
  = mkRun (Ret false) (sample_world 1000)
      [ EvPrint "Error: Export format 'text/csv' not available for this file type.";
        EvPrint ("Available formats: " ++ String.concat ", " (keys document_table)) ].
Proof.
  apply (@download_file_unsupported_format report_env (sample_world 1000) "doc1" "Report"
           "application/vnd.google-apps.document" "out" "text/csv" document_table).
  - reflexivity.
  - discriminate.
  - reflexivity.
Defined.

(** C4, as the claim has it, fails at the empty format.  The empty
    string is not an entry of the table of the word-processor type, yet
    [download_file] takes it for an omitted format: it does not return
    [False] but exports the default representation and writes the file. *)
Lemma empty_format_not_rejected :
  assoc "application/vnd.google-apps.document" Download.EXPORT_MIME_TYPES
  = Some document_table
  /\ has_key "" document_table = false
  /\ Download.download_file report_env "doc1" "Report"
       "application/vnd.google-apps.document" "out.txt" (Some "") (sample_world 1000)
     = mkRun (Ret true) (sample_world 1000)
         [ EvPrint "Exporting as text/plain...";
           EvNextChunk (ExportMedia "doc1" "text/plain");
           EvPrint "  Download progress: 100%";
           EvWriteFile "out.txt" (list_byte_of_string "Quarterly report");
           EvPrint (Download.SAVED_MARK ++ " File saved to: out.txt") ]
  /\ outcome (Download.download_file report_env "doc1" "Report"
       "application/vnd.google-apps.document" "out.txt" (Some "") (sample_world 1000))
     <> Ret false.
Proof.
  repeat split; try reflexivity. cbn. discriminate.
Qed.

(** ** Filters built from the caller's text *)

Lemma read_literal_plain v rest :
  mentions quote v = false ->
  mentions backslash v = false ->
  read_literal (v ++ String quote rest) = Some (v, rest).
Proof.
  induction v as [|c v IH]; intros Hq Hb; cbn [mentions read_literal append] in *.
  - now rewrite Ascii.eqb_refl.
  - apply orb_false_elim in Hq as [Hq1 Hq2].
    apply orb_false_elim in Hb as [Hb1 Hb2].
    rewrite Ascii.eqb_sym in Hq1. rewrite Ascii.eqb_sym in Hb1.
    rewrite Hq1, Hb1, (IH Hq2 Hb2). reflexivity.
Qed.

Lemma strip_prefix_app p s : strip_prefix p (p ++ s) = Some s.
Proof.
  induction p as [|a p IH]; cbn; [reflexivity|].
  now rewrite Ascii.eqb_refl.
Qed.

(** A name without quote or backslash does yield a single well-formed
    literal that denotes it. *)
Lemma name_query_plain name :
  mentions quote name = false ->
  mentions backslash name = false ->
  matches_literally NAME_SEGMENTS name (Download.name_query name) = true.
Proof.
  intros Hq Hb. unfold matches_literally, Download.name_query, NAME_SEGMENTS.
  cbn [literals_of].
  rewrite (strip_prefix_app "name = '").
  change (name ++ "' and trashed = false")
    with (name ++ String quote " and trashed = false").
  rewrite (read_literal_plain _ _ Hq Hb).
  cbn. unfold str_eqb. now rewrite String.eqb_refl.
Qed.

(** C10. [search_drive] sends the caller's query, and [find_file_by_name]
    the requested name, to the provider inside a filter that is the plain
    concatenation of fixed text and the input, character for character.
    Consequently a name with a single quote, [O'Brien], gives a filter that
    is not a well-formed match of one literal denoting that name, for
    either function. *)
Theorem filters_embed_input_verbatim :
  (forall (env : Env) (w : World) (query : string) (max_results : Z),
      outcome (Server.get_drive_service env w) = Ret tt ->
      In (EvFilesList
            ("(name contains '" ++ query ++ "' or fullText contains '" ++ query
             ++ "') and trashed = false")
            (Some "modifiedTime desc") (Some (Z.min max_results 100))
            "files(id, name, mimeType, modifiedTime, webViewLink, parents)")
         (trace (Server.search_drive env query max_results w)))
  /\ (forall (env : Env) (w : World) (name : string),
        exists rest,
          trace (Download.find_file_by_name env name w)
          = EvFilesList ("name = '" ++ name ++ "' and trashed = false") None None
              "files(id, name, mimeType)" :: rest)
  /\ (mentions quote "O'Brien" = true
      /\ matches_literally NAME_SEGMENTS "O'Brien" (Download.name_query "O'Brien") = false
      /\ matches_literally SEARCH_SEGMENTS "O'Brien" (Server.search_query "O'Brien") = false).
Proof.
  split; [|split].
  - intros env w query max_results Hservice.
    unfold Server.search_drive, Server.search_drive_try.
    match goal with
    | |- context [try_except ?b ?h w] =>
        destruct (try_except_trace b h w) as [suffix ->]
    end.
    apply in_or_app. left.
    destruct (Server.get_drive_service env w) as [o w1 tr1] eqn:Hrun.
    cbn in Hservice. subst o.
    rewrite (bind_run _ _ _ Hrun). cbn [trace].
    apply in_or_app. right.
    unfold call_files_list, Server.search_query. unfold bind at 1. unfold bind at 1.
    cbn. destruct (outcome (lift _ w1)); cbn; left; reflexivity.
  - intros env w name. unfold Download.find_file_by_name.
    match goal with
    | |- context [try_except ?b ?h w] =>
        destruct (try_except_trace b h w) as [suffix ->]
    end.
    unfold call_files_list, Download.name_query. unfold bind at 1. unfold bind at 1.
    cbn. destruct (outcome (lift _ w)); cbn; eexists; reflexivity.
  - repeat split; reflexivity.
Qed.

Lemma filters_embed_input_verbatim_witness :
  In (EvFilesList
        ("(name contains '" ++ "budget" ++ "' or fullText contains '" ++ "budget"
         ++ "') and trashed = false")
        (Some "modifiedTime desc") (Some (Z.min 150 100))
        "files(id, name, mimeType, modifiedTime, webViewLink, parents)")
     (trace (Server.search_drive report_env "budget" 150 (sample_world 1000))).
Proof.
  apply (proj1 filters_embed_input_verbatim report_env (sample_world 1000) "budget" 150).
  reflexivity.
Defined.

(** ** The two modes of [get_recent_files] *)

Lemma without_prints_app tr1 tr2 :
  without_prints (tr1 ++ tr2) = (without_prints tr1 ++ without_prints tr2)%list.
Proof. apply filter_app. Qed.

Lemma same_but_prints_refl {A : Type} (r : Run A) : same_but_prints r r.
Proof. repeat split. Qed.

Lemma same_but_prints_bind {A B : Type} (m1 m2 : M A) (k1 k2 : A -> M B) w :
  same_but_prints (m1 w) (m2 w) ->
  (forall a w', same_but_prints (k1 a w') (k2 a w')) ->
  same_but_prints (bind m1 k1 w) (bind m2 k2 w).
Proof.
  intros (Ho & Hw & Ht) Hk. unfold bind.
  destruct (m1 w) as [o1 w1 t1], (m2 w) as [o2 w2 t2].
  cbn [outcome world trace] in *. subst o2 w2.
  destruct o1 as [a|e]; cbn.
  - destruct (Hk a w1) as (Ho' & Hw' & Ht').
    split; [exact Ho'|split; [exact Hw'|]].
    cbn [trace]. rewrite !without_prints_app. now rewrite Ht, Ht'.
  - repeat split; auto.
Qed.

Lemma same_but_prints_try {A : Type} (b1 b2 : M A) handler w :
  same_but_prints (b1 w) (b2 w) ->
  same_but_prints (try_except b1 handler w) (try_except b2 handler w).
Proof.
  intros (Ho & Hw & Ht). unfold try_except.
  destruct (b1 w) as [o1 w1 t1], (b2 w) as [o2 w2 t2].
  cbn [outcome world trace] in *. subst o2 w2.
  destruct o1 as [a|e]; cbn.
  - repeat split; auto.
  - destruct (handler e) as [h|]; cbn.
    + split; [reflexivity|split; [reflexivity|]].
      cbn [trace]. rewrite !without_prints_app. now rewrite Ht.
    + repeat split; auto.
Qed.

Lemma same_but_prints_print line1 line2 w :
  same_but_prints (print line1 w) (print line2 w).
Proof. repeat split. Qed.



(** * Further properties *)

(** ** What [get_credentials] does to the token file *)

Lemma bind_fail {A B : Type} (m : M A) (k : A -> M B) w e w1 tr1 :
  m w = mkRun (Raise e) w1 tr1 ->
  bind m k w = mkRun (Raise e) w1 tr1.
Proof. intros H. unfold bind. rewrite H. reflexivity. Qed.

Ltac no_token_write :=
  repeat first [apply Forall_nil|apply Forall_cons; [split; intros ?; discriminate|]].

Lemma write_token_run env content w :
  write_token env content w
  = match save_token env content with
    | Complete => mkRun (Ret tt) (with_token w content) [EvWriteToken content]
    | Refused msg => mkRun (Raise (PyException msg)) w [EvWriteTokenFailed None]
    | Cut msg kept =>
        mkRun (Raise (PyException msg)) (with_token w kept) [EvWriteTokenFailed (Some kept)]
    end.
Proof. unfold write_token. destruct (save_token env content); reflexivity. Qed.

(** The last step of an acquisition: the write of the credential. *)
Lemma persist_run env w c tr :
  (write_token env (to_json env c) ;;; ret c) w = persisted env w c []
  /\ forall (A : Type) (login : M Credentials),
       login w = mkRun (Ret c) w tr ->
       (creds' <- login ;; write_token env (to_json env creds') ;;; ret creds') w
       = persisted env w c tr.
Proof.
  assert (Hlast : (write_token env (to_json env c) ;;; ret c) w = persisted env w c []).
  { unfold bind at 1. rewrite write_token_run. unfold persisted.
    destruct (save_token env (to_json env c)); reflexivity. }
  split; [exact Hlast|]. intros _ login Hlogin.
  unfold bind at 1. rewrite Hlogin. cbn [outcome world trace].
  rewrite Hlast. unfold persisted.
  destruct (save_token env (to_json env c)); reflexivity.
Qed.

Lemma load_token_cases env w :
  exists o, load_token env w = mkRun o w [].
Proof.
  unfold load_token, bind, get_world. cbn.
  destruct (token_file w) as [content|]; [|eexists; reflexivity].
  destruct (from_authorized_user_file env content) as [f|c]; eexists; reflexivity.
Qed.

Lemma acquire_keeps_token_file env (without_registration : M Credentials) w :
  fails_in_place without_registration ->
  acquisition_kept env w (acquire env without_registration w).
Proof.
  intros Hfail. unfold acquire.
  destruct (load_token_cases env w) as [[creds|e] Hload].
  2:{ erewrite bind_fail by exact Hload. left. split; [reflexivity|constructor]. }
  rewrite (bind_pure _ _ Hload).
  rewrite (@bind_pure _ _ get_world _ w w eq_refl).
  destruct (still_valid env (now w) creds) as [c|].
  { left. split; reflexivity. }
  assert (Hlogin : exists o tr,
    (match can_refresh env (now w) creds with
     | Some c => emit (EvRefresh c) ;;; lift (refresh env c)
     | None =>
         if negb (client_secrets_exists w) then without_registration
         else interactive_flow env
     end) w = mkRun o w tr /\ Forall not_a_token_write tr).
  { destruct (can_refresh env (now w) creds) as [c|].
    - destruct (refresh env c) as [f|c'] eqn:Hrefresh;
        eexists _, [EvRefresh c]; (split; [|no_token_write]);
        unfold bind, emit, lift; cbn; reflexivity.
    - destruct (client_secrets_exists w); cbn [negb].
      + unfold interactive_flow.
        destruct (run_local_server env) as [f|c'] eqn:Hflow;
          eexists _, [EvRunLocalServer]; (split; [|no_token_write]);
          unfold bind, emit, lift; cbn; reflexivity.
      + destruct (Hfail w) as (e & tr & Hrun & Htr). exists (Raise e), tr.
        split; assumption. }
  destruct Hlogin as ([c'|e] & tr & Hlogin & Htr).
  - rewrite (proj2 (persist_run env w c' tr) unit _ Hlogin).
    unfold acquisition_kept, persisted.
    destruct (save_token env (to_json env c')) as [|msg|msg kept]; cbn [outcome world trace].
    + right. split; [reflexivity|]. exists tr. split; [reflexivity|exact Htr].
    + right. exists tr. split; [exact Htr|]. left. split; reflexivity.
    + right. exists tr. split; [exact Htr|]. right. exists kept. split; reflexivity.
  - erewrite bind_fail by exact Hlogin. left. split; [reflexivity|exact Htr].
Qed.


(** ** The paths through [get_credentials] *)

Section Acquire.

Variable env : Env.
Variable without_registration : M Credentials.

Lemma acquire_consents w creds c' :
  load_token env w = mkRun (Ret creds) w [] ->
  still_valid env (now w) creds = None ->
  can_refresh env (now w) creds = None ->
  client_secrets_exists w = true ->
  run_local_server env = inr c' ->
  acquire env without_registration w = persisted env w c' [EvRunLocalServer].
Proof.
  intros Hload Hvalid Hrefresh Hreg Hflow. unfold acquire.
  rewrite (bind_pure _ _ Hload).
  rewrite (@bind_pure _ _ get_world _ w w eq_refl).
  rewrite Hvalid, Hrefresh, Hreg. cbn [negb].
  apply (proj2 (persist_run env w c' [EvRunLocalServer]) unit).
  unfold interactive_flow, bind, emit, lift. cbn. rewrite Hflow. reflexivity.
Qed.

Lemma acquire_refreshes w creds c c' :
  load_token env w = mkRun (Ret creds) w [] ->
  still_valid env (now w) creds = None ->
  can_refresh env (now w) creds = Some c ->
  refresh env c = inr c' ->
  acquire env without_registration w = persisted env w c' [EvRefresh c].
Proof.
  intros Hload Hvalid Hrefresh Hanswer. unfold acquire.
  rewrite (bind_pure _ _ Hload).
  rewrite (@bind_pure _ _ get_world _ w w eq_refl).
  rewrite Hvalid, Hrefresh.
  apply (proj2 (persist_run env w c' [EvRefresh c]) unit).
  unfold bind, emit, lift. cbn. rewrite Hanswer. reflexivity.
Qed.

Lemma acquire_unregistered w creds o tr :
  load_token env w = mkRun (Ret creds) w [] ->
  still_valid env (now w) creds = None ->
  can_refresh env (now w) creds = None ->
  client_secrets_exists w = false ->
  without_registration w = mkRun (Raise o) w tr ->
  acquire env without_registration w = mkRun (Raise o) w tr.
Proof.
  intros Hload Hvalid Hrefresh Hreg Hwithout. unfold acquire.
  rewrite (bind_pure _ _ Hload).
  rewrite (@bind_pure _ _ get_world _ w w eq_refl).
  rewrite Hvalid, Hrefresh, Hreg. cbn [negb].
  erewrite bind_fail by exact Hwithout. reflexivity.
Qed.

Lemma acquire_unreadable w content f :
  token_file w = Some content ->
  from_authorized_user_file env content = inl f ->
  acquire env without_registration w = mkRun (Raise (exn_of_failure f)) w [].
Proof.
  intros Hfile Hparse. unfold acquire.
  erewrite bind_fail; [reflexivity|].
  unfold load_token, bind, get_world, lift. cbn. rewrite Hfile, Hparse. reflexivity.
Qed.

End Acquire.

Lemma load_token_absent env w :
  token_file w = None -> load_token env w = mkRun (Ret None) w [].
Proof. intros H. unfold load_token, bind, get_world. cbn. rewrite H. reflexivity. Qed.





(** X4. Without a token file and without the client registration file
    nothing is attempted: [get_credentials] of [server.py] raises an
    exception whose text names the missing file, without any event; the
    two scripts print their two lines and exit with status 1.  The world
    is left as it was. *)
Theorem no_registration_no_credential :
  forall (env : Env) (w : World),
    token_file w = None ->
    client_secrets_exists w = false ->
    Server.get_credentials env w
    = mkRun (Raise (PyException (secrets_missing_message env))) w []
    /\ Download.get_credentials env w
       = mkRun (Raise (SystemExit 1)) w (secrets_missing_lines env)
    /\ Recent.get_credentials env w
       = mkRun (Raise (SystemExit 1)) w (secrets_missing_lines env).
Proof.
  intros env w Hfile Hreg.
  pose proof (load_token_absent env w Hfile) as Hload.
  split; [|split].
  - apply (@acquire_unregistered env _ w None); auto.
  - apply (@acquire_unregistered env (exit_without_registration env) w None); auto.
  - apply (@acquire_unregistered env (exit_without_registration env) w None); auto.
Qed.

Lemma no_registration_no_credential_witness :
  Download.get_credentials report_env bare_world
  = mkRun (Raise (SystemExit 1)) bare_world (secrets_missing_lines report_env).
Proof.
  apply (proj1 (proj2 (@no_registration_no_credential report_env bare_world
                         eq_refl eq_refl))).
Defined.



(** X6. A token file that cannot be read blocks the acquisition: the
    failure of [Credentials.from_authorized_user_file] is raised to the
    caller by each [get_credentials], with no event; no consent flow is
    run although the client registration may exist, and the token file is
    left as it is. *)
Theorem unreadable_token_file_blocks :
  forall (env : Env) (w : World) (content : string) (f : failure),
    token_file w = Some content ->
    from_authorized_user_file env content = inl f ->
    Server.get_credentials env w = mkRun (Raise (exn_of_failure f)) w []
    /\ Download.get_credentials env w = mkRun (Raise (exn_of_failure f)) w []
    /\ Recent.get_credentials env w = mkRun (Raise (exn_of_failure f)) w [].
Proof.
  intros env w content f Hfile Hparse.
  assert (Hall : forall without_registration,
    acquire env without_registration w = mkRun (Raise (exn_of_failure f)) w []).
  { intros without_registration. exact (acquire_unreadable env _ w Hfile Hparse). }
  split; [|split]; apply Hall.
Qed.

Lemma unreadable_token_file_blocks_witness :
  client_secrets_exists (sample_world 1000) = true
  /\ Server.get_credentials corrupt_env (sample_world 1000)
     = mkRun (Raise (PyException "Expecting value: line 1 column 1 (char 0)"))
         (sample_world 1000) [].
Proof.
  split; [reflexivity|].
  apply (@unreadable_token_file_blocks corrupt_env (sample_world 1000)
           "token.json contents" (Other "Expecting value: line 1 column 1 (char 0)"));
    reflexivity.
Defined.

(** ** The protocol tools at the edges *)

Lemma tool_catches (body : M string) w f w1 tr :
  body w = mkRun (Raise (exn_of_failure f)) w1 tr ->
  try_except body Server.tool_handler w = error_run (failure_message f) w1 tr.
Proof.
  intros Hbody. unfold try_except, error_run. rewrite Hbody.
  destruct f; cbn; now rewrite app_nil_r.
Qed.

Lemma tool_catches_exception (body : M string) w msg w1 tr :
  body w = mkRun (Raise (PyException msg)) w1 tr ->
  try_except body Server.tool_handler w = error_run msg w1 tr.
Proof. intros Hbody. exact (@tool_catches body w (Other msg) w1 tr Hbody). Qed.

Lemma service_unregistered env w :
  token_file w = None ->
  client_secrets_exists w = false ->
  Server.get_drive_service env w
  = mkRun (Raise (PyException (secrets_missing_message env))) w [].
Proof.
  intros Hfile Hreg. unfold Server.get_drive_service.
  apply bind_fail.
  apply (@acquire_unregistered env _ w None); auto using load_token_absent.
Qed.

(** X7. Without a token file and without the client registration, each
    of the five tools returns the error payload whose message names the
    missing [client_secrets.json], without having sent anything to the
    provider or changed the world. *)
Theorem tools_report_missing_registration :
  forall (env : Env) (w : World),
    token_file w = None ->
    client_secrets_exists w = false ->
    (forall query max_results,
        Server.search_drive env query max_results w
        = error_run (secrets_missing_message env) w [])
    /\ (forall hours max_results,
           Server.list_recent_files env hours max_results w
           = error_run (secrets_missing_message env) w [])
    /\ (forall file_id,
           Server.get_file_content env file_id w
           = error_run (secrets_missing_message env) w [])
    /\ (forall file_id,
           Server.get_file_metadata env file_id w
           = error_run (secrets_missing_message env) w [])
    /\ (forall folder_id max_results,
           Server.list_folder_contents env folder_id max_results w
           = error_run (secrets_missing_message env) w []).
Proof.
  intros env w Hfile Hreg.
  pose proof (service_unregistered env w Hfile Hreg) as Hservice.
  repeat split; intros; apply tool_catches_exception; apply bind_fail; exact Hservice.
Qed.

Lemma tools_report_missing_registration_witness :
  Server.search_drive report_env "budget" 20 bare_world
  = error_run
      "client_secrets.json not found at client_secrets.json. Please follow the setup instructions."
      bare_world [].
Proof.
  apply (proj1 (@tools_report_missing_registration report_env bare_world
                  eq_refl eq_refl)).
Defined.

Lemma tool_trace (E : Event -> Prop) (body : M string) w :
  Forall E (trace (body w)) ->
  Forall E (trace (try_except body Server.tool_handler w)).
Proof.
  intros Ht. unfold try_except.
  destruct (outcome (body w)) as [a|[msg|msg|code]]; cbn;
    rewrite ?app_nil_r; exact Ht.
Qed.

Lemma after_service env (E : Event -> Prop) (k : unit -> M string) w o w1 tr1 :
  Server.get_drive_service env w = mkRun o w1 tr1 ->
  Forall E tr1 ->
  (forall a, obeys E any (k a)) ->
  Forall E (trace (try_except (bind (Server.get_drive_service env) k)
                     Server.tool_handler w)).
Proof.
  intros Hservice Htr Hk. apply tool_trace. unfold bind. rewrite Hservice.
  destruct o as [a|e]; cbn; [|exact Htr].
  apply Forall_app. split; [exact Htr|]. apply (Hk a w1).
Qed.

Lemma service_cached env w content c :
  token_file w = Some content ->
  from_authorized_user_file env content = inr c ->
  valid env (now w) c = true ->
  exists o, Server.get_drive_service env w = mkRun o w [EvBuild].
Proof.
  intros Hfile Hparse Hvalid.
  assert (Hcreds : Server.get_credentials env w = mkRun (Ret c) w []).
  { unfold Server.get_credentials, bind.
    rewrite (load_token_run env w Hfile Hparse). cbn. rewrite Hvalid. reflexivity. }
  unfold Server.get_drive_service. rewrite (bind_pure _ _ Hcreds).
  unfold bind, emit, lift. cbn. destruct (build env c) as [f|[]]; eexists; reflexivity.
Qed.

Ltac quiet := apply obeys_ret; exact I.

(** X8. With a cached credential that is valid, no run of a tool causes
    any authorization traffic: no refresh, no consent flow and no write of
    the token file, whatever the arguments and whatever the provider
    answers. *)
Theorem valid_credential_no_auth_traffic :
  forall (env : Env) (w : World) (content : string) (c : Credentials),
    token_file w = Some content ->
    from_authorized_user_file env content = inr c ->
    valid env (now w) c = true ->
    (forall query max_results,
        Forall no_auth (trace (Server.search_drive env query max_results w)))
    /\ (forall hours max_results,
           Forall no_auth (trace (Server.list_recent_files env hours max_results w)))
    /\ (forall file_id, Forall no_auth (trace (Server.get_file_content env file_id w)))
    /\ (forall file_id, Forall no_auth (trace (Server.get_file_metadata env file_id w)))
    /\ (forall folder_id max_results,
           Forall no_auth (trace (Server.list_folder_contents env folder_id max_results w))).
Proof.
  intros env w content c Hfile Hparse Hvalid.
  destruct (service_cached env w Hfile Hparse Hvalid) as [o Hservice].
  assert (Hbuild : Forall no_auth [EvBuild]) by (repeat constructor).
  repeat split; intros.
  - unfold Server.search_drive, Server.search_drive_try.
    eapply after_service; [exact Hservice|exact Hbuild|intros _].
    obind ltac:(apply obeys_call_files_list; reflexivity).
    obind ltac:(apply obeys_py_get).
    destruct (negb (py_truthy a0)); [quiet|].
    obind ltac:(apply obeys_py_iter).
    obind ltac:(apply obeys_for_each; intros; apply obeys_entry_of).
    quiet.
  - unfold Server.list_recent_files, Server.list_recent_files_try.
    eapply after_service; [exact Hservice|exact Hbuild|intros _].
    obind ltac:(apply obeys_get_world).
    obind ltac:(apply obeys_lift).
    obind ltac:(apply obeys_call_files_list; reflexivity).
    obind ltac:(apply obeys_py_get).
    destruct (negb (py_truthy a2)); [quiet|].
    obind ltac:(apply obeys_py_iter).
    obind ltac:(apply obeys_for_each; intros; apply obeys_entry_of).
    quiet.
  - unfold Server.get_file_content, Server.get_file_content_try.
    eapply after_service; [exact Hservice|exact Hbuild|intros _].
    obind ltac:(apply obeys_call_files_get; reflexivity).
    obind ltac:(apply obeys_py_get).
    obind ltac:(apply obeys_py_get).
    obind ltac:(apply obeys_py_in).
    destruct a2.
    + obind ltac:(apply obeys_py_getitem).
      obind ltac:(apply obeys_download; [reflexivity|intros; quiet]).
      quiet.
    + obind ltac:(apply obeys_py_startswith).
      destruct (a2 || py_eq_str a0 "application/json").
      * obind ltac:(apply obeys_download; [reflexivity|intros; quiet]).
        quiet.
      * obind ltac:(apply obeys_py_get).
        obind ltac:(apply obeys_py_get).
        quiet.
  - unfold Server.get_file_metadata, Server.get_file_metadata_try.
    eapply after_service; [exact Hservice|exact Hbuild|intros _].
    obind ltac:(apply obeys_call_files_get; reflexivity).
    do 9 (obind ltac:(apply obeys_py_get)).
    obind ltac:(apply obeys_py_iter).
    obind ltac:(apply obeys_for_each; intros; apply obeys_owner_name).
    quiet.
  - unfold Server.list_folder_contents, Server.list_folder_contents_try.
    eapply after_service; [exact Hservice|exact Hbuild|intros _].
    obind ltac:(apply obeys_call_files_list; reflexivity).
    obind ltac:(apply obeys_py_get).
    obind ltac:(apply obeys_py_iter).
    obind ltac:(apply obeys_separate).
    destruct a2 as [folders files]. quiet.
Qed.

Lemma valid_credential_no_auth_traffic_witness :
  Forall no_auth (trace (Server.search_drive paging_env "budget" 150 (sample_world 1000))).
Proof.
  apply (proj1 (@valid_credential_no_auth_traffic paging_env (sample_world 1000)
                  "token.json contents" (sample_credentials 5000)
                  eq_refl eq_refl eq_refl)).
Defined.

(** ** One listing request per operation *)

Lemma listings_app tr1 tr2 :
  listings (tr1 ++ tr2) = (listings tr1 + listings tr2)%nat.
Proof.
  induction tr1 as [|e tr1 IH]; [reflexivity|].
  destruct e; cbn; rewrite ?IH; reflexivity.
Qed.

Lemma lam_ret {A : Type} (a : A) : lists_at_most 0 (ret a).
Proof. intros w. cbn. lia. Qed.

Lemma lam_raise {A : Type} (e : exn) : lists_at_most 0 (@raise A e).
Proof. intros w. cbn. lia. Qed.

Lemma lam_lift {A : Type} (r : failure + A) : lists_at_most 0 (lift r).
Proof. intros w. destruct r; cbn; lia. Qed.

Lemma lam_get_world : lists_at_most 0 get_world.
Proof. intros w. cbn. lia. Qed.

Lemma lam_put_world w' : lists_at_most 0 (put_world w').
Proof. intros w. cbn. lia. Qed.

Lemma lam_emit (e : Event) : listings [e] = O -> lists_at_most 0 (emit e).
Proof. intros H w. cbn [emit trace]. rewrite H. lia. Qed.

Lemma lam_bind {A B : Type} (n1 n2 : nat) (m : M A) (k : A -> M B) :
  lists_at_most n1 m ->
  (forall a, lists_at_most n2 (k a)) ->
  lists_at_most (n1 + n2) (bind m k).
Proof.
  intros Hm Hk w. unfold bind. specialize (Hm w).
  destruct (outcome (m w)) as [a|e]; cbn [trace].
  - rewrite listings_app. specialize (Hk a (world (m w))). lia.
  - lia.
Qed.

Lemma lam_bind_quiet {A B : Type} (n : nat) (m : M A) (k : A -> M B) :
  lists_at_most 0 m ->
  (forall a, lists_at_most n (k a)) ->
  lists_at_most n (bind m k).
Proof. intros Hm Hk. exact (@lam_bind _ _ 0 n m k Hm Hk). Qed.

Lemma lam_try {A : Type} (n : nat) (body : M A) (handler : exn -> option (M A)) :
  lists_at_most n body ->
  (forall e h, handler e = Some h -> lists_at_most 0 h) ->
  lists_at_most n (try_except body handler).
Proof.
  intros Hb Hh w. unfold try_except. specialize (Hb w).
  destruct (outcome (body w)) as [a|e]; [exact Hb|].
  destruct (handler e) as [h|] eqn:He; [|exact Hb].
  cbn [trace]. rewrite listings_app. specialize (Hh e h He (world (body w))). lia.
Qed.

Lemma lam_weaken {A : Type} (n n' : nat) (m : M A) :
  lists_at_most n m -> (n <= n')%nat -> lists_at_most n' m.
Proof. intros Hm Hle w. specialize (Hm w). lia. Qed.

Lemma lam_call_files_list env q o n f : lists_at_most 1 (call_files_list env q o n f).
Proof.
  intros w. unfold call_files_list, bind, emit, lift. cbn.
  destruct (files_list env q o n f); cbn; lia.
Qed.

Lemma lam_for_each {A B : Type} (f : A -> M B) (l : list A) :
  (forall x, lists_at_most 0 (f x)) -> lists_at_most 0 (for_each f l).
Proof.
  intros Hf. induction l as [|x l IH]; cbn [for_each]; [apply lam_ret|].
  apply lam_bind_quiet; [apply Hf|intros y].
  apply lam_bind_quiet; [apply IH|intros ys]. apply lam_ret.
Qed.

(** The routine steps: everything but a listing request. *)
Ltac hush :=
  repeat first
    [ apply lam_ret | apply lam_raise | apply lam_lift
    | apply lam_get_world | apply lam_put_world
    | apply lam_emit; reflexivity
    | apply lam_for_each; intros ?
    | apply lam_bind_quiet; [|intros ?]
    | match goal with
      | |- lists_at_most _ (if ?b then _ else _) => destruct b
      | |- lists_at_most _ (match ?x with _ => _ end) => destruct x
      end ].

Lemma lam_py_get obj key default : lists_at_most 0 (py_get obj key default).
Proof. unfold py_get. hush. Qed.

Lemma lam_py_iter obj : lists_at_most 0 (py_iter obj).
Proof. unfold py_iter. hush. Qed.

Lemma lam_server_entry item : lists_at_most 0 (Server.entry_of item).
Proof. unfold Server.entry_of. repeat (apply lam_bind_quiet; [apply lam_py_get|intros ?]). hush. Qed.

Lemma lam_recent_entry item : lists_at_most 0 (Recent.entry_of item).
Proof. unfold Recent.entry_of. repeat (apply lam_bind_quiet; [apply lam_py_get|intros ?]). hush. Qed.

Lemma lam_separate items folders files :
  lists_at_most 0 (Server.separate items folders files).
Proof.
  revert folders files. induction items as [|item rest IH]; intros folders files;
    cbn [Server.separate]; [apply lam_ret|].
  apply lam_bind_quiet; [apply lam_server_entry|intros entry].
  apply lam_bind_quiet; [apply lam_py_get|intros mimeType].
  destruct (py_eq_str mimeType Server.FOLDER_MIME_TYPE); apply IH.
Qed.

Lemma lam_print_items env i items : lists_at_most 0 (Recent.print_items env i items).
Proof.
  revert i. induction items as [|item rest IH]; intros i; cbn [Recent.print_items];
    [apply lam_ret|].
  do 3 (apply lam_bind_quiet; [apply lam_py_get|intros ?]).
  unfold print.
  apply lam_bind_quiet; [hush|intros ?].
  apply lam_bind_quiet; [hush|intros ?].
  apply lam_bind_quiet; [hush|intros ?].
  apply lam_bind_quiet; [hush|intros ?].
  apply IH.
Qed.

Lemma lam_acquire env (without_registration : M Credentials) :
  lists_at_most 0 without_registration ->
  lists_at_most 0 (acquire env without_registration).
Proof.
  intros Hwithout. unfold acquire, load_token, interactive_flow, write_token. hush.
  exact Hwithout.
Qed.

Lemma lam_service env : lists_at_most 0 (Server.get_drive_service env).
Proof.
  unfold Server.get_drive_service.
  apply lam_bind_quiet; [apply lam_acquire; hush|intros c]. hush.
Qed.

Lemma lam_listing_then {A : Type} env q o n f (k : json -> M A) :
  (forall response, lists_at_most 0 (k response)) ->
  lists_at_most 1 (bind (call_files_list env q o n f) k).
Proof.
  intros Hk. apply (@lam_bind _ _ 1 0 _ k (lam_call_files_list env q o n f) Hk).
Qed.

Lemma lam_py_len x : lists_at_most 0 (Download.py_len x).
Proof. unfold Download.py_len. hush. Qed.

Lemma lam_py_first x : lists_at_most 0 (Download.py_first x).
Proof. unfold Download.py_first. hush. Qed.

(** X9. Whatever the provider answers, no listing operation sends more
    than one [files().list] request: the three listing tools,
    [find_file_by_name] and [get_recent_files] read one page and never ask
    for a second (the page token that [get_recent_files] requests is never
    followed). *)
Theorem one_listing_request_per_operation :
  forall env : Env,
    (forall query max_results,
        lists_at_most 1 (Server.search_drive env query max_results))
    /\ (forall hours max_results,
           lists_at_most 1 (Server.list_recent_files env hours max_results))
    /\ (forall folder_id max_results,
           lists_at_most 1 (Server.list_folder_contents env folder_id max_results))
    /\ (forall name, lists_at_most 1 (Download.find_file_by_name env name))
    /\ (forall hours mode json_output,
           lists_at_most 1 (Recent.get_recent_files env hours mode json_output)).
Proof.
  intros env.
  assert (Htool : forall e h, Server.tool_handler e = Some h -> lists_at_most 0 h).
  { intros [msg|msg|code] h He; cbn in He; try discriminate He;
      injection He as <-; apply lam_ret. }
  repeat split; intros.
  - apply lam_try; [|exact Htool].
    apply lam_bind_quiet; [apply lam_service|intros _].
    apply lam_listing_then. intros results.
    apply lam_bind_quiet; [apply lam_py_get|intros items].
    destruct (negb (py_truthy items)); [apply lam_ret|].
    apply lam_bind_quiet; [apply lam_py_iter|intros l].
    apply lam_bind_quiet; [apply lam_for_each; apply lam_server_entry|intros out].
    apply lam_ret.
  - apply lam_try; [|exact Htool].
    apply lam_bind_quiet; [apply lam_service|intros _].
    apply lam_bind_quiet; [apply lam_get_world|intros w].
    apply lam_bind_quiet; [apply lam_lift|intros t].
    apply lam_listing_then. intros results.
    apply lam_bind_quiet; [apply lam_py_get|intros items].
    destruct (negb (py_truthy items)); [apply lam_ret|].
    apply lam_bind_quiet; [apply lam_py_iter|intros l].
    apply lam_bind_quiet; [apply lam_for_each; apply lam_server_entry|intros out].
    apply lam_ret.
  - apply lam_try; [|exact Htool].
    apply lam_bind_quiet; [apply lam_service|intros _].
    apply lam_listing_then. intros results.
    apply lam_bind_quiet; [apply lam_py_get|intros items].
    apply lam_bind_quiet; [apply lam_py_iter|intros l].
    apply lam_bind_quiet; [apply lam_separate|intros [folders files]].
    apply lam_ret.
  - apply lam_try.
    + apply lam_listing_then. intros results.
      apply lam_bind_quiet; [apply lam_py_get|intros items].
      destruct (negb (py_truthy items)); [apply lam_ret|].
      apply lam_bind_quiet; [apply lam_py_len|intros n].
      apply lam_bind_quiet; [unfold print; hush|intros _].
      apply lam_bind_quiet; [apply lam_py_first|intros item].
      apply lam_ret.
    + intros [msg|msg|code] h He; try discriminate He.
      injection He as <-. unfold print. hush.
  - apply lam_try.
    + apply lam_bind_quiet;
        [apply (@lam_acquire env (exit_without_registration env));
         unfold exit_without_registration, print; hush|intros creds].
      apply lam_bind_quiet; [hush|intros _].
      apply lam_bind_quiet; [apply lam_lift|intros _].
      apply lam_bind_quiet; [apply lam_get_world|intros w].
      apply lam_bind_quiet; [apply lam_lift|intros t].
      apply lam_bind_quiet; [unfold print; hush|intros [query order_by]].
      apply lam_listing_then. intros results.
      apply lam_bind_quiet; [apply lam_py_get|intros items].
      destruct json_output.
      * apply lam_bind_quiet; [apply lam_py_iter|intros l].
        apply lam_bind_quiet; [apply lam_for_each; apply lam_recent_entry|intros out].
        unfold print. hush.
      * destruct (negb (py_truthy items)); [unfold print; hush|].
        apply lam_bind_quiet; [unfold print; hush|intros _].
        apply lam_bind_quiet; [apply lam_py_iter|intros l].
        apply lam_print_items.
    + intros [msg|msg|code] h He; try discriminate He.
      injection He as <-. unfold print. hush.
Qed.

(** ** What the listing tools return *)

Lemma for_each_entry_run l w :
  forallb is_dict l = true ->
  for_each Server.entry_of l w = mkRun (Ret (map entry l)) w [].
Proof.
  induction l as [|x l IH]; intros Hall; [reflexivity|].
  cbn [forallb] in Hall. apply andb_true_iff in Hall as [Hx Hl].
  destruct x as [| | | | |members]; try discriminate Hx.
  cbn [for_each map].
  rewrite (bind_pure _ _ (entry_of_run members w)).
  rewrite (bind_pure _ _ (IH Hl)). reflexivity.
Qed.

Lemma entry_of_fails x w :
  is_dict x = false ->
  Server.entry_of x w = mkRun (Raise (PyException (not_a_dict_message x))) w [].
Proof. destruct x; intros H; try discriminate H; reflexivity. Qed.

Lemma for_each_entry_fails good x rest w :
  forallb is_dict good = true ->
  is_dict x = false ->
  for_each Server.entry_of (good ++ x :: rest) w
  = mkRun (Raise (PyException (not_a_dict_message x))) w [].
Proof.
  intros Hgood Hx. induction good as [|g good IH]; cbn [app for_each].
  - apply bind_fail. apply entry_of_fails. exact Hx.
  - cbn [forallb] in Hgood. apply andb_true_iff in Hgood as [Hg Hgood].
    destruct g as [| | | | |members]; try discriminate Hg.
    rewrite (bind_pure _ _ (entry_of_run members w)).
    apply bind_fail. apply IH. exact Hgood.
Qed.

Lemma separate_fails good x rest folders files w :
  forallb is_dict good = true ->
  is_dict x = false ->
  Server.separate (good ++ x :: rest) folders files w
  = mkRun (Raise (PyException (not_a_dict_message x))) w [].
Proof.
  intros Hgood Hx. revert folders files.
  induction good as [|g good IH]; intros folders files; cbn [app Server.separate].
  - apply bind_fail. apply entry_of_fails. exact Hx.
  - cbn [forallb] in Hgood. apply andb_true_iff in Hgood as [Hg Hgood].
    destruct g as [| | | | |members]; try discriminate Hg.
    rewrite (bind_pure _ _ (entry_of_run members w)).
    rewrite (@bind_pure _ _ _ _ w (field (JObj members) "mimeType") eq_refl).
    destruct (py_eq_str _ Server.FOLDER_MIME_TYPE); apply IH; exact Hgood.
Qed.

(** The run of a tool whose body returned or raised an [Exception]. *)
Lemma tool_result (body : M string) w s w1 tr :
  body w = mkRun (Ret s) w1 tr ->
  try_except body Server.tool_handler w = mkRun (Ret s) w1 tr.
Proof. apply try_except_ret. Qed.

Lemma call_files_list_fails env q o n fs f w :
  files_list env q o n fs = inl f ->
  call_files_list env q o n fs w
  = mkRun (Raise (exn_of_failure f)) w [EvFilesList q o n fs].
Proof. intros H. unfold call_files_list, bind, lift. cbn. rewrite H. reflexivity. Qed.

Lemma call_files_get_fails env id fs f w :
  files_get env id fs = inl f ->
  call_files_get env id fs w = mkRun (Raise (exn_of_failure f)) w [EvFilesGet id fs].
Proof. intros H. unfold call_files_get, bind, lift. cbn. rewrite H. reflexivity. Qed.

Lemma bind_fails_after {A B : Type} (m : M A) (k : A -> M B) w a w1 tr1 e w2 tr2 :
  m w = mkRun (Ret a) w1 tr1 ->
  k a w1 = mkRun (Raise e) w2 tr2 ->
  bind m k w = mkRun (Raise e) w2 (tr1 ++ tr2).
Proof. apply bind_then. Qed.

(** X10. When the service is built and the provider fails the request of
    a tool, by an [HttpError] or by any other exception, the tool returns
    the error payload that carries the text of that failure unchanged;
    the failed request is its last event. *)
Theorem provider_failure_is_reported :
  forall (env : Env) (w w1 : World) (tr1 : list Event) (f : failure),
    Server.get_drive_service env w = mkRun (Ret tt) w1 tr1 ->
    always_fails env f ->
    (forall query max_results,
        Server.search_drive env query max_results w
        = error_run (failure_message f) w1 (tr1 ++ [search_request query max_results]))
    /\ (forall hours max_results t,
           strftime_threshold env (now w1) hours = inr t ->
           Server.list_recent_files env hours max_results w
           = error_run (failure_message f) w1 (tr1 ++ [recent_request t max_results]))
    /\ (forall folder_id max_results,
           Server.list_folder_contents env folder_id max_results w
           = error_run (failure_message f) w1
               (tr1 ++ [folder_request folder_id max_results]))
    /\ (forall file_id,
           Server.get_file_content env file_id w
           = error_run (failure_message f) w1 (tr1 ++ [EvFilesGet file_id METADATA_FIELDS]))
    /\ (forall file_id,
           Server.get_file_metadata env file_id w
           = error_run (failure_message f) w1 (tr1 ++ [EvFilesGet file_id DETAIL_FIELDS])).
Proof.
  intros env w w1 tr1 f Hservice [Hlist Hget].
  split; [|split; [|split; [|split]]]; intros.
  - unfold Server.search_drive, Server.search_drive_try. apply tool_catches.
    eapply bind_fails_after; [exact Hservice|].
    apply bind_fail. apply call_files_list_fails. apply Hlist.
  - unfold Server.list_recent_files, Server.list_recent_files_try. apply tool_catches.
    eapply bind_fails_after; [exact Hservice|].
    rewrite (@bind_pure _ _ get_world _ w1 w1 eq_refl).
    assert (Ht : lift (strftime_threshold env (now w1) hours) w1 = mkRun (Ret t) w1 []).
    { unfold lift. rewrite H. reflexivity. }
    rewrite (bind_pure _ _ Ht).
    apply bind_fail. apply call_files_list_fails. apply Hlist.
  - unfold Server.list_folder_contents, Server.list_folder_contents_try. apply tool_catches.
    eapply bind_fails_after; [exact Hservice|].
    apply bind_fail. apply call_files_list_fails. apply Hlist.
  - unfold Server.get_file_content, Server.get_file_content_try. apply tool_catches.
    eapply bind_fails_after; [exact Hservice|].
    apply bind_fail. apply call_files_get_fails. apply Hget.
  - unfold Server.get_file_metadata, Server.get_file_metadata_try. apply tool_catches.
    eapply bind_fails_after; [exact Hservice|].
    apply bind_fail. apply call_files_get_fails. apply Hget.
Qed.

Lemma provider_failure_is_reported_witness :
  Server.search_drive refusing_env "budget" 20 (sample_world 1000)
  = error_run "<HttpError 403 Forbidden>" (sample_world 1000)
      [EvBuild; search_request "budget" 20].
Proof.
  apply (proj1 (@provider_failure_is_reported refusing_env (sample_world 1000)
                  (sample_world 1000) [EvBuild] (Http "<HttpError 403 Forbidden>")
                  eq_refl (conj (fun _ _ _ _ => eq_refl) (fun _ _ => eq_refl)))).
Defined.

Lemma bind_quiet_rest {A B : Type} (m : M A) (k : A -> M B) w a w1 tr1 o w2 :
  m w = mkRun (Ret a) w1 tr1 ->
  k a w1 = mkRun o w2 [] ->
  bind m k w = mkRun o w2 tr1.
Proof.
  intros Hm Hk. rewrite <- (app_nil_r tr1). now apply bind_then with (a := a) (w1 := w1).
Qed.

Lemma py_get_files response items w :
  get_or response "files" (JArr []) = JArr items ->
  py_get (JObj response) "files" (JArr []) w = mkRun (Ret (JArr items)) w [].
Proof. intros H. cbn [py_get]. fold (get_or response "files" (JArr [])). now rewrite H. Qed.

Lemma lift_run {A : Type} (r : failure + A) (a : A) w :
  r = inr a -> lift r w = mkRun (Ret a) w [].
Proof. intros ->. reflexivity. Qed.

(** X11. An empty listing: when the answer of the provider holds no
    file (an empty [files] array, or none at all), [search_drive] and
    [list_recent_files] return a compact payload with a message and an
    empty [files] list, while [list_folder_contents] returns its usual
    payload, with both counts zero and no message. *)
Theorem empty_listing_payloads :
  forall (env : Env) (w w1 : World) (tr1 : list Event) (response : list (string * json)),
    Server.get_drive_service env w = mkRun (Ret tt) w1 tr1 ->
    always_lists env (JObj response) ->
    get_or response "files" (JArr []) = JArr [] ->
    (forall query max_results,
        Server.search_drive env query max_results w
        = mkRun (Ret (dumps None (nothing_found query))) w1
            (tr1 ++ [search_request query max_results]))
    /\ (forall hours max_results t,
           strftime_threshold env (now w1) hours = inr t ->
           Server.list_recent_files env hours max_results w
           = mkRun (Ret (dumps None (nothing_recent hours))) w1
               (tr1 ++ [recent_request t max_results]))
    /\ (forall folder_id max_results,
           Server.list_folder_contents env folder_id max_results w
           = mkRun (Ret (dumps (Some 2%nat) (folder_payload folder_id []))) w1
               (tr1 ++ [folder_request folder_id max_results])).
Proof.
  intros env w w1 tr1 response Hservice Hlists Hfiles.
  split; [|split]; intros.
  - unfold Server.search_drive, Server.search_drive_try. apply tool_result.
    eapply bind_then; [exact Hservice|].
    eapply bind_quiet_rest; [apply call_files_list_run; apply Hlists|].
    cbv beta. erewrite bind_pure by (apply py_get_files; exact Hfiles). reflexivity.
  - unfold Server.list_recent_files, Server.list_recent_files_try. apply tool_result.
    eapply bind_then; [exact Hservice|].
    rewrite (@bind_pure _ _ get_world _ w1 w1 eq_refl).
    erewrite bind_pure by (apply lift_run; exact H).
    eapply bind_quiet_rest; [apply call_files_list_run; apply Hlists|].
    cbv beta. erewrite bind_pure by (apply py_get_files; exact Hfiles). reflexivity.
  - unfold Server.list_folder_contents, Server.list_folder_contents_try. apply tool_result.
    eapply bind_then; [exact Hservice|].
    eapply bind_quiet_rest; [apply call_files_list_run; apply Hlists|].
    cbv beta. erewrite bind_pure by (apply py_get_files; exact Hfiles). reflexivity.
Qed.

Lemma empty_listing_payloads_witness :
  Server.list_folder_contents empty_env "root" 50 (sample_world 1000)
  = mkRun (Ret (dumps (Some 2%nat) (folder_payload "root" []))) (sample_world 1000)
      [EvBuild; folder_request "root" 50].
Proof.
  apply (proj2 (proj2 (@empty_listing_payloads empty_env (sample_world 1000)
                         (sample_world 1000) [EvBuild] [("files", JArr [])]
                         eq_refl (fun _ _ _ _ => eq_refl) eq_refl))).
Defined.

(** X12. A listing of files: when every item of the answer is a dict and
    there is at least one, [search_drive] and [list_recent_files] return,
    in the order of the provider, one entry per item with exactly the
    five keys [id], [name], [mimeType], [modifiedTime] and [webViewLink]
    (a key the item lacks is [null], any other key of the item is
    dropped), and [count] is the number of items. *)
Theorem listings_keep_provider_order :
  forall (env : Env) (w w1 : World) (tr1 : list Event) (response : list (string * json))
         (items : list json),
    Server.get_drive_service env w = mkRun (Ret tt) w1 tr1 ->
    always_lists env (JObj response) ->
    get_or response "files" (JArr []) = JArr items ->
    items <> [] ->
    forallb is_dict items = true ->
    (forall query max_results,
        Server.search_drive env query max_results w
        = mkRun (Ret (dumps (Some 2%nat) (found_payload items))) w1
            (tr1 ++ [search_request query max_results]))
    /\ (forall hours max_results t,
           strftime_threshold env (now w1) hours = inr t ->
           Server.list_recent_files env hours max_results w
           = mkRun (Ret (dumps (Some 2%nat) (recent_payload hours items))) w1
               (tr1 ++ [recent_request t max_results])).
Proof.
  intros env w w1 tr1 response items Hservice Hlists Hfiles Hsome Hdicts.
  assert (Htruthy : negb (py_truthy (JArr items)) = false).
  { destruct items; [contradiction|reflexivity]. }
  split; intros.
  - unfold Server.search_drive, Server.search_drive_try. apply tool_result.
    eapply bind_then; [exact Hservice|].
    eapply bind_quiet_rest; [apply call_files_list_run; apply Hlists|].
    cbv beta. erewrite bind_pure by (apply py_get_files; exact Hfiles). rewrite Htruthy.
    rewrite (@bind_pure _ _ (py_iter (JArr items)) _ w1 items eq_refl).
    erewrite bind_pure by (apply for_each_entry_run; exact Hdicts).
    unfold found_payload, len. rewrite length_map. reflexivity.
  - unfold Server.list_recent_files, Server.list_recent_files_try. apply tool_result.
    eapply bind_then; [exact Hservice|].
    rewrite (@bind_pure _ _ get_world _ w1 w1 eq_refl).
    erewrite bind_pure by (apply lift_run; exact H).
    eapply bind_quiet_rest; [apply call_files_list_run; apply Hlists|].
    cbv beta. erewrite bind_pure by (apply py_get_files; exact Hfiles). rewrite Htruthy.
    rewrite (@bind_pure _ _ (py_iter (JArr items)) _ w1 items eq_refl).
    erewrite bind_pure by (apply for_each_entry_run; exact Hdicts).
    unfold recent_payload, len. rewrite length_map. reflexivity.
Qed.

Lemma listings_keep_provider_order_witness :
  Server.search_drive folder_env "plan" 20 (sample_world 1000)
  = mkRun (Ret (dumps (Some 2%nat) (found_payload mixed_items))) (sample_world 1000)
      [EvBuild; search_request "plan" 20].
Proof.
  apply (proj1 (@listings_keep_provider_order folder_env (sample_world 1000)
                  (sample_world 1000) [EvBuild] [("files", JArr mixed_items)] mixed_items
                  eq_refl (fun _ _ _ _ => eq_refl) eq_refl
                  ltac:(discriminate) eq_refl)).
Defined.

(** X13. No partial listing: when an item of the answer is not a dict,
    each listing tool returns the error payload of the first such item
    (the [AttributeError] of its missing [get]) and none of the entries,
    not even those of the well-formed items before it. *)
Theorem damaged_item_fails_listing :
  forall (env : Env) (w w1 : World) (tr1 : list Event) (response : list (string * json))
         (good rest : list json) (x : json),
    Server.get_drive_service env w = mkRun (Ret tt) w1 tr1 ->
    always_lists env (JObj response) ->
    get_or response "files" (JArr []) = JArr (good ++ x :: rest) ->
    forallb is_dict good = true ->
    is_dict x = false ->
    (forall query max_results,
        Server.search_drive env query max_results w
        = error_run (not_a_dict_message x) w1 (tr1 ++ [search_request query max_results]))
    /\ (forall hours max_results t,
           strftime_threshold env (now w1) hours = inr t ->
           Server.list_recent_files env hours max_results w
           = error_run (not_a_dict_message x) w1 (tr1 ++ [recent_request t max_results]))
    /\ (forall folder_id max_results,
           Server.list_folder_contents env folder_id max_results w
           = error_run (not_a_dict_message x) w1
               (tr1 ++ [folder_request folder_id max_results])).
Proof.
  intros env w w1 tr1 response good rest x Hservice Hlists Hfiles Hgood Hx.
  assert (Htruthy : negb (py_truthy (JArr (good ++ x :: rest))) = false).
  { destruct good; reflexivity. }
  split; [|split]; intros.
  - unfold Server.search_drive, Server.search_drive_try. apply tool_catches_exception.
    eapply bind_then; [exact Hservice|].
    eapply bind_quiet_rest; [apply call_files_list_run; apply Hlists|].
    cbv beta. erewrite bind_pure by (apply py_get_files; exact Hfiles). rewrite Htruthy.
    rewrite (@bind_pure _ _ (py_iter (JArr (good ++ x :: rest))) _ w1 _ eq_refl).
    apply bind_fail. apply for_each_entry_fails; assumption.
  - unfold Server.list_recent_files, Server.list_recent_files_try. apply tool_catches_exception.
    eapply bind_then; [exact Hservice|].
    rewrite (@bind_pure _ _ get_world _ w1 w1 eq_refl).
    erewrite bind_pure by (apply lift_run; exact H).
    eapply bind_quiet_rest; [apply call_files_list_run; apply Hlists|].
    cbv beta. erewrite bind_pure by (apply py_get_files; exact Hfiles). rewrite Htruthy.
    rewrite (@bind_pure _ _ (py_iter (JArr (good ++ x :: rest))) _ w1 _ eq_refl).
    apply bind_fail. apply for_each_entry_fails; assumption.
  - unfold Server.list_folder_contents, Server.list_folder_contents_try. apply tool_catches_exception.
    eapply bind_then; [exact Hservice|].
    eapply bind_quiet_rest; [apply call_files_list_run; apply Hlists|].
    cbv beta. erewrite bind_pure by (apply py_get_files; exact Hfiles).
    rewrite (@bind_pure _ _ (py_iter (JArr (good ++ x :: rest))) _ w1 _ eq_refl).
    apply bind_fail. apply separate_fails; assumption.
Qed.

Lemma damaged_item_fails_listing_witness :
  Server.search_drive damaged_env "budget" 20 (sample_world 1000)
  = error_run "'str' object has no attribute 'get'" (sample_world 1000)
      [EvBuild; search_request "budget" 20].
Proof.
  apply (proj1 (@damaged_item_fails_listing damaged_env (sample_world 1000)
                  (sample_world 1000) [EvBuild] [("files", JArr damaged_items)]
                  [budget_file 0] [budget_file 2] (JStr "oops")
                  eq_refl (fun _ _ _ _ => eq_refl) eq_refl eq_refl eq_refl)).
Defined.

(** ** What the content tools return *)

Lemma py_get_run members key default w :
  py_get (JObj members) key default w = mkRun (Ret (get_or members key default)) w [].
Proof. reflexivity. Qed.

Lemma download_chunks env report r :
  download env report r = next_chunks report r (chunks_of env r) [].
Proof. unfold download, chunks_of. now destruct (media env r). Qed.

Lemma silent_chunks_fail r good f rest fh w :
  next_chunks silent r (map inr good ++ inl f :: rest) fh w
  = mkRun (Raise (exn_of_failure f)) w (repeat (EvNextChunk r) (S (length good))).
Proof.
  revert fh. induction good as [|c good IH]; intros fh; cbn [map app next_chunks].
  - reflexivity.
  - eapply (@bind_then _ _ _ _ w tt w [EvNextChunk r]); [reflexivity|].
    eapply (@bind_then _ _ _ _ w c w []); [reflexivity|].
    eapply (@bind_then _ _ _ _ w tt w []); [reflexivity|].
    apply IH.
Qed.

Lemma text_like_not_exported tag :
  text_like tag = true -> assoc tag Server.EXPORT_MIME_TYPES = None.
Proof.
  intros Htext. unfold Server.EXPORT_MIME_TYPES. cbn [assoc]. unfold str_eqb.
  repeat match goal with
         | |- context [String.eqb ?a ?b] =>
             destruct (String.eqb_spec a b); [subst; discriminate Htext|]
         end.
  reflexivity.
Qed.

Lemma try_except_body {A : Type} (body : M A) handler w r :
  body w = r -> try_except body handler w = try_except (fun _ => r) handler w.
Proof. intros <-. reflexivity. Qed.

(** The run of [get_file_content] around its download. *)
Lemma content_body_run env w w1 tr1 file_id metadata tag r o trd :
  Server.get_drive_service env w = mkRun (Ret tt) w1 tr1 ->
  files_get env file_id METADATA_FIELDS = inr (JObj metadata) ->
  get_or metadata "mimeType" (JStr "") = JStr tag ->
  content_request file_id tag = Some r ->
  download env silent r w1 = mkRun o w1 trd ->
  Server.get_file_content env file_id w
  = try_except
      (fun _ => mkRun (match o with
                       | Ret fh =>
                           Ret (dumps (Some 2%nat)
                                  (JObj (content_payload env metadata tag r fh)))
                       | Raise e => Raise e
                       end) w1 (tr1 ++ EvFilesGet file_id METADATA_FIELDS :: trd))
      Server.tool_handler w.
Proof.
  intros Hservice Hfetched Htagged Hreq Hdownload.
  unfold Server.get_file_content, Server.get_file_content_try. apply try_except_body.
  eapply bind_then; [exact Hservice|].
  change (EvFilesGet file_id METADATA_FIELDS :: trd)
    with ([EvFilesGet file_id METADATA_FIELDS] ++ trd)%list.
  eapply bind_then; [apply call_files_get_run; exact Hfetched|].
  cbv beta.
  erewrite bind_pure by apply py_get_run. rewrite Htagged.
  erewrite bind_pure by apply py_get_run.
  erewrite bind_pure by reflexivity.
  unfold content_request in Hreq. unfold has_key.
  destruct (assoc tag Server.EXPORT_MIME_TYPES) as [target|] eqn:Htarget.
  - injection Hreq as <-.
    erewrite bind_pure by (cbn [py_getitem]; rewrite Htarget; reflexivity).
    apply (@bind_last _ _ (download env silent (ExportMedia file_id target)) _ w1 o w1 trd
             Hdownload).
  - destruct (text_like tag) eqn:Htext; [|discriminate Hreq]. injection Hreq as <-.
    erewrite bind_pure by reflexivity.
    change (String.prefix "text/" tag || py_eq_str (JStr tag) "application/json")
      with (text_like tag).
    rewrite Htext.
    apply (@bind_last _ _ (download env silent (GetMedia file_id)) _ w1 o w1 trd Hdownload).
Qed.

(** X14. A text-like file is fetched directly: for a tag that starts
    with [text/] or is [application/json], once the service is built and
    the metadata fetched, [get_file_content] sends one direct media
    request per chunk and no export, and when all chunks arrive it returns
    the payload with [name], [mimeType] and the decoded concatenation of
    the chunks as [content], without an [exportedAs] field. *)
Theorem text_content_is_fetched_directly :
  forall (env : Env) (w w1 : World) (tr1 : list Event) (file_id : string)
         (metadata : list (string * json)) (tag : string) (cs : list Chunk),
    Server.get_drive_service env w = mkRun (Ret tt) w1 tr1 ->
    files_get env file_id METADATA_FIELDS = inr (JObj metadata) ->
    get_or metadata "mimeType" (JStr "") = JStr tag ->
    text_like tag = true ->
    chunks_of env (GetMedia file_id) = map inr cs ->
    Server.get_file_content env file_id w
    = mkRun (Ret (dumps (Some 2%nat)
                    (JObj [ ("name", get_or metadata "name" (JStr "Unknown"));
                            ("mimeType", JStr tag);
                            ("content",
                             JStr (decode_utf8_replace env (concat (map chunk_data cs)))) ])))
        w1
        (tr1 ++ EvFilesGet file_id METADATA_FIELDS
             :: repeat (EvNextChunk (GetMedia file_id)) (length cs)).
Proof.
  intros env w w1 tr1 file_id metadata tag cs Hservice Hfetched Htagged Htext Hchunks.
  assert (Hreq : content_request file_id tag = Some (GetMedia file_id)).
  { unfold content_request. now rewrite (text_like_not_exported _ Htext), Htext. }
  assert (Hrun : download env silent (GetMedia file_id) w1
                 = mkRun (Ret (concat (map chunk_data cs))) w1
                     (repeat (EvNextChunk (GetMedia file_id)) (length cs))).
  { rewrite download_chunks, Hchunks.
    exact (silent_chunks_all (GetMedia file_id) cs [] w1). }
  rewrite (@content_body_run env w w1 tr1 file_id metadata tag _ _ _
             Hservice Hfetched Htagged Hreq Hrun).
  reflexivity.
Qed.

Lemma text_content_is_fetched_directly_witness :
  Server.get_file_content notes_env "n1" (sample_world 1000)
  = mkRun (Ret (dumps (Some 2%nat)
                  (JObj [ ("name", JStr "notes.txt"); ("mimeType", JStr "text/plain");
                          ("content", JStr "first second") ])))
      (sample_world 1000)
      [ EvBuild; EvFilesGet "n1" METADATA_FIELDS;
        EvNextChunk (GetMedia "n1"); EvNextChunk (GetMedia "n1") ].
Proof.
  exact (@text_content_is_fetched_directly notes_env (sample_world 1000) (sample_world 1000)
           [EvBuild] "n1" notes_metadata "text/plain" notes_chunks
           eq_refl eq_refl eq_refl eq_refl eq_refl).
Defined.

(** X15. No partial content: when a chunk of the download fails, whether
    the file is exported or fetched directly, [get_file_content] returns
    the error payload with the text of that failure and nothing of the
    chunks already received; the failed [next_chunk] is its last event and
    no further chunk is asked for. *)
Theorem failed_chunk_fails_content :
  forall (env : Env) (w w1 : World) (tr1 : list Event) (file_id : string)
         (metadata : list (string * json)) (tag : string) (r : MediaRequest)
         (good : list Chunk) (f : failure) (rest : list (failure + Chunk)),
    Server.get_drive_service env w = mkRun (Ret tt) w1 tr1 ->
    files_get env file_id METADATA_FIELDS = inr (JObj metadata) ->
    get_or metadata "mimeType" (JStr "") = JStr tag ->
    content_request file_id tag = Some r ->
    chunks_of env r = (map inr good ++ inl f :: rest)%list ->
    Server.get_file_content env file_id w
    = error_run (failure_message f) w1
        (tr1 ++ EvFilesGet file_id METADATA_FIELDS
             :: repeat (EvNextChunk r) (S (length good))).
Proof.
  intros env w w1 tr1 file_id metadata tag r good f rest
         Hservice Hfetched Htagged Hreq Hchunks.
  assert (Hrun : download env silent r w1
                 = mkRun (Raise (exn_of_failure f)) w1
                     (repeat (EvNextChunk r) (S (length good)))).
  { rewrite download_chunks, Hchunks. apply silent_chunks_fail. }
  rewrite (@content_body_run env w w1 tr1 file_id metadata tag _ _ _
             Hservice Hfetched Htagged Hreq Hrun).
  apply tool_catches. reflexivity.
Qed.

Lemma failed_chunk_fails_content_witness :
  Server.get_file_content broken_env "n1" (sample_world 1000)
  = error_run "<HttpError 500 Backend Error>" (sample_world 1000)
      [ EvBuild; EvFilesGet "n1" METADATA_FIELDS;
        EvNextChunk (GetMedia "n1"); EvNextChunk (GetMedia "n1") ].
Proof.
  exact (@failed_chunk_fails_content broken_env (sample_world 1000) (sample_world 1000)
           [EvBuild] "n1" notes_metadata "text/plain" (GetMedia "n1")
           [mkChunk (list_byte_of_string "first ") 50]
           (Http "<HttpError 500 Backend Error>") []
           eq_refl eq_refl eq_refl eq_refl eq_refl).
Defined.

Lemma owner_name_run members w :
  Server.owner_name (JObj members) w = mkRun (Ret (owner_label (JObj members))) w [].
Proof. reflexivity. Qed.

Lemma for_each_owner_run l w :
  forallb is_dict l = true ->
  for_each Server.owner_name l w = mkRun (Ret (map owner_label l)) w [].
Proof.
  induction l as [|x l IH]; intros Hall; [reflexivity|].
  cbn [forallb] in Hall. apply andb_true_iff in Hall as [Hx Hl].
  destruct x as [| | | | |members]; try discriminate Hx.
  cbn [for_each map].
  erewrite bind_pure by apply owner_name_run.
  erewrite bind_pure by (apply IH; exact Hl). reflexivity.
Qed.

(** X16. [get_file_metadata] returns the nine fields of its payload from
    the metadata of the provider: [size] defaults to ["N/A"], [shared]
    to [false], every other missing field to [null], and [owners] is the
    list of the owners' names in the order of the provider.  The name of
    an owner is the value of its [displayName] whenever that key is
    present, else the value of its [emailAddress], else ["Unknown"]. *)
Theorem metadata_names_owners :
  forall (env : Env) (w w1 : World) (tr1 : list Event) (file_id : string)
         (metadata : list (string * json)) (owners : list json),
    Server.get_drive_service env w = mkRun (Ret tt) w1 tr1 ->
    files_get env file_id DETAIL_FIELDS = inr (JObj metadata) ->
    get_or metadata "owners" (JArr []) = JArr owners ->
    forallb is_dict owners = true ->
    (exists names,
        Server.get_file_metadata env file_id w
        = mkRun (Ret (dumps (Some 2%nat)
                        (JObj [ ("id", get_or metadata "id" JNull);
                                ("name", get_or metadata "name" JNull);
                                ("mimeType", get_or metadata "mimeType" JNull);
                                ("size", get_or metadata "size" (JStr "N/A"));
                                ("createdTime", get_or metadata "createdTime" JNull);
                                ("modifiedTime", get_or metadata "modifiedTime" JNull);
                                ("webViewLink", get_or metadata "webViewLink" JNull);
                                ("shared", get_or metadata "shared" (JBool false));
                                ("owners", JArr names) ])))
            w1 (tr1 ++ [EvFilesGet file_id DETAIL_FIELDS])
        /\ for_each Server.owner_name owners w1 = mkRun (Ret names) w1 [])
    /\ (forall members v w',
           assoc "displayName" members = Some v ->
           Server.owner_name (JObj members) w' = mkRun (Ret v) w' [])
    /\ (forall members v w',
           assoc "displayName" members = None ->
           assoc "emailAddress" members = Some v ->
           Server.owner_name (JObj members) w' = mkRun (Ret v) w' [])
    /\ (forall members w',
           assoc "displayName" members = None ->
           assoc "emailAddress" members = None ->
           Server.owner_name (JObj members) w' = mkRun (Ret (JStr "Unknown")) w' []).
Proof.
  intros env w w1 tr1 file_id metadata owners Hservice Hfetched Howners Hdicts.
  split; [|split; [|split]].
  - exists (map owner_label owners). split; [|apply for_each_owner_run; exact Hdicts].
    unfold Server.get_file_metadata, Server.get_file_metadata_try. apply tool_result.
    eapply bind_then; [exact Hservice|].
    eapply bind_quiet_rest; [apply call_files_get_run; exact Hfetched|].
    cbv beta.
    do 9 (erewrite bind_pure by apply py_get_run).
    rewrite Howners.
    erewrite bind_pure by reflexivity.
    erewrite bind_pure by (apply for_each_owner_run; exact Hdicts).
    reflexivity.
  - intros members v w' Hname. rewrite owner_name_run.
    unfold owner_label, get_or. now rewrite Hname.
  - intros members v w' Hname Hmail. rewrite owner_name_run.
    unfold owner_label, get_or. now rewrite Hname, Hmail.
  - intros members w' Hname Hmail. rewrite owner_name_run.
    unfold owner_label, get_or. now rewrite Hname, Hmail.
Qed.

Lemma metadata_names_owners_witness :
  exists names,
    Server.get_file_metadata owned_env "f1" (sample_world 1000)
    = mkRun (Ret (dumps (Some 2%nat)
                    (JObj [ ("id", JStr "f1"); ("name", JStr "plan.pdf");
                            ("mimeType", JNull); ("size", JStr "N/A");
                            ("createdTime", JNull); ("modifiedTime", JNull);
                            ("webViewLink", JNull); ("shared", JBool false);
                            ("owners", JArr names) ])))
        (sample_world 1000) [EvBuild; EvFilesGet "f1" DETAIL_FIELDS]
    /\ for_each Server.owner_name
         [ JObj [("displayName", JStr "Ada"); ("emailAddress", JStr "ada@example.org")];
           JObj [("emailAddress", JStr "bob@example.org")];
           JObj [] ] (sample_world 1000)
       = mkRun (Ret names) (sample_world 1000) [].
Proof.
  exact (proj1 (@metadata_names_owners owned_env (sample_world 1000) (sample_world 1000)
                  [EvBuild] "f1" owned_metadata _ eq_refl eq_refl eq_refl eq_refl)).
Defined.

(** ** The download script *)

Lemma append_nil_r (s : string) : s ++ "" = s.
Proof. induction s as [|c s IH]; cbn; [reflexivity|now rewrite IH]. Qed.

Lemma report_chunks_all r cs fh w :
  next_chunks Download.report_progress r (map inr cs) fh w
  = mkRun (Ret (fh ++ concat (map chunk_data cs))%list) w (progress_of r cs).
Proof.
  revert fh. induction cs as [|c cs IH]; intros fh; cbn [map next_chunks].
  - cbn. now rewrite app_nil_r.
  - eapply (@bind_then _ _ _ _ w tt w [EvNextChunk r]); [reflexivity|].
    eapply (@bind_then _ _ _ _ w c w []); [reflexivity|].
    eapply (@bind_then _ _ _ _ w tt w
              [EvPrint ("  Download progress: " ++ string_of_Z (percent c) ++ "%")]);
      [reflexivity|].
    rewrite IH. cbn [concat map]. now rewrite <- app_assoc.
Qed.

Lemma report_chunks_fail r good f rest fh w :
  next_chunks Download.report_progress r (map inr good ++ inl f :: rest) fh w
  = mkRun (Raise (exn_of_failure f)) w (progress_of r good ++ [EvNextChunk r]).
Proof.
  revert fh. induction good as [|c good IH]; intros fh; cbn [map app next_chunks].
  - reflexivity.
  - eapply (@bind_then _ _ _ _ w tt w [EvNextChunk r]); [reflexivity|].
    eapply (@bind_then _ _ _ _ w c w []); [reflexivity|].
    eapply (@bind_then _ _ _ _ w tt w
              [EvPrint ("  Download progress: " ++ string_of_Z (percent c) ++ "%")]);
      [reflexivity|].
    apply IH.
Qed.

Lemma write_file_run env path content w :
  write_file env path content w
  = match save_file env path content with
    | Complete => mkRun (Ret tt) w [EvWriteFile path content]
    | Refused msg => mkRun (Raise (PyException msg)) w [EvWriteFileFailed path None]
    | Cut msg kept =>
        mkRun (Raise (PyException msg)) w [EvWriteFileFailed path (Some kept)]
    end.
Proof. unfold write_file. destruct (save_file env path content); reflexivity. Qed.

Lemma save_tail env w path fh :
  (write_file env path fh ;;;
   print (Download.SAVED_MARK ++ " File saved to: " ++ path) ;;;
   ret true) w
  = saved env w [] path fh.
Proof.
  unfold bind at 1. rewrite write_file_run. unfold saved.
  destruct (save_file env path fh); reflexivity.
Qed.

Lemma output_file_rule env output_path file_name extension :
  (if is_dir env output_path then
     if negb (str_eqb extension "") then
       path_join env output_path (file_name ++ extension)
     else path_join env output_path file_name
   else output_path)
  = saved_to env output_path (file_name ++ extension).
Proof.
  unfold saved_to, str_eqb. destruct (is_dir env output_path); [|reflexivity].
  destruct (String.eqb_spec extension "") as [->|_]; [|reflexivity].
  cbn [negb]. now rewrite append_nil_r.
Qed.

(** The run of [download_file] once its request is resolved. *)
Lemma download_file_run env file_id file_name mime_type output_path export_format
    w extension request tr o trd :
  Download.resolve_request file_id mime_type export_format w
  = mkRun (Ret (Some (extension, request))) w tr ->
  download env Download.report_progress request w = mkRun o w trd ->
  Download.download_file env file_id file_name mime_type output_path export_format w
  = match o with
    | Ret fh =>
        saved env w (tr ++ trd) (saved_to env output_path (file_name ++ extension)) fh
    | Raise (HttpError msg) =>
        mkRun (Ret false) w (tr ++ trd ++ [EvPrint ("An error occurred: " ++ msg)])
    | Raise e => mkRun (Raise e) w (tr ++ trd)
    end.
Proof.
  intros Hres Hdownload. unfold Download.download_file.
  match goal with
  | |- try_except ?b ?h w = _ =>
      assert (Hbody : b w
                      = match o with
                        | Ret fh =>
                            saved env w (tr ++ trd)
                              (saved_to env output_path (file_name ++ extension)) fh
                        | Raise e => mkRun (Raise e) w (tr ++ trd)
                        end)
  end.
  { destruct o as [fh|e].
    - rewrite (bind_run _ _ _ Hres). cbv beta iota zeta.
      rewrite output_file_rule.
      rewrite (bind_run _ _ _ Hdownload). rewrite save_tail. unfold saved.
      destruct (save_file env (saved_to env output_path (file_name ++ extension)) fh);
        cbn [outcome world trace app]; rewrite <- ?app_assoc; reflexivity.
    - eapply bind_fails_after; [exact Hres|]. cbv beta iota zeta.
      apply bind_fail. exact Hdownload. }
  unfold try_except. rewrite Hbody.
  destruct o as [fh|[msg|msg|code]]; cbn; rewrite <- ?app_assoc; try reflexivity.
  unfold saved.
  destruct (save_file env (saved_to env output_path (file_name ++ extension)) fh);
    reflexivity.
Qed.

Lemma resolve_request_regular file_id mime_type export_format w :
  String.prefix WORKSPACE_PREFIX mime_type = false ->
  Download.resolve_request file_id mime_type export_format w
  = mkRun (Ret (Some ("", GetMedia file_id))) w [EvPrint "Downloading file..."].
Proof.
  intros H. unfold Download.resolve_request. unfold WORKSPACE_PREFIX in H.
  rewrite H. reflexivity.
Qed.

Lemma tables_are_workspace mime_type table :
  assoc mime_type Download.EXPORT_MIME_TYPES = Some table ->
  String.prefix WORKSPACE_PREFIX mime_type = true.
Proof. intros H. table_cases H; reflexivity. Qed.

Lemma resolve_request_chosen file_id mime_type table export_format extension w :
  assoc mime_type Download.EXPORT_MIME_TYPES = Some table ->
  assoc (chosen_format table export_format) table = Some extension ->
  Download.resolve_request file_id mime_type export_format w
  = mkRun (Ret (Some (extension, ExportMedia file_id (chosen_format table export_format))))
      w [EvPrint ("Exporting as " ++ chosen_format table export_format ++ "...")].
Proof.
  intros Htable Hext.
  pose proof (tables_are_workspace _ Htable) as Hprefix.
  unfold Download.resolve_request. unfold WORKSPACE_PREFIX in Hprefix.
  rewrite Hprefix, Htable.
  destruct table as [|first table']; [discriminate Hext|].
  set (table := first :: table') in *.
  assert (Htail : forall export_mime,
             assoc export_mime table = Some extension ->
             (extension0 <- py_getitem table (JStr export_mime) ;;
              print ("Exporting as " ++ export_mime ++ "...") ;;;
              ret (Some (extension0, ExportMedia file_id export_mime))) w
             = mkRun (Ret (Some (extension, ExportMedia file_id export_mime))) w
                 [EvPrint ("Exporting as " ++ export_mime ++ "...")]).
  { intros export_mime H.
    erewrite bind_pure by (cbn [py_getitem]; rewrite H; reflexivity). reflexivity. }
  assert (Hdefault :
            (if has_key "text/plain" table then ret (Some "text/plain")
             else k <- Download.first_key table ;; ret (Some k)) w
            = mkRun (Ret (Some (default_export table))) w []).
  { unfold default_export. destruct (has_key "text/plain" table); [reflexivity|].
    subst table. destruct first as [k v]. reflexivity. }
  unfold chosen_format in *.
  destruct export_format as [f|]; cbn [opt_truthy].
  - destruct (str_eqb f "") eqn:Hf; cbn [negb].
    + erewrite bind_pure by exact Hdefault. apply Htail. exact Hext.
    + assert (Hkey : has_key f table = true) by (unfold has_key; now rewrite Hext).
      rewrite Hkey. cbn [negb].
      erewrite bind_pure by reflexivity. apply Htail. exact Hext.
  - erewrite bind_pure by exact Hdefault. apply Htail. exact Hext.
Qed.

Lemma download_report_all env r cs w :
  chunks_of env r = map inr cs ->
  download env Download.report_progress r w
  = mkRun (Ret (concat (map chunk_data cs))) w (progress_of r cs).
Proof.
  intros H. rewrite download_chunks, H. exact (report_chunks_all r cs [] w).
Qed.



(** The same download to a path under a directory that does not exist:
    the chunks are fetched, [open] raises, and the exception is that of
    [download_file]. *)
Lemma download_to_missing_directory :
  Download.download_file nowhere_env "n1" "notes.txt" "text/plain" "missing/notes.txt"
    None (sample_world 1000)
  = mkRun (Raise (PyException NO_SUCH_DIRECTORY)) (sample_world 1000)
      [ EvPrint "Downloading file...";
        EvNextChunk (GetMedia "n1"); EvPrint "  Download progress: 50%";
        EvNextChunk (GetMedia "n1"); EvPrint "  Download progress: 100%";
        EvWriteFileFailed "missing/notes.txt" None ].
Proof. reflexivity. Qed.



(** X19. A workspace-native type that has no export table, a form or a
    folder for instance, cannot be downloaded: [download_file] prints one
    error line that names the type and returns [False]; nothing is asked
    of the provider and nothing is written. *)
Theorem workspace_type_without_table :
  forall (env : Env) (w : World) (file_id file_name mime_type output_path : string)
         (export_format : option string),
    String.prefix WORKSPACE_PREFIX mime_type = true ->
    assoc mime_type Download.EXPORT_MIME_TYPES = None ->
    Download.download_file env file_id file_name mime_type output_path export_format w
    = mkRun (Ret false) w [EvPrint ("Error: No export format available for " ++ mime_type)].
Proof.
  intros env w file_id file_name mime_type output_path export_format Hprefix Hnone.
  unfold Download.download_file. apply try_except_ret.
  unfold Download.resolve_request. unfold WORKSPACE_PREFIX in Hprefix.
  rewrite Hprefix, Hnone. reflexivity.
Qed.

Lemma workspace_type_without_table_witness :
  Download.download_file report_env "form1" "Survey" "application/vnd.google-apps.form"
    "out" None (sample_world 1000)
  = mkRun (Ret false) (sample_world 1000)
      [EvPrint "Error: No export format available for application/vnd.google-apps.form"].
Proof.
  exact (@workspace_type_without_table report_env (sample_world 1000) "form1" "Survey"
           "application/vnd.google-apps.form" "out" None eq_refl eq_refl).
Defined.

(** X20. A download that fails half-way writes nothing.  When a chunk
    fails after the request was resolved, [download_file] stops at that
    chunk: for an [HttpError] it prints the error and returns [False];
    any other exception leaves the function uncaught.  In both cases the
    chunks already received are dropped and no file is written. *)
Theorem failed_download_writes_nothing :
  forall (env : Env) (w : World) (file_id file_name mime_type output_path : string)
         (export_format : option string) (extension : string) (request : MediaRequest)
         (tr : list Event) (good : list Chunk) (f : failure) (rest : list (failure + Chunk)),
    Download.resolve_request file_id mime_type export_format w
    = mkRun (Ret (Some (extension, request))) w tr ->
    chunks_of env request = (map inr good ++ inl f :: rest)%list ->
    Download.download_file env file_id file_name mime_type output_path export_format w
    = match f with
      | Http msg =>
          mkRun (Ret false) w
            (tr ++ progress_of request good
                ++ [EvNextChunk request; EvPrint ("An error occurred: " ++ msg)])
      | Other msg =>
          mkRun (Raise (PyException msg)) w
            (tr ++ progress_of request good ++ [EvNextChunk request])
      end.
Proof.
  intros env w file_id file_name mime_type output_path export_format extension request
         tr good f rest Hres Hchunks.
  assert (Hrun : download env Download.report_progress request w
                 = mkRun (Raise (exn_of_failure f)) w
                     (progress_of request good ++ [EvNextChunk request])).
  { rewrite download_chunks, Hchunks. apply report_chunks_fail. }
  rewrite (@download_file_run env file_id file_name mime_type output_path export_format
             w _ _ _ _ _ Hres Hrun).
  destruct f; cbn [exn_of_failure]; rewrite <- ?app_assoc; reflexivity.
Qed.

Lemma failed_download_writes_nothing_witness :
  Download.download_file broken_directory_env "n1" "notes.txt" "text/plain" "out" None
    (sample_world 1000)
  = mkRun (Ret false) (sample_world 1000)
      [ EvPrint "Downloading file...";
        EvNextChunk (GetMedia "n1"); EvPrint "  Download progress: 50%";
        EvNextChunk (GetMedia "n1");
        EvPrint "An error occurred: <HttpError 500 Backend Error>" ].
Proof.
  exact (@failed_download_writes_nothing broken_directory_env (sample_world 1000) "n1"
           "notes.txt" "text/plain" "out" None "" (GetMedia "n1")
           [EvPrint "Downloading file..."]
           [mkChunk (list_byte_of_string "first ") 50]
           (Http "<HttpError 500 Backend Error>") [] eq_refl eq_refl).
Defined.

Lemma try_except_uncaught {A : Type} (body : M A) handler w e w1 tr :
  body w = mkRun (Raise e) w1 tr ->
  handler e = None ->
  try_except body handler w = mkRun (Raise e) w1 tr.
Proof. intros Hbody Hnone. unfold try_except. rewrite Hbody. cbn. now rewrite Hnone. Qed.

Lemma try_except_handled {A : Type} (body : M A) handler w e w1 tr h o w2 tr2 :
  body w = mkRun (Raise e) w1 tr ->
  handler e = Some h ->
  h w1 = mkRun o w2 tr2 ->
  try_except body handler w = mkRun o w2 (tr ++ tr2).
Proof.
  intros Hbody Hsome Hh. unfold try_except. rewrite Hbody. cbn. rewrite Hsome, Hh.
  reflexivity.
Qed.

(** X21. [find_file_by_name] sends one listing request, without page
    size or ordering.  An [HttpError] is printed and gives [None]; any
    other exception leaves the function uncaught.  An empty or missing
    list gives [None] without a message; a single match is returned as
    it is; of several matches the first one of the provider is returned,
    after one warning line. *)
Theorem find_file_by_name_cases :
  forall (env : Env) (w : World) (name : string),
    (forall msg,
        files_list env (Download.name_query name) None None NAME_FIELDS = inl (Http msg) ->
        Download.find_file_by_name env name w
        = mkRun (Ret None) w
            [ name_request name; EvPrint ("An error occurred while searching: " ++ msg) ])
    /\ (forall msg,
           files_list env (Download.name_query name) None None NAME_FIELDS
           = inl (Other msg) ->
           Download.find_file_by_name env name w
           = mkRun (Raise (PyException msg)) w [name_request name])
    /\ (forall response,
           files_list env (Download.name_query name) None None NAME_FIELDS
           = inr (JObj response) ->
           (get_or response "files" (JArr []) = JArr [] ->
            Download.find_file_by_name env name w = mkRun (Ret None) w [name_request name])
           /\ (forall x,
                  get_or response "files" (JArr []) = JArr [x] ->
                  Download.find_file_by_name env name w
                  = mkRun (Ret (Some x)) w [name_request name])
           /\ (forall x y rest,
                  get_or response "files" (JArr []) = JArr (x :: y :: rest) ->
                  Download.find_file_by_name env name w
                  = mkRun (Ret (Some x)) w
                      [ name_request name;
                        EvPrint ("Warning: Multiple files found with name '" ++ name
                                 ++ "'. Using the first one.") ])).
Proof.
  intros env w name. unfold Download.find_file_by_name, name_request.
  split; [|split].
  - intros msg Hlist.
    eapply (@try_except_handled _ _ _ w (HttpError msg) w [_]); [|reflexivity|reflexivity].
    apply bind_fail. exact (call_files_list_fails env _ _ _ _ w Hlist).
  - intros msg Hlist. apply try_except_uncaught; [|reflexivity].
    apply bind_fail. exact (call_files_list_fails env _ _ _ _ w Hlist).
  - intros response Hlist.
    pose proof (call_files_list_run env _ _ _ _ w Hlist) as Hcall.
    split; [|split].
    + intros Hfiles. apply try_except_ret.
      eapply bind_quiet_rest; [exact Hcall|]. cbv beta.
      erewrite bind_pure by apply py_get_run. rewrite Hfiles. reflexivity.
    + intros x Hfiles. apply try_except_ret.
      eapply bind_quiet_rest; [exact Hcall|]. cbv beta.
      erewrite bind_pure by apply py_get_run. rewrite Hfiles. reflexivity.
    + intros x y rest Hfiles. apply try_except_ret.
      eapply (@bind_then _ _ _ _ w (JObj response) w
                [EvFilesList (Download.name_query name) None None NAME_FIELDS]);
        [exact Hcall|].
      cbv beta.
      erewrite bind_pure by apply py_get_run. rewrite Hfiles.
      cbn [py_truthy negb].
      erewrite bind_pure by reflexivity.
      assert (Hmany : (1 <? len (x :: y :: rest)) = true).
      { apply Z.ltb_lt. unfold len. cbn [length]. lia. }
      rewrite Hmany. reflexivity.
Qed.

Lemma find_file_by_name_cases_witness :
  Download.find_file_by_name twins_env "budget.xlsx" (sample_world 1000)
  = mkRun (Ret (Some (budget_file 0))) (sample_world 1000)
      [ name_request "budget.xlsx";
        EvPrint "Warning: Multiple files found with name 'budget.xlsx'. Using the first one." ].
Proof.
  exact (proj2 (proj2 (proj2 (proj2 (@find_file_by_name_cases twins_env (sample_world 1000)
                                       "budget.xlsx"))
                               [("files", JArr [budget_file 0; budget_file 1])] eq_refl))
           (budget_file 0) (budget_file 1) [] eq_refl).
Defined.

(** ** The recent-files script *)

Lemma script_entry_run members w :
  Recent.entry_of (JObj members) w = mkRun (Ret (script_entry (JObj members))) w [].
Proof. reflexivity. Qed.

Lemma for_each_script_entry_run l w :
  forallb is_dict l = true ->
  for_each Recent.entry_of l w = mkRun (Ret (map script_entry l)) w [].
Proof.
  induction l as [|x l IH]; intros Hall; [reflexivity|].
  cbn [forallb] in Hall. apply andb_true_iff in Hall as [Hx Hl].
  destruct x as [| | | | |members]; try discriminate Hx.
  cbn [for_each map].
  erewrite bind_pure by apply script_entry_run.
  erewrite bind_pure by (apply IH; exact Hl). reflexivity.
Qed.

Lemma bind_print_then {A : Type} (line : string) (k : unit -> M A) w o w2 tr :
  k tt w = mkRun o w2 tr ->
  bind (print line) k w = mkRun o w2 (EvPrint line :: tr).
Proof. intros Hk. exact (@bind_then _ _ (print line) k w tt w [EvPrint line] o w2 tr eq_refl Hk). Qed.

Lemma print_items_run env items i w :
  forallb is_dict items = true ->
  Recent.print_items env i items w = mkRun (Ret tt) w (listing_lines env i items).
Proof.
  revert i. induction items as [|x items IH]; intros i Hall; [reflexivity|].
  cbn [forallb] in Hall. apply andb_true_iff in Hall as [Hx Hl].
  destruct x as [| | | | |members]; try discriminate Hx.
  cbn [Recent.print_items listing_lines].
  do 3 (erewrite bind_pure by apply py_get_run).
  unfold item_lines.
  destruct (py_truthy (get_or members "webViewLink" (JStr ""))); cbn [app];
    repeat apply bind_print_then;
    try (erewrite bind_pure by reflexivity; apply bind_print_then);
    apply IH; exact Hl.
Qed.

Lemma query_of_valid_mode mode t :
  mode = "edited" \/ mode = "viewed" ->
  Recent.query_of_mode mode t = Some (recent_query t, "modifiedTime desc").
Proof. intros [->| ->]; reflexivity. Qed.

Lemma query_of_invalid_mode mode t :
  mode <> "edited" -> mode <> "viewed" -> Recent.query_of_mode mode t = None.
Proof.
  intros He Hv. unfold Recent.query_of_mode, str_eqb.
  destruct (String.eqb_spec mode "edited"); [contradiction|].
  destruct (String.eqb_spec mode "viewed"); [contradiction|reflexivity].
Qed.

Section RecentRuns.

Variable env : Env.
Variables (w w1 : World) (tr1 : list Event) (c : Credentials).
Variables (hours : Z) (t : string).

Hypothesis acquired : Recent.get_credentials env w = mkRun (Ret c) w1 tr1.
Hypothesis built : build env c = inr tt.
Hypothesis dated : strftime_threshold env (now w1) hours = inr t.

(** The body of [get_recent_files] up to the choice of the query. *)
Lemma recent_setup_run (A : Type) (k : string -> M A) o w2 tr2 (rest : M A) :
  (forall w', rest w' = (creds <- Recent.get_credentials env ;;
                         emit EvBuild ;;;
                         lift (build env creds) ;;;
                         w0 <- get_world ;;
                         threshold_time_str <- lift (strftime_threshold env (now w0) hours) ;;
                         k threshold_time_str) w') ->
  k t w1 = mkRun o w2 tr2 ->
  rest w = mkRun o w2 (tr1 ++ EvBuild :: tr2).
Proof.
  intros Hrest Hk. rewrite Hrest.
  eapply bind_then; [exact acquired|].
  eapply (@bind_then _ _ _ _ w1 tt w1 [EvBuild]); [reflexivity|].
  erewrite bind_pure by (apply lift_run; exact built).
  erewrite bind_pure by reflexivity.
  erewrite bind_pure by (apply lift_run; exact dated).
  exact Hk.
Qed.

End RecentRuns.

(** X22. A mode that is neither ['edited'] nor ['viewed'] ends the
    script: once the credential is obtained, the service built and the
    threshold computed, [get_recent_files] prints one line that names the
    mode and exits with status 1, before anything is asked of the
    provider. *)
Theorem unknown_mode_exits :
  forall (env : Env) (w w1 : World) (tr1 : list Event) (c : Credentials)
         (hours : Z) (t mode : string) (json_output : bool),
    Recent.get_credentials env w = mkRun (Ret c) w1 tr1 ->
    build env c = inr tt ->
    strftime_threshold env (now w1) hours = inr t ->
    mode <> "edited" ->
    mode <> "viewed" ->
    Recent.get_recent_files env hours mode json_output w
    = mkRun (Raise (SystemExit 1)) w1
        (tr1 ++ [ EvBuild;
                  EvPrint ("Error: mode must be 'edited' or 'viewed', got '" ++ mode ++ "'") ]).
Proof.
  intros env w w1 tr1 c hours t mode json_output Hcreds Hbuild Htime He Hv.
  unfold Recent.get_recent_files. apply try_except_uncaught; [|reflexivity].
  eapply (@recent_setup_run env w w1 tr1 c hours t Hcreds Hbuild Htime);
    [intros w'; reflexivity|].
  cbv beta. rewrite (query_of_invalid_mode t He Hv).
  apply bind_fail. reflexivity.
Qed.

Lemma unknown_mode_exits_witness :
  Recent.get_recent_files folder_env 24 "opened" true (sample_world 1000)
  = mkRun (Raise (SystemExit 1)) (sample_world 1000)
      [ EvBuild; EvPrint "Error: mode must be 'edited' or 'viewed', got 'opened'" ].
Proof.
  apply (@unknown_mode_exits folder_env (sample_world 1000) (sample_world 1000) []
           (sample_credentials 5000) 24 "2024-01-01T00:00:00" "opened" true
           eq_refl eq_refl eq_refl); discriminate.
Defined.

(** X23. A failing listing ends the script: in either mode, when the
    provider fails the one listing request, which asks for 50 files
    modified since the threshold, most recent first, an [HttpError] is
    printed and the script exits with status 1, while any other exception
    leaves [get_recent_files] uncaught; nothing of a listing is printed. *)
Theorem failed_listing_exits :
  forall (env : Env) (w w1 : World) (tr1 : list Event) (c : Credentials)
         (hours : Z) (t mode : string) (json_output : bool) (f : failure),
    Recent.get_credentials env w = mkRun (Ret c) w1 tr1 ->
    build env c = inr tt ->
    strftime_threshold env (now w1) hours = inr t ->
    mode = "edited" \/ mode = "viewed" ->
    files_list env (recent_query t) (Some "modifiedTime desc") (Some 50) RECENT_FIELDS
    = inl f ->
    Recent.get_recent_files env hours mode json_output w
    = match f with
      | Http msg =>
          mkRun (Raise (SystemExit 1)) w1
            (tr1 ++ [ EvBuild; script_request t; EvPrint ("An error occurred: " ++ msg) ])
      | Other msg =>
          mkRun (Raise (PyException msg)) w1 (tr1 ++ [ EvBuild; script_request t ])
      end.
Proof.
  intros env w w1 tr1 c hours t mode json_output f Hcreds Hbuild Htime Hmode Hlist.
  assert (Hbody : forall A (k : json -> M A),
             (creds <- Recent.get_credentials env ;;
              emit EvBuild ;;;
              lift (build env creds) ;;;
              w0 <- get_world ;;
              threshold_time_str <- lift (strftime_threshold env (now w0) hours) ;;
              ' (query, order_by) <-
                match Recent.query_of_mode mode threshold_time_str with
                | Some qo => ret qo
                | None =>
                    print ("Error: mode must be 'edited' or 'viewed', got '" ++ mode ++ "'") ;;;
                    raise (SystemExit 1)
                end ;;
              results <- call_files_list env query (Some order_by) (Some 50) RECENT_FIELDS ;;
              k results) w
             = mkRun (Raise (exn_of_failure f)) w1 (tr1 ++ [ EvBuild; script_request t ])).
  { intros A k.
    eapply (@recent_setup_run env w w1 tr1 c hours t Hcreds Hbuild Htime);
      [intros w'; reflexivity|].
    cbv beta. rewrite (query_of_valid_mode t Hmode).
    erewrite bind_pure by reflexivity.
    apply bind_fail. exact (call_files_list_fails env _ _ _ _ w1 Hlist). }
  unfold Recent.get_recent_files.
  destruct f as [msg|msg]; cbn [exn_of_failure] in Hbody.
  - change (tr1 ++ [ EvBuild; script_request t; EvPrint ("An error occurred: " ++ msg) ])%list
      with (tr1 ++ [ EvBuild; script_request t ] ++ [EvPrint ("An error occurred: " ++ msg)])%list.
    rewrite app_assoc.
    eapply try_except_handled; [apply Hbody|reflexivity|reflexivity].
  - apply try_except_uncaught; [apply Hbody|reflexivity].
Qed.

Lemma failed_listing_exits_witness :
  Recent.get_recent_files forbidden_env 24 "viewed" false (sample_world 1000)
  = mkRun (Raise (SystemExit 1)) (sample_world 1000)
      [ EvBuild; script_request "2024-01-01T00:00:00";
        EvPrint "An error occurred: <HttpError 403 Forbidden>" ].
Proof.
  exact (@failed_listing_exits forbidden_env (sample_world 1000) (sample_world 1000) []
           (sample_credentials 5000) 24 "2024-01-01T00:00:00" "viewed" false
           (Http "<HttpError 403 Forbidden>")
           eq_refl eq_refl eq_refl (or_intror eq_refl) eq_refl).
Defined.

(** The body of [get_recent_files] after a listing that succeeded. *)
Lemma recent_listing_run env w w1 tr1 c hours t mode (json_output : bool) response items
    (o : unit) tr2 :
  Recent.get_credentials env w = mkRun (Ret c) w1 tr1 ->
  build env c = inr tt ->
  strftime_threshold env (now w1) hours = inr t ->
  mode = "edited" \/ mode = "viewed" ->
  files_list env (recent_query t) (Some "modifiedTime desc") (Some 50) RECENT_FIELDS
  = inr (JObj response) ->
  get_or response "files" (JArr []) = JArr items ->
  ((if json_output then
      items0 <- py_iter (JArr items) ;;
      output <- for_each Recent.entry_of items0 ;;
      print (dumps (Some 2%nat) (JArr output))
    else
      if negb (py_truthy (JArr items)) then
        print ("No files " ++ mode ++ " in the last " ++ string_of_Z hours ++ " hours.")
      else
        print (listing_header mode hours) ;;;
        items0 <- py_iter (JArr items) ;;
        Recent.print_items env 1 items0) : M unit) w1
  = mkRun (Ret o) w1 tr2 ->
  Recent.get_recent_files env hours mode json_output w
  = mkRun (Ret o) w1 (tr1 ++ EvBuild :: script_request t :: tr2).
Proof.
  intros Hcreds Hbuild Htime Hmode Hlist Hfiles Hrest.
  unfold Recent.get_recent_files. apply try_except_ret.
  eapply (@recent_setup_run env w w1 tr1 c hours t Hcreds Hbuild Htime);
    [intros w'; reflexivity|].
  cbv beta. rewrite (query_of_valid_mode t Hmode).
  erewrite bind_pure by reflexivity.
  eapply (@bind_then _ _ _ _ w1 (JObj response) w1 [script_request t]);
    [exact (call_files_list_run env _ _ _ _ w1 Hlist)|].
  cbv beta.
  erewrite bind_pure by apply py_get_run. rewrite Hfiles.
  exact Hrest.
Qed.



(** X25. The text output of the script: when the listing succeeds with
    at least one item, all of them dicts, [get_recent_files] prints the
    header that names the mode and the lookback and then, for each item in
    the order of the provider, numbered from 1, its name ([Untitled] when
    missing), its modification time and a blank line, with a line for the
    link before the blank one exactly when the item has a non-empty link.
    The time is [Unknown] when missing or empty, the reformatted time
    when the runtime can parse it, and the value as it is otherwise. *)
Theorem text_output_numbers_items :
  forall (env : Env) (w w1 : World) (tr1 : list Event) (c : Credentials)
         (hours : Z) (t mode : string) (response : list (string * json))
         (items : list json),
    Recent.get_credentials env w = mkRun (Ret c) w1 tr1 ->
    build env c = inr tt ->
    strftime_threshold env (now w1) hours = inr t ->
    mode = "edited" \/ mode = "viewed" ->
    files_list env (recent_query t) (Some "modifiedTime desc") (Some 50) RECENT_FIELDS
    = inr (JObj response) ->
    get_or response "files" (JArr []) = JArr items ->
    items <> [] ->
    forallb is_dict items = true ->
    Recent.get_recent_files env hours mode false w
    = mkRun (Ret tt) w1
        (tr1 ++ EvBuild :: script_request t :: EvPrint (listing_header mode hours)
             :: listing_lines env 1 items)
    /\ Recent.mod_time_str env (JStr "") = "Unknown"
    /\ (forall s s',
           s <> "" -> reformat_iso env s = Some s' -> Recent.mod_time_str env (JStr s) = s')
    /\ (forall s,
           s <> "" -> reformat_iso env s = None -> Recent.mod_time_str env (JStr s) = s).
Proof.
  intros env w w1 tr1 c hours t mode response items
         Hcreds Hbuild Htime Hmode Hlist Hfiles Hsome Hdicts.
  assert (Hset : forall s, s <> "" -> py_truthy (JStr s) = true).
  { intros s Hs. cbn. unfold str_eqb.
    destruct (String.eqb_spec s ""); [contradiction|reflexivity]. }
  split; [|split; [reflexivity|split]];
    [|intros s s' Hs Hiso; unfold Recent.mod_time_str; now rewrite (Hset s Hs), Hiso
     |intros s Hs Hiso; unfold Recent.mod_time_str; now rewrite (Hset s Hs), Hiso].
  apply (@recent_listing_run env w w1 tr1 c hours t mode false response items tt
           (EvPrint (listing_header mode hours) :: listing_lines env 1 items)
           Hcreds Hbuild Htime Hmode Hlist Hfiles).
  assert (Htruthy : negb (py_truthy (JArr items)) = false).
  { destruct items; [contradiction|reflexivity]. }
  rewrite Htruthy.
  apply bind_print_then.
  erewrite bind_pure by reflexivity.
  apply print_items_run. exact Hdicts.
Qed.

Lemma text_output_numbers_items_witness :
  Recent.get_recent_files twins_env 24 "edited" false (sample_world 1000)
  = mkRun (Ret tt) (sample_world 1000)
      [ EvBuild; script_request "2024-01-01T00:00:00";
        EvPrint (listing_header "edited" 24);
        EvPrint "1. budget.xlsx"; EvPrint "   Modified: Unknown"; EvPrint "";
        EvPrint "2. budget.xlsx"; EvPrint "   Modified: Unknown"; EvPrint "" ].
Proof.
  refine (proj1 (@text_output_numbers_items twins_env (sample_world 1000) (sample_world 1000)
                   [] (sample_credentials 5000) 24 "2024-01-01T00:00:00" "edited"
                   [("files", JArr [budget_file 0; budget_file 1])]
                   [budget_file 0; budget_file 1]
                   eq_refl eq_refl eq_refl (or_introl eq_refl) eq_refl eq_refl _ eq_refl)).
  discriminate.
Defined.

(** ** Filters of plain inputs *)

Lemma matches_one_literal opening closing value :
  mentions quote value = false ->
  mentions backslash value = false ->
  literals_of [opening; closing] (opening ++ value ++ String quote closing) = Some [value].
Proof.
  intros Hq Hb. cbn [literals_of].
  rewrite strip_prefix_app, (read_literal_plain _ _ Hq Hb).
  rewrite <- (append_nil_r closing) at 2. rewrite strip_prefix_app. reflexivity.
Qed.

(** X26. An input without single quote and without backslash gives
    well-formed filters: the filter of [find_file_by_name] and the filter
    of a folder listing hold one literal, the filter of [search_drive]
    holds two, and each of these literals denotes exactly the input. *)
Theorem plain_inputs_give_literal_filters :
  forall value : string,
    mentions quote value = false ->
    mentions backslash value = false ->
    matches_literally NAME_SEGMENTS value (Download.name_query value) = true
    /\ matches_literally SEARCH_SEGMENTS value (Server.search_query value) = true
    /\ matches_literally FOLDER_SEGMENTS value (folder_query value) = true.
Proof.
  intros value Hq Hb.
  assert (Hself : str_eqb value value = true) by apply String.eqb_refl.
  split; [|split].
  - unfold matches_literally, NAME_SEGMENTS, Download.name_query.
    change (value ++ "' and trashed = false")
      with (value ++ String quote " and trashed = false").
    rewrite (matches_one_literal "name = '" " and trashed = false" _ Hq Hb).
    cbn. now rewrite Hself.
  - unfold matches_literally, SEARCH_SEGMENTS, Server.search_query.
    cbn [literals_of].
    rewrite (strip_prefix_app "(name contains '").
    change (value ++ "' or fullText contains '" ++ value ++ "') and trashed = false")
      with (value ++ String quote (" or fullText contains '" ++ value
                                   ++ String quote ") and trashed = false")).
    rewrite (read_literal_plain _ _ Hq Hb).
    rewrite (strip_prefix_app " or fullText contains '").
    rewrite (read_literal_plain _ _ Hq Hb).
    cbn. now rewrite Hself.
  - unfold matches_literally, FOLDER_SEGMENTS, folder_query.
    change ("'" ++ value ++ "' in parents and trashed = false")
      with ("'" ++ value ++ String quote " in parents and trashed = false").
    rewrite (matches_one_literal "'" " in parents and trashed = false" _ Hq Hb).
    cbn. now rewrite Hself.
Qed.

Lemma plain_inputs_give_literal_filters_witness :
  matches_literally NAME_SEGMENTS "budget 2024" (Download.name_query "budget 2024") = true
  /\ matches_literally SEARCH_SEGMENTS "budget 2024" (Server.search_query "budget 2024") = true
  /\ matches_literally FOLDER_SEGMENTS "budget 2024" (folder_query "budget 2024") = true.
Proof.
  exact (@plain_inputs_give_literal_filters "budget 2024" eq_refl eq_refl).
Defined.

(** ** A lookback the runtime cannot represent *)

(** X27. When the threshold of the lookback cannot be computed, the
    date arithmetic raising, nothing is asked of the provider:
    [list_recent_files] returns the error payload with the text of the
    exception, and [get_recent_files] leaves it uncaught, having printed
    nothing. *)
Theorem unrepresentable_lookback_asks_nothing :
  forall (env : Env) (hours : Z) (msg : string),
    (forall (w w1 : World) (tr1 : list Event) (max_results : Z),
        Server.get_drive_service env w = mkRun (Ret tt) w1 tr1 ->
        strftime_threshold env (now w1) hours = inl (Other msg) ->
        Server.list_recent_files env hours max_results w = error_run msg w1 tr1)
    /\ (forall (w w1 : World) (tr1 : list Event) (c : Credentials) (mode : string)
               (json_output : bool),
           Recent.get_credentials env w = mkRun (Ret c) w1 tr1 ->
           build env c = inr tt ->
           strftime_threshold env (now w1) hours = inl (Other msg) ->
           Recent.get_recent_files env hours mode json_output w
           = mkRun (Raise (PyException msg)) w1 (tr1 ++ [EvBuild])).
Proof.
  intros env hours msg. split.
  - intros w w1 tr1 max_results Hservice Htime.
    unfold Server.list_recent_files, Server.list_recent_files_try. apply tool_catches_exception.
    rewrite <- (app_nil_r tr1).
    eapply bind_fails_after; [exact Hservice|].
    erewrite bind_pure by reflexivity.
    apply bind_fail. rewrite Htime. reflexivity.
  - intros w w1 tr1 c mode json_output Hcreds Hbuild Htime.
    unfold Recent.get_recent_files. apply try_except_uncaught; [|reflexivity].
    eapply bind_fails_after; [exact Hcreds|].
    eapply (@bind_fails_after _ _ _ _ w1 tt w1 [EvBuild] _ w1 []); [reflexivity|].
    erewrite bind_pure by (apply lift_run; exact Hbuild).
    erewrite bind_pure by reflexivity.
    apply bind_fail. rewrite Htime. reflexivity.
Qed.

Lemma unrepresentable_lookback_asks_nothing_witness :
  Server.list_recent_files overflowing_env 99999999999 25 (sample_world 1000)
  = error_run "date value out of range" (sample_world 1000) [EvBuild].
Proof.
  exact (proj1 (@unrepresentable_lookback_asks_nothing overflowing_env 99999999999
                  "date value out of range")
           (sample_world 1000) (sample_world 1000) [EvBuild] 25 eq_refl eq_refl).
Defined.
